(** * MedicControl rule engine: [AIService] (src/ai/ai.service.ts, ai.types.ts)

    A shallow embedding of the rule-based patient analysis service and the
    properties of its analysers, risk score and recommendations.

    Modelling conventions.
    - A TypeScript [number] is an exact rational [Q]; IEEE rounding, NaN and
      the infinities are outside the model.  An optional field [x?: number]
      is an [option Q], [None] standing for [undefined].
    - A [Date] is its epoch time in milliseconds, a [Z].  The wall clock read
      by [new Date()] is the explicit argument [now].
    - The template literals pushed onto [reasons] are kept as structured
      values ([Reason]) carrying their interpolated numbers; the
      recommendations are the strings of the source.
    - [analyzeExams] and the orchestration in [generatePatientSummary] are
      not part of this development: the score and the recommendations are
      studied on arbitrary analysis records. *)

From Stdlib Require Import QArith Qround ZArith String List Bool Lia Lqa.
From Stdlib Require Import DecimalString Permutation Sorted.
Import ListNotations.

Open Scope Q_scope.

(** ** Numbers *)

Abbreviation number := Q (only parsing).

(** [a >= b] and [a <= b] on numbers, as booleans. *)
Definition geq (a b : number) : bool := Qle_bool b a.
Definition leq (a b : number) : bool := Qle_bool a b.
Definition gt (a b : number) : bool := negb (Qle_bool a b).

(** Comparisons whose left operand may be [undefined]: in JavaScript
    [undefined >= t] and [undefined <= t] are both [false]. *)
Definition geq_opt (a : option number) (b : number) : bool :=
  match a with Some x => geq x b | None => false end.
Definition leq_opt (a : option number) (b : number) : bool :=
  match a with Some x => leq x b | None => false end.

(** [Math.round]: the nearest integer, halves going up. *)
Definition Math_round (x : number) : Z := Qfloor (x + (1 # 2)).

(** [Math.round(x * 100) / 100]. *)
Definition round2 (x : number) : number := inject_Z (Math_round (x * 100)) / 100.

(** [Math.round((n / d) * 10000) / 100]. *)
Definition ratePercent (n d : nat) : number :=
  inject_Z (Math_round ((inject_Z (Z.of_nat n) / inject_Z (Z.of_nat d)) * 10000)) / 100.

Definition Math_max (a b : number) : number := if Qle_bool a b then b else a.
Definition Math_min (a b : number) : number := if Qle_bool a b then a else b.

(** ** Rule configuration (ai.types.ts, [RiskCalculationConfig])

    The records are parametric in the type [N] of their leaves: [N := number]
    is the declared TypeScript type; [N := option number] is the run-time view
    of an object some of whose leaf properties are absent. *)

Module Adherence.
Record t (N : Type) : Type := mk {
  goodThreshold : N;
  mediumThreshold : N;
  badWeight : N;
  mediumWeight : N }.
Arguments mk {N} _ _ _ _.
Arguments goodThreshold {N} _.
Arguments mediumThreshold {N} _.
Arguments badWeight {N} _.
Arguments mediumWeight {N} _.
End Adherence.

Module Pressure.
Record t (N : Type) : Type := mk {
  systolicHigh : N;
  systolicLow : N;
  diastolicHigh : N;
  diastolicLow : N;
  weight : N }.
Arguments mk {N} _ _ _ _ _.
Arguments systolicHigh {N} _.
Arguments systolicLow {N} _.
Arguments diastolicHigh {N} _.
Arguments diastolicLow {N} _.
Arguments weight {N} _.
End Pressure.

Module Glucose.
Record t (N : Type) : Type := mk { high : N; low : N; weight : N }.
Arguments mk {N} _ _ _.
Arguments high {N} _.
Arguments low {N} _.
Arguments weight {N} _.
End Glucose.

Module HeartRate.
Record t (N : Type) : Type := mk { high : N; low : N; weight : N }.
Arguments mk {N} _ _ _.
Arguments high {N} _.
Arguments low {N} _.
Arguments weight {N} _.
End HeartRate.

Module Temperature.
Record t (N : Type) : Type := mk { high : N; low : N; weight : N }.
Arguments mk {N} _ _ _.
Arguments high {N} _.
Arguments low {N} _.
Arguments weight {N} _.
End Temperature.

Module Oxygen.
Record t (N : Type) : Type := mk { low : N; weight : N }.
Arguments mk {N} _ _.
Arguments low {N} _.
Arguments weight {N} _.
End Oxygen.

Module Vitals.
Record t (N : Type) : Type := mk {
  pressure : Pressure.t N;
  glucose : Glucose.t N;
  heartRate : HeartRate.t N;
  temperature : Temperature.t N;
  oxygen : Oxygen.t N }.
Arguments mk {N} _ _ _ _ _.
Arguments pressure {N} _.
Arguments glucose {N} _.
Arguments heartRate {N} _.
Arguments temperature {N} _.
Arguments oxygen {N} _.
End Vitals.

Module Exams.
Record t (N : Type) : Type := mk {
  overdueDays : N;
  overdueWeight : N;
  pendingWeight : N }.
Arguments mk {N} _ _ _.
Arguments overdueDays {N} _.
Arguments overdueWeight {N} _.
Arguments pendingWeight {N} _.
End Exams.

Module RiskLevels.
Record t (N : Type) : Type := mk { lowMax : N; moderateMax : N }.
Arguments mk {N} _ _.
Arguments lowMax {N} _.
Arguments moderateMax {N} _.
End RiskLevels.

Record RiskCalculationConfig (N : Type) : Type := mkConfig {
  adherence : Adherence.t N;
  vitals : Vitals.t N;
  exams : Exams.t N;
  riskLevels : RiskLevels.t N }.
Arguments mkConfig {N} _ _ _ _.
Arguments adherence {N} _.
Arguments vitals {N} _.
Arguments exams {N} _.
Arguments riskLevels {N} _.

(** [Partial<RiskCalculationConfig>]: each top-level property may be absent;
    a property that is present holds a whole group. *)
Record PartialConfig (N : Type) : Type := mkPartial {
  adherence_opt : option (Adherence.t N);
  vitals_opt : option (Vitals.t N);
  exams_opt : option (Exams.t N);
  riskLevels_opt : option (RiskLevels.t N) }.
Arguments mkPartial {N} _ _ _ _.
Arguments adherence_opt {N} _.
Arguments vitals_opt {N} _.
Arguments exams_opt {N} _.
Arguments riskLevels_opt {N} _.

(** [DEFAULT_RISK_CONFIG], over any leaf type into which the numeric literals
    are injected by [lit]. *)
Definition default_config_with {N : Type} (lit : number -> N)
  : RiskCalculationConfig N :=
  mkConfig
    (Adherence.mk (lit 90) (lit 75) (lit 25) (lit 10))
    (Vitals.mk
       (Pressure.mk (lit 140) (lit 90) (lit 90) (lit 60) (lit 15))
       (Glucose.mk (lit 180) (lit 70) (lit 15))
       (HeartRate.mk (lit 100) (lit 50) (lit 10))
       (Temperature.mk (lit 38) (lit 35) (lit 10))
       (Oxygen.mk (lit 92) (lit 20)))
    (Exams.mk (lit 30) (lit 15) (lit 5))
    (RiskLevels.mk (lit 29) (lit 59)).

Definition DEFAULT_RISK_CONFIG : RiskCalculationConfig number :=
  default_config_with (fun q => q).

(** The object spread [{ ...defaults, ...config }]: a property of [config]
    that is present replaces the property of [defaults] as a whole.  A missing
    argument ([config === undefined]) spreads nothing. *)
Definition orElse {A : Type} (o : option A) (d : A) : A :=
  match o with Some a => a | None => d end.

Definition spread {N : Type} (defaults : RiskCalculationConfig N)
    (config : option (PartialConfig N)) : RiskCalculationConfig N :=
  match config with
  | None => defaults
  | Some c =>
      mkConfig (orElse (adherence_opt c) (adherence defaults))
               (orElse (vitals_opt c) (vitals defaults))
               (orElse (exams_opt c) (exams defaults))
               (orElse (riskLevels_opt c) (riskLevels defaults))
  end.

(** The outcome of running a constructor: an instance, or a thrown error. *)
Inductive Completion (A : Type) : Type :=
  | Returned (a : A)
  | Thrown (message : string).
Arguments Returned {A} _.
Arguments Thrown {A} _.

(** [class AIService]: its only field is the private [config]. *)
Record AIService (N : Type) : Type := mkService { config : RiskCalculationConfig N }.
Arguments mkService {N} _.
Arguments config {N} _.

(** [constructor(config?)]: one assignment, no check, no [throw]. *)
Definition AIService_new_with {N : Type} (lit : number -> N)
    (config : option (PartialConfig N)) : Completion (AIService N) :=
  Returned (mkService (spread (default_config_with lit) config)).

(** The constructor at the declared type. *)
Definition AIService_new (config : option (PartialConfig number))
  : Completion (AIService number) :=
  AIService_new_with (fun q => q) config.

(** [export const aiService = new AIService()]. *)
Definition aiService : Completion (AIService number) := AIService_new None.

(** The constructor as it runs on an object whose groups may lack leaves. *)
Definition AIService_new_js (config : option (PartialConfig (option number)))
  : Completion (AIService (option number)) :=
  AIService_new_with Some config.

(** ** Input records and analysis results (ai.types.ts) *)

Definition Date := Z.

Definition msPerDay : Z := 86400000.

(** [d = new Date(); d.setDate(d.getDate() - n)]: the instant [n] calendar
    days before [now], taken with days of 24 hours. *)
Definition daysAgo (now : Date) (n : Z) : Date := (now - n * msPerDay)%Z.

(** [new Date(a) >= b] on valid dates. *)
Definition notBefore (a b : Date) : bool := (b <=? a)%Z.

Inductive ReminderStatus : Type :=
  | rs_pending | rs_taken | rs_missed | rs_skipped | rs_late.

Definition ReminderStatus_eqb (a b : ReminderStatus) : bool :=
  match a, b with
  | rs_pending, rs_pending | rs_taken, rs_taken | rs_missed, rs_missed
  | rs_skipped, rs_skipped | rs_late, rs_late => true
  | _, _ => false
  end.

Record ReminderRecord : Type := mkReminder {
  scheduledAt : Date;
  status : ReminderStatus }.

Inductive AdherenceStatus : Type := good | medium | bad.

Record AdherenceAnalysis : Type := mkAdherence {
  days : nat;
  totalReminders : nat;
  taken : nat;
  late : nat;
  missed : nat;
  adherenceRate : number;
  adherenceStatus : AdherenceStatus }.

Inductive VitalType : Type :=
  | blood_pressure | heart_rate | temperature | glucose | weight
  | oxygen_saturation.

Definition VitalType_eqb (a b : VitalType) : bool :=
  match a, b with
  | blood_pressure, blood_pressure | heart_rate, heart_rate
  | temperature, temperature | glucose, glucose | weight, weight
  | oxygen_saturation, oxygen_saturation => true
  | _, _ => false
  end.

Record VitalRecord : Type := mkVital {
  type : VitalType;
  systolic : option number;
  diastolic : option number;
  numericValue : option number;
  recordedAt : Date }.

Inductive VitalFlag : Type :=
  | PRESSURE_HIGH | PRESSURE_LOW | GLUCOSE_HIGH | GLUCOSE_LOW
  | HEART_RATE_HIGH | HEART_RATE_LOW | TEMPERATURE_HIGH | TEMPERATURE_LOW
  | OXYGEN_LOW.

Definition VitalFlag_eqb (a b : VitalFlag) : bool :=
  match a, b with
  | PRESSURE_HIGH, PRESSURE_HIGH | PRESSURE_LOW, PRESSURE_LOW
  | GLUCOSE_HIGH, GLUCOSE_HIGH | GLUCOSE_LOW, GLUCOSE_LOW
  | HEART_RATE_HIGH, HEART_RATE_HIGH | HEART_RATE_LOW, HEART_RATE_LOW
  | TEMPERATURE_HIGH, TEMPERATURE_HIGH | TEMPERATURE_LOW, TEMPERATURE_LOW
  | OXYGEN_LOW, OXYGEN_LOW => true
  | _, _ => false
  end.

(** The severity tier ['low' | 'medium' | 'high'] of a flag detail. *)
Inductive Severity : Type := sev_low | sev_medium | sev_high.

Definition Severity_eqb (a b : Severity) : bool :=
  match a, b with
  | sev_low, sev_low | sev_medium, sev_medium | sev_high, sev_high => true
  | _, _ => false
  end.

Record FlagDetail : Type := mkDetail {
  flag : VitalFlag;
  value : number;
  threshold : number;
  severity : Severity }.

Record LastMeasurements : Type := mkLast {
  last_systolic : option number;
  last_diastolic : option number;
  last_heartRate : option number;
  last_bloodGlucose : option number;
  last_temperature : option number;
  last_oxygenSaturation : option number }.

Record VitalsAnalysis : Type := mkVitals {
  lastMeasurements : LastMeasurements;
  flags : list VitalFlag;
  flagDetails : list FlagDetail }.

(** Of [ExamsAnalysis] the score and the recommendations read the two
    counters only. *)
Record ExamsAnalysis : Type := mkExams {
  pendingExams : nat;
  overdueExams : nat;
  completedExams : nat }.

(** ['low' | 'moderate' | 'high']. *)
Inductive RiskLevel : Type := level_low | level_moderate | level_high.

(** One constructor per template literal pushed onto [reasons], carrying the
    interpolated numbers. *)
Inductive Reason : Type :=
  | ReasonBadAdherence (rate : number)
  | ReasonMediumAdherence (rate : number)
  | ReasonFlag (f : VitalFlag) (v : number)
  | ReasonOverdueExams (n : nat) (overdueDays : number)
  | ReasonPendingExams (n : nat).

Record RiskScore : Type := mkRisk {
  risk_value : number;
  level : RiskLevel;
  reasons : list Reason }.

(** ** [analyzeAdherence] *)

Definition countStatus (s : ReminderStatus) (l : list ReminderRecord) : nat :=
  length (filter (fun r => ReminderStatus_eqb (status r) s) l).

Definition classifyAdherence (cfg : RiskCalculationConfig number)
    (adherenceRate : number) : AdherenceStatus :=
  if geq adherenceRate (Adherence.goodThreshold (adherence cfg)) then good
  else if geq adherenceRate (Adherence.mediumThreshold (adherence cfg)) then medium
  else bad.

Definition analyzeAdherence (cfg : RiskCalculationConfig number) (now : Date)
    (reminders : list ReminderRecord) : AdherenceAnalysis :=
  let thirtyDaysAgo := daysAgo now 30 in
  let recentReminders :=
    filter (fun r => notBefore (scheduledAt r) thirtyDaysAgo) reminders in
  let totalReminders := length recentReminders in
  let taken := countStatus rs_taken recentReminders in
  let late := countStatus rs_late recentReminders in
  let missed := countStatus rs_missed recentReminders in
  let adherenceRate :=
    if (0 <? totalReminders)%nat
    then ratePercent (taken + late) totalReminders
    else 100 in
  mkAdherence 30 totalReminders taken late missed adherenceRate
    (classifyAdherence cfg adherenceRate).

(** ** [groupVitalsByType] *)

(** [Array.prototype.sort] with the comparator
    [(a, b) => b.recordedAt - a.recordedAt]: a stable sort, most recent
    first.  A record goes in front of the first record that is not strictly
    more recent, so records of equal time keep their input order. *)
Fixpoint insertByRecency (v : VitalRecord) (l : list VitalRecord)
  : list VitalRecord :=
  match l with
  | [] => [v]
  | w :: l' =>
      if (recordedAt v <? recordedAt w)%Z
      then w :: insertByRecency v l'
      else v :: l
  end.

Definition sortByRecency (l : list VitalRecord) : list VitalRecord :=
  fold_right insertByRecency [] l.

Definition ofType (ty : VitalType) (l : list VitalRecord) : list VitalRecord :=
  filter (fun v => VitalType_eqb (type v) ty) l.

(** The grouped object, read at key [ty]: [undefined] when no record has that
    type, the sorted records of that type otherwise. *)
Definition groupVitalsByType (vitals : list VitalRecord) (ty : VitalType)
  : option (list VitalRecord) :=
  match ofType ty vitals with
  | [] => None
  | g => Some (sortByRecency g)
  end.

(** ** [analyzeVitals] *)

(** [c ? 'high' : m ? 'medium' : 'low']. *)
Definition tier (c m : bool) : Severity :=
  if c then sev_high else if m then sev_medium else sev_low.

(** [flags.push(f); flagDetails.push({ flag: f, value, threshold, severity })]. *)
Definition pushFlag (d : FlagDetail) (a : VitalsAnalysis) : VitalsAnalysis :=
  mkVitals (lastMeasurements a) (flags a ++ [flag d]) (flagDetails a ++ [d]).

Definition pushFlagIf (c : bool) (d : FlagDetail) (a : VitalsAnalysis)
  : VitalsAnalysis :=
  if c then pushFlag d a else a.

Definition setLast (f : LastMeasurements -> LastMeasurements)
    (a : VitalsAnalysis) : VitalsAnalysis :=
  mkVitals (f (lastMeasurements a)) (flags a) (flagDetails a).

Definition isHighPressure (cfg : RiskCalculationConfig number) (v : VitalRecord)
  : bool :=
  geq_opt (systolic v) (Pressure.systolicHigh (Vitals.pressure (vitals cfg)))
  || geq_opt (diastolic v) (Pressure.diastolicHigh (Vitals.pressure (vitals cfg))).

Definition isLowPressure (cfg : RiskCalculationConfig number) (v : VitalRecord)
  : bool :=
  leq_opt (systolic v) (Pressure.systolicLow (Vitals.pressure (vitals cfg)))
  || leq_opt (diastolic v) (Pressure.diastolicLow (Vitals.pressure (vitals cfg))).

Definition isHighGlucose (cfg : RiskCalculationConfig number) (v : VitalRecord)
  : bool :=
  geq_opt (numericValue v) (Glucose.high (Vitals.glucose (vitals cfg))).

Definition isLowGlucose (cfg : RiskCalculationConfig number) (v : VitalRecord)
  : bool :=
  leq_opt (numericValue v) (Glucose.low (Vitals.glucose (vitals cfg))).

Definition count (p : VitalRecord -> bool) (l : list VitalRecord) : nat :=
  length (filter p l).

(** The blood-pressure block. *)
Definition analyzePressure (cfg : RiskCalculationConfig number)
    (group : option (list VitalRecord)) (a : VitalsAnalysis) : VitalsAnalysis :=
  match group with
  | Some ((latest :: _) as bp) =>
      match systolic latest, diastolic latest with
      | Some s, Some d =>
          let a := setLast (fun m =>
            mkLast (Some s) (Some d) (last_heartRate m) (last_bloodGlucose m)
                   (last_temperature m) (last_oxygenSaturation m)) a in
          let highPressureCount := count (isHighPressure cfg) bp in
          let lowPressureCount := count (isLowPressure cfg) bp in
          let a := pushFlagIf (2 <=? highPressureCount)%nat
            (mkDetail PRESSURE_HIGH s
               (Pressure.systolicHigh (Vitals.pressure (vitals cfg)))
               (tier (geq s 160) (geq s 150))) a in
          pushFlagIf (2 <=? lowPressureCount)%nat
            (mkDetail PRESSURE_LOW s
               (Pressure.systolicLow (Vitals.pressure (vitals cfg)))
               (tier (leq s 80) (leq s 85))) a
      | _, _ => a
      end
  | _ => a
  end.

(** The glucose block. *)
Definition analyzeGlucose (cfg : RiskCalculationConfig number)
    (group : option (list VitalRecord)) (a : VitalsAnalysis) : VitalsAnalysis :=
  match group with
  | Some ((latest :: _) as gl) =>
      match numericValue latest with
      | Some x =>
          let a := setLast (fun m =>
            mkLast (last_systolic m) (last_diastolic m) (last_heartRate m)
                   (Some x) (last_temperature m) (last_oxygenSaturation m)) a in
          let highGlucoseCount := count (isHighGlucose cfg) gl in
          let lowGlucoseCount := count (isLowGlucose cfg) gl in
          let a := pushFlagIf (2 <=? highGlucoseCount)%nat
            (mkDetail GLUCOSE_HIGH x (Glucose.high (Vitals.glucose (vitals cfg)))
               (tier (geq x 250) (geq x 200))) a in
          pushFlagIf (1 <=? lowGlucoseCount)%nat
            (mkDetail GLUCOSE_LOW x (Glucose.low (Vitals.glucose (vitals cfg)))
               (tier (leq x 50) (leq x 60))) a
      | None => a
      end
  | _ => a
  end.

(** The heart-rate block. *)
Definition analyzeHeartRate (cfg : RiskCalculationConfig number)
    (group : option (list VitalRecord)) (a : VitalsAnalysis) : VitalsAnalysis :=
  match group with
  | Some (latest :: _) =>
      match numericValue latest with
      | Some x =>
          let a := setLast (fun m =>
            mkLast (last_systolic m) (last_diastolic m) (Some x)
                   (last_bloodGlucose m) (last_temperature m)
                   (last_oxygenSaturation m)) a in
          let a := pushFlagIf (geq x (HeartRate.high (Vitals.heartRate (vitals cfg))))
            (mkDetail HEART_RATE_HIGH x
               (HeartRate.high (Vitals.heartRate (vitals cfg)))
               (tier (geq x 120) (geq x 110))) a in
          pushFlagIf (leq x (HeartRate.low (Vitals.heartRate (vitals cfg))))
            (mkDetail HEART_RATE_LOW x
               (HeartRate.low (Vitals.heartRate (vitals cfg)))
               (tier (leq x 40) (leq x 45))) a
      | None => a
      end
  | _ => a
  end.

(** The temperature block. *)
Definition analyzeTemperature (cfg : RiskCalculationConfig number)
    (group : option (list VitalRecord)) (a : VitalsAnalysis) : VitalsAnalysis :=
  match group with
  | Some (latest :: _) =>
      match numericValue latest with
      | Some x =>
          let a := setLast (fun m =>
            mkLast (last_systolic m) (last_diastolic m) (last_heartRate m)
                   (last_bloodGlucose m) (Some x) (last_oxygenSaturation m)) a in
          let a := pushFlagIf
            (geq x (Temperature.high (Vitals.temperature (vitals cfg))))
            (mkDetail TEMPERATURE_HIGH x
               (Temperature.high (Vitals.temperature (vitals cfg)))
               (tier (geq x 39) (geq x (77 # 2)))) a in
          pushFlagIf (leq x (Temperature.low (Vitals.temperature (vitals cfg))))
            (mkDetail TEMPERATURE_LOW x
               (Temperature.low (Vitals.temperature (vitals cfg)))
               (tier (leq x 34) (leq x (69 # 2)))) a
      | None => a
      end
  | _ => a
  end.

(** The oxygen-saturation block. *)
Definition analyzeOxygen (cfg : RiskCalculationConfig number)
    (group : option (list VitalRecord)) (a : VitalsAnalysis) : VitalsAnalysis :=
  match group with
  | Some (latest :: _) =>
      match numericValue latest with
      | Some x =>
          let a := setLast (fun m =>
            mkLast (last_systolic m) (last_diastolic m) (last_heartRate m)
                   (last_bloodGlucose m) (last_temperature m) (Some x)) a in
          pushFlagIf (leq x (Oxygen.low (Vitals.oxygen (vitals cfg))))
            (mkDetail OXYGEN_LOW x (Oxygen.low (Vitals.oxygen (vitals cfg)))
               (tier (leq x 88) (leq x 90))) a
      | None => a
      end
  | _ => a
  end.

Definition emptyAnalysis : VitalsAnalysis :=
  mkVitals (mkLast None None None None None None) [] [].

(** The measurements of the last seven days. *)
Definition recentVitals (now : Date) (vitals : list VitalRecord)
  : list VitalRecord :=
  filter (fun v => notBefore (recordedAt v) (daysAgo now 7)) vitals.

Definition analyzeVitals (cfg : RiskCalculationConfig number) (now : Date)
    (vitals : list VitalRecord) : VitalsAnalysis :=
  let vitalsByType := groupVitalsByType (recentVitals now vitals) in
  let a := emptyAnalysis in
  let a := analyzePressure cfg (vitalsByType blood_pressure) a in
  let a := analyzeGlucose cfg (vitalsByType glucose) a in
  let a := analyzeHeartRate cfg (vitalsByType heart_rate) a in
  let a := analyzeTemperature cfg (vitalsByType temperature) a in
  analyzeOxygen cfg (vitalsByType oxygen_saturation) a.

(** ** [calculateRiskScore] *)

(** The two locals [score] and [reasons], threaded through the function. *)
Definition ScoreState : Type := (number * list Reason)%type.

(** [score += w; reasons.push(r)]. *)
Definition contribute (w : number) (r : Reason) (st : ScoreState) : ScoreState :=
  (fst st + w, snd st ++ [r]).

(** [detail.severity === 'high' ? 1.5 : 1]. *)
Definition highFactor (s : Severity) : number :=
  if Severity_eqb s sev_high then 3 # 2 else 1.

Definition scoreAdherence (cfg : RiskCalculationConfig number)
    (a : AdherenceAnalysis) (st : ScoreState) : ScoreState :=
  match adherenceStatus a with
  | bad =>
      contribute (Adherence.badWeight (adherence cfg))
        (ReasonBadAdherence (adherenceRate a)) st
  | medium =>
      contribute (Adherence.mediumWeight (adherence cfg))
        (ReasonMediumAdherence (adherenceRate a)) st
  | good => st
  end.

(** The body of the loop over [vitals.flagDetails]: the [switch]. *)
Definition scoreFlag (cfg : RiskCalculationConfig number) (st : ScoreState)
    (detail : FlagDetail) : ScoreState :=
  let v := vitals cfg in
  match flag detail with
  | PRESSURE_HIGH =>
      contribute (Pressure.weight (Vitals.pressure v) * highFactor (severity detail))
        (ReasonFlag PRESSURE_HIGH (value detail)) st
  | PRESSURE_LOW =>
      contribute (Pressure.weight (Vitals.pressure v))
        (ReasonFlag PRESSURE_LOW (value detail)) st
  | GLUCOSE_HIGH =>
      contribute (Glucose.weight (Vitals.glucose v) * highFactor (severity detail))
        (ReasonFlag GLUCOSE_HIGH (value detail)) st
  | GLUCOSE_LOW =>
      contribute (Glucose.weight (Vitals.glucose v) * (3 # 2))
        (ReasonFlag GLUCOSE_LOW (value detail)) st
  | HEART_RATE_HIGH =>
      contribute (HeartRate.weight (Vitals.heartRate v))
        (ReasonFlag HEART_RATE_HIGH (value detail)) st
  | HEART_RATE_LOW =>
      contribute (HeartRate.weight (Vitals.heartRate v))
        (ReasonFlag HEART_RATE_LOW (value detail)) st
  | TEMPERATURE_HIGH =>
      contribute (Temperature.weight (Vitals.temperature v))
        (ReasonFlag TEMPERATURE_HIGH (value detail)) st
  | TEMPERATURE_LOW =>
      contribute (Temperature.weight (Vitals.temperature v))
        (ReasonFlag TEMPERATURE_LOW (value detail)) st
  | OXYGEN_LOW =>
      contribute (Oxygen.weight (Vitals.oxygen v) * highFactor (severity detail))
        (ReasonFlag OXYGEN_LOW (value detail)) st
  end.

Definition scoreVitals (cfg : RiskCalculationConfig number)
    (v : VitalsAnalysis) (st : ScoreState) : ScoreState :=
  fold_left (scoreFlag cfg) (flagDetails v) st.

Definition scoreExams (cfg : RiskCalculationConfig number) (e : ExamsAnalysis)
    (st : ScoreState) : ScoreState :=
  let st :=
    if (0 <? overdueExams e)%nat
    then contribute
           (Exams.overdueWeight (exams cfg) * inject_Z (Z.of_nat (overdueExams e)))
           (ReasonOverdueExams (overdueExams e) (Exams.overdueDays (exams cfg))) st
    else st in
  if (3 <? pendingExams e)%nat
  then contribute (Exams.pendingWeight (exams cfg))
         (ReasonPendingExams (pendingExams e)) st
  else st.

(** The state before the clamp. *)
Definition accumulate (cfg : RiskCalculationConfig number)
    (a : AdherenceAnalysis) (v : VitalsAnalysis) (e : ExamsAnalysis) : ScoreState :=
  scoreExams cfg e (scoreVitals cfg v (scoreAdherence cfg a (0, []))).

(** [Math.min(100, Math.max(0, score))]. *)
Definition clamp (score : number) : number := Math_min 100 (Math_max 0 score).

Definition levelOf (cfg : RiskCalculationConfig number) (score : number)
  : RiskLevel :=
  if leq score (RiskLevels.lowMax (riskLevels cfg)) then level_low
  else if leq score (RiskLevels.moderateMax (riskLevels cfg)) then level_moderate
  else level_high.

Definition calculateRiskScore (cfg : RiskCalculationConfig number)
    (a : AdherenceAnalysis) (v : VitalsAnalysis) (e : ExamsAnalysis) : RiskScore :=
  let st := accumulate cfg a v e in
  let score := clamp (fst st) in
  mkRisk (round2 score) (levelOf cfg score) (snd st).

(** ** [generateRecommendations] *)

Open Scope string_scope.

(** [`${n}`] for a counter. *)
Definition showNat (n : nat) : string := NilZero.string_of_uint (Nat.to_uint n).

Definition recBadAdherence1 : string :=
  "Refoccar estratégias de adesão: revisar horários de medicação, verificar suporte do cuidador e avaliar possíveis barreiras.".
Definition recBadAdherence2 : string :=
  "Configurar lembretes mais frequentes para o paciente e notificar o cuidador sobre medicações perdidas.".
Definition recMediumAdherence : string :=
  "Reforçar a importância da adesão ao tratamento com o paciente e cuidador.".
Definition recPressureUrgent : string :=
  "URGENTE: Pressão arterial muito elevada. Avaliar necessidade de ajuste imediato da medicação anti-hipertensiva com o médico responsável.".
Definition recPressureHigh : string :=
  "Avaliar ajuste da medicação anti-hipertensiva com o profissional responsável e intensificar monitorização.".
Definition recPressureLow : string :=
  "Investigar causas de hipotensão: verificar hidratação, ajustar medicação se necessário.".
Definition recGlucoseHigh1 : string :=
  "Glicemia acima da meta: revisar medicação antidiabética, reforçar orientações de dieta e atividade física.".
Definition recGlucoseHigh2 : string :=
  "Intensificar frequência de monitorização glicêmica e considerar consulta com endocrinologista.".
Definition recGlucoseLowUrgent : string :=
  "URGENTE: Episódios de hipoglicemia grave detectados. Revisar imediatamente doses de medicação e horários de alimentação.".
Definition recGlucoseLow : string :=
  "Atenção aos episódios de hipoglicemia: ajustar doses de medicação e revisar padrão alimentar.".
Definition recOxygenLow : string :=
  "Saturação de oxigênio baixa: avaliar necessidade de oxigenioterapia e investigar causas respiratórias ou cardíacas.".
Definition recOverdueExams (n : nat) : string :=
  "Reagendar " ++ showNat n
  ++ " exame(s) atrasado(s) o mais breve possível e revisar resultados anteriores.".
Definition recPendingExams : string :=
  "Organizar agenda de exames pendentes para melhor acompanhamento clínico.".
Definition recRiskHigh1 : string :=
  "RISCO ALTO: Agendar consulta presencial urgente para reavaliação completa do quadro clínico.".
Definition recRiskHigh2 : string :=
  "Considerar intensificar acompanhamento com visitas domiciliares ou telemedicina mais frequentes.".
Definition recRiskModerate : string :=
  "Risco moderado: agendar consulta de acompanhamento nas próximas 2 semanas.".
Definition recStable : string :=
  "Paciente apresenta boa adesão e sinais vitais dentro dos parâmetros. Manter acompanhamento de rotina.".

(** [vitals.flags.includes(f)]. *)
Definition includes (f : VitalFlag) (fs : list VitalFlag) : bool :=
  existsb (VitalFlag_eqb f) fs.

(** [detail && detail.severity === 'high'] for
    [detail = vitals.flagDetails.find((d) => d.flag === f)]. *)
Definition foundHigh (f : VitalFlag) (ds : list FlagDetail) : bool :=
  match find (fun d => VitalFlag_eqb (flag d) f) ds with
  | Some detail => Severity_eqb (severity detail) sev_high
  | None => false
  end.

(** [if (c) { recommendations.push(...) }]: the strings a block pushes. *)
Definition pushesIf (c : bool) (l : list string) : list string :=
  if c then l else [].

(** Everything pushed before the final emptiness test, in order. *)
Definition ruleRecommendations (a : AdherenceAnalysis) (v : VitalsAnalysis)
    (e : ExamsAnalysis) (riskScore : RiskScore) : list string :=
  let hasHighPressure := includes PRESSURE_HIGH (flags v) in
  let hasLowPressure := includes PRESSURE_LOW (flags v) in
  let hasHighGlucose := includes GLUCOSE_HIGH (flags v) in
  let hasLowGlucose := includes GLUCOSE_LOW (flags v) in
  let hasOxygenIssue := includes OXYGEN_LOW (flags v) in
  (match adherenceStatus a with
   | bad => [recBadAdherence1; recBadAdherence2]
   | medium => [recMediumAdherence]
   | good => []
   end
   ++ pushesIf hasHighPressure
        [if foundHigh PRESSURE_HIGH (flagDetails v)
         then recPressureUrgent else recPressureHigh]
   ++ pushesIf hasLowPressure [recPressureLow]
   ++ pushesIf hasHighGlucose [recGlucoseHigh1; recGlucoseHigh2]
   ++ pushesIf hasLowGlucose
        [if foundHigh GLUCOSE_LOW (flagDetails v)
         then recGlucoseLowUrgent else recGlucoseLow]
   ++ pushesIf hasOxygenIssue [recOxygenLow]
   ++ pushesIf (0 <? overdueExams e)%nat [recOverdueExams (overdueExams e)]
   ++ pushesIf (3 <? pendingExams e)%nat [recPendingExams]
   ++ match level riskScore with
      | level_high => [recRiskHigh1; recRiskHigh2]
      | level_moderate => [recRiskModerate]
      | level_low => []
      end)%list.

Definition generateRecommendations (a : AdherenceAnalysis) (v : VitalsAnalysis)
    (e : ExamsAnalysis) (riskScore : RiskScore) : list string :=
  let recommendations := ruleRecommendations a v e riskScore in
  if (length recommendations =? 0)%nat
  then (recommendations ++ [recStable])%list
  else recommendations.

Close Scope string_scope.

(** ** Vocabulary of the properties *)

(** The readings of channel [ty] inside the seven-day window, in input order. *)
Definition inWindow (now : Date) (ty : VitalType) (vitals : list VitalRecord)
  : list VitalRecord :=
  ofType ty (recentVitals now vitals).

(** The reading the analyser calls [latest] for channel [ty]. *)
Definition latestReading (now : Date) (ty : VitalType)
    (vitals : list VitalRecord) : option VitalRecord :=
  match groupVitalsByType (recentVitals now vitals) ty with
  | Some (latest :: _) => Some latest
  | _ => None
  end.

Definition isSome {A : Type} (o : option A) : bool :=
  match o with Some _ => true | None => false end.

(** A blood-pressure record carrying both of its fields. *)
Definition wellFormedPressure (v : VitalRecord) : bool :=
  isSome (systolic v) && isSome (diastolic v).

(** A blood-pressure record carrying at least one of its fields. *)
Definition hasPressureField (v : VitalRecord) : bool :=
  isSome (systolic v) || isSome (diastolic v).

Definition isPressureFlag (f : VitalFlag) : bool :=
  match f with PRESSURE_HIGH | PRESSURE_LOW => true | _ => false end.

Definition pressureFlags (a : VitalsAnalysis) : list VitalFlag :=
  filter isPressureFlag (flags a).

(** The input from which every blood-pressure record lacking a field has been
    removed. *)
Definition dropMalformedPressure (vitals : list VitalRecord) : list VitalRecord :=
  filter (fun v => negb (VitalType_eqb (type v) blood_pressure)
                   || wellFormedPressure v) vitals.

(** The channel a flag belongs to, the field of a reading it reports, and the
    severity tiers of the analyser, as a table. *)
Definition channelOf (f : VitalFlag) : VitalType :=
  match f with
  | PRESSURE_HIGH | PRESSURE_LOW => blood_pressure
  | GLUCOSE_HIGH | GLUCOSE_LOW => glucose
  | HEART_RATE_HIGH | HEART_RATE_LOW => heart_rate
  | TEMPERATURE_HIGH | TEMPERATURE_LOW => temperature
  | OXYGEN_LOW => oxygen_saturation
  end.

Definition reportedField (f : VitalFlag) (v : VitalRecord) : option number :=
  match f with
  | PRESSURE_HIGH | PRESSURE_LOW => systolic v
  | _ => numericValue v
  end.

Definition severityOf (f : VitalFlag) (x : number) : Severity :=
  match f with
  | PRESSURE_HIGH => tier (geq x 160) (geq x 150)
  | PRESSURE_LOW => tier (leq x 80) (leq x 85)
  | GLUCOSE_HIGH => tier (geq x 250) (geq x 200)
  | GLUCOSE_LOW => tier (leq x 50) (leq x 60)
  | HEART_RATE_HIGH => tier (geq x 120) (geq x 110)
  | HEART_RATE_LOW => tier (leq x 40) (leq x 45)
  | TEMPERATURE_HIGH => tier (geq x 39) (geq x (77 # 2))
  | TEMPERATURE_LOW => tier (leq x 34) (leq x (69 # 2))
  | OXYGEN_LOW => tier (leq x 88) (leq x 90)
  end.

(** The threshold test of a flag on one reading. *)
Definition meetsThreshold (cfg : RiskCalculationConfig number) (f : VitalFlag)
  : VitalRecord -> bool :=
  let c := vitals cfg in
  match f with
  | HEART_RATE_HIGH =>
      fun v => geq_opt (numericValue v) (HeartRate.high (Vitals.heartRate c))
  | HEART_RATE_LOW =>
      fun v => leq_opt (numericValue v) (HeartRate.low (Vitals.heartRate c))
  | TEMPERATURE_HIGH =>
      fun v => geq_opt (numericValue v) (Temperature.high (Vitals.temperature c))
  | TEMPERATURE_LOW =>
      fun v => leq_opt (numericValue v) (Temperature.low (Vitals.temperature c))
  | OXYGEN_LOW =>
      fun v => leq_opt (numericValue v) (Oxygen.low (Vitals.oxygen c))
  | PRESSURE_HIGH => isHighPressure cfg
  | PRESSURE_LOW => isLowPressure cfg
  | GLUCOSE_HIGH => isHighGlucose cfg
  | GLUCOSE_LOW => isLowGlucose cfg
  end.

Definition singleReadingFlag (f : VitalFlag) : bool :=
  match f with
  | HEART_RATE_HIGH | HEART_RATE_LOW | TEMPERATURE_HIGH | TEMPERATURE_LOW
  | OXYGEN_LOW => true
  | _ => false
  end.

(** The weight of the channel of a flag. *)
Definition channelWeight (cfg : RiskCalculationConfig number) (f : VitalFlag)
  : number :=
  let c := vitals cfg in
  match f with
  | PRESSURE_HIGH | PRESSURE_LOW => Pressure.weight (Vitals.pressure c)
  | GLUCOSE_HIGH | GLUCOSE_LOW => Glucose.weight (Vitals.glucose c)
  | HEART_RATE_HIGH | HEART_RATE_LOW => HeartRate.weight (Vitals.heartRate c)
  | TEMPERATURE_HIGH | TEMPERATURE_LOW => Temperature.weight (Vitals.temperature c)
  | OXYGEN_LOW => Oxygen.weight (Vitals.oxygen c)
  end.

(** The points of a flag as the specification words them: the severity
    factor on every pressure, glucose and oxygen flag, one and a half times the
    weight for hypoglycemia, the bare weight for heart rate and temperature. *)
Definition pointsAsSpecified (cfg : RiskCalculationConfig number)
    (d : FlagDetail) : number :=
  match flag d with
  | GLUCOSE_LOW => channelWeight cfg GLUCOSE_LOW * (3 # 2)
  | PRESSURE_HIGH | PRESSURE_LOW | GLUCOSE_HIGH | OXYGEN_LOW =>
      channelWeight cfg (flag d) * highFactor (severity d)
  | _ => channelWeight cfg (flag d)
  end.

(** The flags whose points carry the severity factor in the [switch]. *)
Definition severityScaled (f : VitalFlag) : bool :=
  match f with
  | PRESSURE_HIGH | GLUCOSE_HIGH | OXYGEN_LOW => true
  | _ => false
  end.

(** The points of a flag with the factor on those three flags only. *)
Definition pointsByDesign (cfg : RiskCalculationConfig number) (d : FlagDetail)
  : number :=
  if severityScaled (flag d) then channelWeight cfg (flag d) * highFactor (severity d)
  else match flag d with
       | GLUCOSE_LOW => channelWeight cfg GLUCOSE_LOW * (3 # 2)
       | _ => channelWeight cfg (flag d)
       end.

Definition sumPoints (pts : FlagDetail -> number) (ds : list FlagDetail) : number :=
  fold_right (fun d acc => pts d + acc) 0 ds.

(** An invalid rule configuration in the specification's sense: the adherence
    thresholds or the risk-level boundaries are out of order. *)
Definition invalidConfig (cfg : RiskCalculationConfig number) : bool :=
  gt (Adherence.mediumThreshold (adherence cfg)) (Adherence.goodThreshold (adherence cfg))
  || geq (RiskLevels.lowMax (riskLevels cfg)) (RiskLevels.moderateMax (riskLevels cfg)).

(** A leaf-by-leaf override of the adherence group, as the specification
    words it: a leaf that is supplied wins, any other keeps its default. *)
Definition mergeLeaf (supplied default : option number) : option number :=
  match supplied with Some x => Some x | None => default end.

Definition overrideAdherenceLeaves (default supplied : Adherence.t (option number))
  : Adherence.t (option number) :=
  Adherence.mk
    (mergeLeaf (Adherence.goodThreshold supplied) (Adherence.goodThreshold default))
    (mergeLeaf (Adherence.mediumThreshold supplied) (Adherence.mediumThreshold default))
    (mergeLeaf (Adherence.badWeight supplied) (Adherence.badWeight default))
    (mergeLeaf (Adherence.mediumWeight supplied) (Adherence.mediumWeight default)).

(** Some rule of [generateRecommendations] other than the closing default has
    its condition satisfied. *)
Definition anyRuleFires (a : AdherenceAnalysis) (v : VitalsAnalysis)
    (e : ExamsAnalysis) (riskScore : RiskScore) : bool :=
  match adherenceStatus a with good => false | _ => true end
  || includes PRESSURE_HIGH (flags v)
  || includes PRESSURE_LOW (flags v)
  || includes GLUCOSE_HIGH (flags v)
  || includes GLUCOSE_LOW (flags v)
  || includes OXYGEN_LOW (flags v)
  || (0 <? overdueExams e)%nat
  || (3 <? pendingExams e)%nat
  || match level riskScore with level_low => false | _ => true end.

(** A score with at most one binary digit after the point. *)
Definition halfInteger (q : number) : Prop := exists k : Z, q == inject_Z k / 2.

(** The details a block of [analyzeVitals] pushes, and their flags. *)
Definition pushedBy (block : VitalsAnalysis -> VitalsAnalysis) : list FlagDetail :=
  flagDetails (block emptyAnalysis).

(** The triggers of the two channels that count readings, and the number of
    readings each flag asks for. *)
Definition confirmations (f : VitalFlag) : nat :=
  match f with
  | PRESSURE_HIGH | PRESSURE_LOW | GLUCOSE_HIGH => 2
  | _ => 1
  end.

(** The value at a key of the grouped object, from the sorted records of the
    key: an empty selection leaves the key undefined. *)
Definition groupOf (sorted : list VitalRecord) : option (list VitalRecord) :=
  match sorted with [] => None | _ => Some sorted end.

(** The sorted in-window readings of a channel. *)
Definition sortedGroup (now : Date) (ty : VitalType) (vitals : list VitalRecord)
  : list VitalRecord :=
  sortByRecency (inWindow now ty vitals).

(** The guard on [latest] under which a channel is analysed at all. *)
Definition guardOf (f : VitalFlag) (latest : VitalRecord) : bool :=
  match channelOf f with
  | blood_pressure => wellFormedPressure latest
  | _ => isSome (numericValue latest)
  end.

(** The condition under which [analyzeVitals] pushes flag [f], on the sorted
    in-window readings of the channel of [f]: the guard on [latest], and the
    trigger, on [latest] alone for heart rate, temperature and oxygen, on the
    count of readings for pressure and glucose. *)
Definition triggered (cfg : RiskCalculationConfig number) (f : VitalFlag)
    (sorted : list VitalRecord) : bool :=
  match sorted with
  | latest :: _ =>
      guardOf f latest
      && (if singleReadingFlag f then meetsThreshold cfg f latest
          else (confirmations f <=? count (meetsThreshold cfg f) sorted)%nat)
  | [] => false
  end.

(** The flags of the channels other than blood pressure, and the input
    without its blood-pressure records. *)
Definition otherFlags (a : VitalsAnalysis) : list VitalFlag :=
  filter (fun f => negb (isPressureFlag f)) (flags a).

Definition withoutPressure (vitals : list VitalRecord) : list VitalRecord :=
  filter (fun v => negb (VitalType_eqb (type v) blood_pressure)) vitals.

(** ** Sample inputs *)

Definition sampleNow : Date := 1700000000000%Z.

Definition bp (s d : option number) (daysBack : Z) : VitalRecord :=
  mkVital blood_pressure s d None (daysAgo sampleNow daysBack).

Definition reading (ty : VitalType) (x : number) (daysBack : Z) : VitalRecord :=
  mkVital ty None None (Some x) (daysAgo sampleNow daysBack).

(** The most recent blood-pressure record lacks its systolic field; two
    earlier ones read 145/92 and 142/90. *)
Definition vitalsMalformedLatest : list VitalRecord :=
  [ bp None (Some 92) 1; bp (Some 145) (Some 92) 2; bp (Some 142) (Some 90) 3 ].

(** A record with only its diastolic field, 95, behind a well-formed 145/92. *)
Definition vitalsHalfRecord : list VitalRecord :=
  [ bp (Some 145) (Some 92) 1; bp None (Some 95) 2 ].

(** Heart rate 110 two days ago, 80 yesterday. *)
Definition vitalsHeartRateSettled : list VitalRecord :=
  [ reading heart_rate 110 2; reading heart_rate 80 1 ].

(** Glucose 55 two days ago, 120 yesterday. *)
Definition vitalsGlucoseRecovered : list VitalRecord :=
  [ reading glucose 55 2; reading glucose 120 1 ].

(** Glucose without a value yesterday, 65 two days ago. *)
Definition vitalsGlucoseBlankLatest : list VitalRecord :=
  [ mkVital glucose None None None (daysAgo sampleNow 1); reading glucose 65 2 ].

Definition remindersWith (nTaken nMissed : nat) : list ReminderRecord :=
  repeat (mkReminder (daysAgo sampleNow 1) rs_taken) nTaken
  ++ repeat (mkReminder (daysAgo sampleNow 1) rs_missed) nMissed.

Definition noFlags : VitalsAnalysis := emptyAnalysis.
Definition noExams : ExamsAnalysis := mkExams 0 0 0.

Definition badAdherence : AdherenceAnalysis := mkAdherence 30 100 60 0 40 60 bad.
Definition goodAdherence : AdherenceAnalysis := mkAdherence 30 100 95 0 5 95 good.

(** A low-pressure flag of high severity, alone. *)
Definition lowPressureHigh : FlagDetail := mkDetail PRESSURE_LOW 78 90 sev_high.

Definition onlyLowPressureHigh : VitalsAnalysis :=
  mkVitals (mkLast (Some 78) (Some 50) None None None None)
    [PRESSURE_LOW] [lowPressureHigh].

(** Thresholds out of order: good at 50, medium at 75. *)
Definition invertedThresholds : PartialConfig number :=
  mkPartial (Some (Adherence.mk 50 75 25 10)) None None None.

(** Only [adherence.goodThreshold] supplied, as the object
    [{ adherence: { goodThreshold: 95 } }]. *)
Definition onlyGoodThreshold : PartialConfig (option number) :=
  mkPartial (Some (Adherence.mk (Some 95) None None None)) None None None.

(** A whole adherence group supplied, the other groups left out. *)
Definition adherenceGroup95 : PartialConfig number :=
  mkPartial (Some (Adherence.mk 95 75 25 10)) None None None.

(** A bad-adherence weight with three decimals. *)
Definition fineWeight : PartialConfig number :=
  mkPartial (Some (Adherence.mk 90 75 (29004 # 1000) 10)) None None None.

(** The engine configurations built from the partial ones above. *)
Definition fineConfig : RiskCalculationConfig number :=
  spread DEFAULT_RISK_CONFIG (Some fineWeight).

Definition invertedConfig : RiskCalculationConfig number :=
  spread DEFAULT_RISK_CONFIG (Some invertedThresholds).

(** ** [analyzeExams]

    A JavaScript string is modelled by the string of its code units, so that
    [substring(0, 100)] keeps the first hundred of them. *)

Module Exam.
Inductive Status : Type := scheduled | completed | pending_results | cancelled.
Record t : Type := mk {
  type : string;
  status : Status;
  scheduledAt : option Date;
  completedAt : option Date;
  resultAt : option Date;
  result : option string;
  createdAt : Date }.
End Exam.

Definition ExamRecord : Type := Exam.t.

(** An entry of [recentExams].  The two dates are kept as dates: the source
    stores their [toISOString()]. *)
Module ExamSummary.
Record t : Type := mk {
  type : string;
  status : Exam.Status;
  resultAt : option Date;
  summary : option string;
  scheduledAt : option Date;
  daysOverdue : option Z }.
End ExamSummary.

(** The [ExamsAnalysis] object as [analyzeExams] builds it: the
    [recentExams] array beside the three counters. *)
Record ExamsDigest : Type := mkDigest {
  recentExams : list ExamSummary.t;
  counters : ExamsAnalysis }.

(** [a.completedAt || a.scheduledAt || a.createdAt]. *)
Definition examDate (x : ExamRecord) : Date :=
  match Exam.completedAt x with
  | Some d => d
  | None => match Exam.scheduledAt x with
            | Some d => d
            | None => Exam.createdAt x
            end
  end.

(** [[...exams].sort((a, b) => time(dateB) - time(dateA))]: stable, most
    recent first. *)
Fixpoint insertByDate (x : ExamRecord) (l : list ExamRecord) : list ExamRecord :=
  match l with
  | [] => [x]
  | y :: l' =>
      if (examDate x <? examDate y)%Z
      then y :: insertByDate x l'
      else x :: l
  end.

Definition sortByDate (l : list ExamRecord) : list ExamRecord :=
  fold_right insertByDate [] l.

(** [exam.status === 'scheduled' || exam.status === 'pending_results']. *)
Definition awaited (s : Exam.Status) : bool :=
  match s with
  | Exam.scheduled | Exam.pending_results => true
  | _ => false
  end.

(** [Math.floor((now.getTime() - scheduledAt.getTime()) / (1000*60*60*24))]. *)
Definition daysSince (now scheduledAt : Date) : Z :=
  ((now - scheduledAt) / msPerDay)%Z.

(** A string is truthy when it is not empty. *)
Definition nonEmpty (s : string) : bool :=
  match s with EmptyString => false | String _ _ => true end.

(** The body of the first loop: the digest entry of one exam. *)
Definition summarizeExam (now : Date) (exam : ExamRecord) : ExamSummary.t :=
  ExamSummary.mk
    (Exam.type exam)
    (Exam.status exam)
    (Exam.resultAt exam)
    (match Exam.result exam with
     | Some r => if nonEmpty r then Some (substring 0 100 r) else None
     | None => None
     end)
    (Exam.scheduledAt exam)
    (match Exam.scheduledAt exam with
     | Some s =>
         if awaited (Exam.status exam)
         then let daysDiff := daysSince now s in
              if (0 <? daysDiff)%Z then Some daysDiff else None
         else None
     | None => None
     end).

(** [daysDiff > this.config.exams.overdueDays] in the counting loop. *)
Definition pastDue (cfg : RiskCalculationConfig number) (now : Date)
    (exam : ExamRecord) : bool :=
  match Exam.scheduledAt exam with
  | Some s => gt (inject_Z (daysSince now s)) (Exams.overdueDays (exams cfg))
  | None => false
  end.

(** The body of the second loop, on the three counters. *)
Definition countExam (cfg : RiskCalculationConfig number) (now : Date)
    (c : ExamsAnalysis) (exam : ExamRecord) : ExamsAnalysis :=
  match Exam.status exam with
  | Exam.completed =>
      mkExams (pendingExams c) (overdueExams c) (S (completedExams c))
  | Exam.scheduled | Exam.pending_results =>
      mkExams (S (pendingExams c))
              (if pastDue cfg now exam then S (overdueExams c) else overdueExams c)
              (completedExams c)
  | Exam.cancelled => c
  end.

Definition analyzeExams (cfg : RiskCalculationConfig number) (now : Date)
    (exams : list ExamRecord) : ExamsDigest :=
  let sortedExams := sortByDate exams in
  let recentCount := Nat.min 5 (length sortedExams) in
  mkDigest (map (summarizeExam now) (firstn recentCount sortedExams))
           (fold_left (countExam cfg now) exams (mkExams 0 0 0)).

(** ** [generatePatientSummary] *)

Module Summary.
Record t : Type := mk {
  patientId : string;
  generatedAt : Date;
  adherence : AdherenceAnalysis;
  vitals : VitalsAnalysis;
  exams : ExamsDigest;
  riskScore : RiskScore;
  recommendations : list string }.
End Summary.

Definition PatientAISummary : Type := Summary.t.

(** The promise the method returns is always fulfilled; the model gives the
    value it is fulfilled with.  Every [new Date()] of one call is [now]. *)
Definition generatePatientSummary (cfg : RiskCalculationConfig number)
    (now : Date) (patientId : string) (reminders : list ReminderRecord)
    (vitals : list VitalRecord) (exams : list ExamRecord) : PatientAISummary :=
  let adherence := analyzeAdherence cfg now reminders in
  let vitalsAnalysis := analyzeVitals cfg now vitals in
  let examsAnalysis := analyzeExams cfg now exams in
  let riskScore :=
    calculateRiskScore cfg adherence vitalsAnalysis (counters examsAnalysis) in
  let recommendations :=
    generateRecommendations adherence vitalsAnalysis (counters examsAnalysis)
      riskScore in
  Summary.mk patientId now adherence vitalsAnalysis examsAnalysis riskScore
    recommendations.

(** ** The controller and its route (ai.controller.ts, ai.routes.ts) *)

Open Scope string_scope.

(** [req.user] as the handlers read it: [user?.id] and [user?.role]. *)
Record User : Type := mkUser {
  user_id : option string;
  user_role : option string }.

Record Request : Type := mkRequest {
  params_patientId : option string;
  user : option User }.

(** What a handler sends: the status and the JSON body, which is either
    [{ success: false, message }] or [{ success: true, data }]. *)
Inductive Body : Type :=
  | Failure (message : string)
  | Analysis (data : PatientAISummary).

Record Response : Type := mkResponse {
  statusCode : nat;
  body : Body }.

(** The value of an optional string when it is truthy: defined and not
    empty. *)
Definition truthy (o : option string) : option string :=
  match o with
  | Some s => if nonEmpty s then Some s else None
  | None => None
  end.

Definition checkPatientAccess (userId userRole patientId : string) : bool :=
  if userRole =? "ADMIN" then true
  else if userRole =? "PATIENT" then userId =? patientId
  else if userRole =? "CAREGIVER" then true
  else if userRole =? "PROFESSIONAL" then true
  else false.

(** The three getters return fixed records dated from [Date.now()]; of each
    record the fields the service reads are kept. *)
Definition getPatientReminders (now : Date) (patientId : string)
  : list ReminderRecord :=
  [ mkReminder (now - msPerDay * 1)%Z rs_taken;
    mkReminder (now - msPerDay * 2)%Z rs_taken;
    mkReminder (now - msPerDay * 3)%Z rs_missed;
    mkReminder (now - msPerDay * 4)%Z rs_late;
    mkReminder (now - msPerDay * 5)%Z rs_taken ].

Definition getPatientVitals (now : Date) (patientId : string)
  : list VitalRecord :=
  [ mkVital blood_pressure (Some 145%Q) (Some 92%Q) None (now - msPerDay * 1)%Z;
    mkVital blood_pressure (Some 142%Q) (Some 88%Q) None (now - msPerDay * 2)%Z;
    mkVital glucose None None (Some 190%Q) (now - msPerDay * 1)%Z;
    mkVital glucose None None (Some 185%Q) (now - msPerDay * 2)%Z;
    mkVital heart_rate None None (Some 78%Q) (now - msPerDay * 1)%Z;
    mkVital oxygen_saturation None None (Some 97%Q) (now - msPerDay * 1)%Z;
    mkVital temperature None None (Some (73 # 2)%Q) (now - msPerDay * 1)%Z ].

Definition getPatientExams (now : Date) (patientId : string)
  : list ExamRecord :=
  [ Exam.mk "Hemograma" Exam.completed
      (Some (now - msPerDay * 60)%Z) (Some (now - msPerDay * 58)%Z)
      (Some (now - msPerDay * 57)%Z)
      (Some "Hemoglobina: 14.5 g/dL (normal). Leucócitos: 7.200/mm³ (normal).")
      (now - msPerDay * 62)%Z;
    Exam.mk "Glicemia de jejum" Exam.completed
      (Some (now - msPerDay * 30)%Z) (Some (now - msPerDay * 28)%Z)
      (Some (now - msPerDay * 27)%Z)
      (Some "185 mg/dL - Acima do ideal")
      (now - msPerDay * 32)%Z;
    Exam.mk "Hemoglobina glicada (HbA1c)" Exam.scheduled
      (Some (now - msPerDay * 10)%Z) None None None (now - msPerDay * 45)%Z;
    Exam.mk "Perfil lipídico" Exam.pending_results
      (Some (now - msPerDay * 5)%Z) (Some (now - msPerDay * 3)%Z) None None
      (now - msPerDay * 40)%Z;
    Exam.mk "Eletrocardiograma" Exam.scheduled
      (Some (now + msPerDay * 7)%Z) None None None (now - msPerDay * 2)%Z ].

(** [AIController.getPatientSummary], on the path where nothing throws: the
    response it sends.  [aiService] holds the default configuration. *)
Definition getPatientSummary (now : Date) (req : Request) : Response :=
  match truthy (params_patientId req) with
  | None => mkResponse 400 (Failure "Patient ID is required")
  | Some patientId =>
      let userId := truthy (match user req with Some u => user_id u | None => None end) in
      let userRole := truthy (match user req with Some u => user_role u | None => None end) in
      match userId, userRole with
      | Some userId, Some userRole =>
          if checkPatientAccess userId userRole patientId
          then
            let reminders := getPatientReminders now patientId in
            let vitals := getPatientVitals now patientId in
            let exams := getPatientExams now patientId in
            mkResponse 200
              (Analysis (generatePatientSummary DEFAULT_RISK_CONFIG now patientId
                           reminders vitals exams))
          else
            mkResponse 403
              (Failure "Access denied: You do not have permission to view this patient data")
      | _, _ => mkResponse 401 (Failure "Authentication required")
      end
  end.




Close Scope string_scope.

(** ** Vocabulary of the further properties *)

(** Most recent first. *)
Definition newerOrSame (a b : ExamRecord) : Prop := (examDate b <= examDate a)%Z.

Definition recentFirst (a b : VitalRecord) : Prop :=
  (recordedAt b <= recordedAt a)%Z.

Definition isCompleted (s : Exam.Status) : bool :=
  match s with Exam.completed => true | _ => false end.

Definition isCancelled (s : Exam.Status) : bool :=
  match s with Exam.cancelled => true | _ => false end.

Definition countExams (p : ExamRecord -> bool) (l : list ExamRecord) : nat :=
  length (filter p l).

(** The position of a flag in the order in which [analyzeVitals] tests them. *)
Definition flagRank (f : VitalFlag) : nat :=
  match f with
  | PRESSURE_HIGH => 0 | PRESSURE_LOW => 1
  | GLUCOSE_HIGH => 2 | GLUCOSE_LOW => 3
  | HEART_RATE_HIGH => 4 | HEART_RATE_LOW => 5
  | TEMPERATURE_HIGH => 6 | TEMPERATURE_LOW => 7
  | OXYGEN_LOW => 8
  end.

Definition flagBefore (f g : VitalFlag) : Prop := (flagRank f < flagRank g)%nat.

(** The configured threshold a flag detail carries. *)
Definition thresholdOf (cfg : RiskCalculationConfig number) (f : VitalFlag)
  : number :=
  let c := vitals cfg in
  match f with
  | PRESSURE_HIGH => Pressure.systolicHigh (Vitals.pressure c)
  | PRESSURE_LOW => Pressure.systolicLow (Vitals.pressure c)
  | GLUCOSE_HIGH => Glucose.high (Vitals.glucose c)
  | GLUCOSE_LOW => Glucose.low (Vitals.glucose c)
  | HEART_RATE_HIGH => HeartRate.high (Vitals.heartRate c)
  | HEART_RATE_LOW => HeartRate.low (Vitals.heartRate c)
  | TEMPERATURE_HIGH => Temperature.high (Vitals.temperature c)
  | TEMPERATURE_LOW => Temperature.low (Vitals.temperature c)
  | OXYGEN_LOW => Oxygen.low (Vitals.oxygen c)
  end.

(** The side of its threshold on which a flag lies. *)
Definition isHighFlag (f : VitalFlag) : bool :=
  match f with
  | PRESSURE_HIGH | GLUCOSE_HIGH | HEART_RATE_HIGH | TEMPERATURE_HIGH => true
  | _ => false
  end.

(** The flags no rule of [generateRecommendations] looks at. *)
Definition unadvised (f : VitalFlag) : bool :=
  match f with
  | HEART_RATE_HIGH | HEART_RATE_LOW | TEMPERATURE_HIGH | TEMPERATURE_LOW => true
  | _ => false
  end.

(** A vitals analysis without its heart-rate and temperature flags. *)
Definition withoutUnadvised (v : VitalsAnalysis) : VitalsAnalysis :=
  mkVitals (lastMeasurements v)
           (filter (fun f => negb (unadvised f)) (flags v))
           (filter (fun d => negb (unadvised (flag d))) (flagDetails v)).

(** The reasons of the three parts of [calculateRiskScore], in order. *)
Definition adherenceReasons (a : AdherenceAnalysis) : list Reason :=
  match adherenceStatus a with
  | bad => [ReasonBadAdherence (adherenceRate a)]
  | medium => [ReasonMediumAdherence (adherenceRate a)]
  | good => []
  end.

Definition examReasons (cfg : RiskCalculationConfig number) (e : ExamsAnalysis)
  : list Reason :=
  (if (0 <? overdueExams e)%nat
   then [ReasonOverdueExams (overdueExams e) (Exams.overdueDays (exams cfg))]
   else [])
  ++ (if (3 <? pendingExams e)%nat
      then [ReasonPendingExams (pendingExams e)] else []).

(** The points of the adherence part and of the exams part. *)
Definition adherencePoints (cfg : RiskCalculationConfig number)
    (a : AdherenceAnalysis) : number :=
  match adherenceStatus a with
  | bad => Adherence.badWeight (adherence cfg)
  | medium => Adherence.mediumWeight (adherence cfg)
  | good => 0
  end.

Definition examPoints (cfg : RiskCalculationConfig number) (e : ExamsAnalysis)
  : number :=
  Exams.overdueWeight (exams cfg) * inject_Z (Z.of_nat (overdueExams e))
  + (if (3 <? pendingExams e)%nat then Exams.pendingWeight (exams cfg) else 0).

(** The last measurement a channel reports: the value of its latest reading. *)
Definition latestValue (now : Date) (ty : VitalType) (vs : list VitalRecord)
  : option number :=
  match latestReading now ty vs with
  | Some latest => numericValue latest
  | None => None
  end.

(** The records [analyzeVitals] looks at: those of the last seven days, of
    the five channels it analyses. *)
Definition analysed (now : Date) (v : VitalRecord) : bool :=
  notBefore (recordedAt v) (daysAgo now 7)
  && negb (VitalType_eqb (type v) weight).

(** An exam scheduled forty days ago and still awaited. *)
Definition examFortyDaysLate : ExamRecord :=
  Exam.mk "Hemograma" Exam.scheduled (Some (daysAgo sampleNow 40)) None None None
    (daysAgo sampleNow 70).

(** Seven overdue exams and nothing else. *)
Definition sevenOverdue : ExamsAnalysis := mkExams 7 7 0.

(** Fever and a fast pulse flagged, nothing else. *)
Definition feverAndPulse : VitalsAnalysis :=
  mkVitals (mkLast None None (Some 110) None (Some 39) None)
    [HEART_RATE_HIGH; TEMPERATURE_HIGH]
    [mkDetail HEART_RATE_HIGH 110 100 sev_medium;
     mkDetail TEMPERATURE_HIGH 39 38 sev_high].

(** An exam the counting loop counts as overdue. *)
Definition overdueExam (cfg : RiskCalculationConfig number) (now : Date)
    (x : ExamRecord) : bool :=
  awaited (Exam.status x) && pastDue cfg now x.

(** * Properties *)

(** ** Numbers *)

Section NumberFacts.

Lemma geq_true (a b : number) : geq a b = true <-> b <= a.
Proof. unfold geq. apply Qle_bool_iff. Qed.

Lemma leq_true (a b : number) : leq a b = true <-> a <= b.
Proof. unfold leq. apply Qle_bool_iff. Qed.

Lemma leq_false (a b : number) : leq a b = false <-> b < a.
Proof.
  unfold leq. split; intro H.
  - apply Qnot_le_lt. intro Hle. apply Qle_bool_iff in Hle. congruence.
  - destruct (Qle_bool a b) eqn:E; [|reflexivity].
    apply Qle_bool_iff in E. exfalso. apply (Qlt_not_le _ _ H E).
Qed.

Lemma Qle_bool_false (a b : Q) : Qle_bool a b = false -> b < a.
Proof. intro H. apply (proj1 (leq_false a b) H). Qed.

Lemma leq_Qeq (a b c : number) : a == b -> leq a c = leq b c.
Proof.
  intro H. destruct (leq b c) eqn:E.
  - apply leq_true. apply leq_true in E. rewrite H. exact E.
  - apply leq_false. apply leq_false in E. rewrite H. exact E.
Qed.

Lemma clamp_range (s : number) : 0 <= clamp s /\ clamp s <= 100.
Proof.
  unfold clamp, Math_min, Math_max.
  destruct (Qle_bool 0 s) eqn:E0.
  - apply Qle_bool_iff in E0.
    destruct (Qle_bool 100 s) eqn:E1.
    + split; lra.
    + apply Qle_bool_false in E1. split; lra.
  - destruct (Qle_bool 100 0) eqn:E1.
    + apply Qle_bool_iff in E1. lra.
    + split; lra.
Qed.

Lemma clamp_cases (s : number) : clamp s = s \/ clamp s = 0 \/ clamp s = 100.
Proof.
  unfold clamp, Math_min, Math_max.
  destruct (Qle_bool 0 s); destruct (Qle_bool 100 _); auto.
Qed.

Lemma Math_round_inject (z : Z) : Math_round (inject_Z z) = z.
Proof.
  unfold Math_round, Qfloor, Qplus, inject_Z. simpl.
  symmetry. apply (Z.div_unique _ 2 z 1); lia.
Qed.

Lemma Math_round_Qeq (x y : number) : x == y -> Math_round x = Math_round y.
Proof.
  intro H. unfold Math_round. apply Qfloor_comp. rewrite H. reflexivity.
Qed.

Lemma Math_round_mono (x y : number) : x <= y -> (Math_round x <= Math_round y)%Z.
Proof. intro H. unfold Math_round. apply Qfloor_resp_le. lra. Qed.

Lemma round2_range (s : number) :
  0 <= s -> s <= 100 -> 0 <= round2 s /\ round2 s <= 100.
Proof.
  intros H0 H1. unfold round2.
  assert (L : (0 <= Math_round (s * 100)%Q)%Z).
  { rewrite <- (Math_round_inject 0). apply Math_round_mono.
    change (inject_Z 0) with 0. lra. }
  assert (U : (Math_round (s * 100)%Q <= 10000)%Z).
  { rewrite <- (Math_round_inject 10000). apply Math_round_mono.
    change (inject_Z 10000) with 10000. lra. }
  assert (L' : inject_Z 0 <= inject_Z (Math_round (s * 100)))
    by (rewrite <- Zle_Qle; exact L).
  assert (U' : inject_Z (Math_round (s * 100)) <= inject_Z 10000)
    by (rewrite <- Zle_Qle; exact U).
  change (inject_Z 0) with 0 in L'. change (inject_Z 10000) with 10000 in U'.
  split.
  - apply Qle_shift_div_l; lra.
  - apply Qle_shift_div_r; lra.
Qed.

Lemma round2_halfInteger (s : number) : halfInteger s -> round2 s == s.
Proof.
  intros [k Hk]. unfold round2.
  assert (E : s * 100 == inject_Z (50 * k)).
  { rewrite Hk, inject_Z_mult. change (inject_Z 50) with 50. field. }
  rewrite (Math_round_Qeq _ _ E), Math_round_inject.
  rewrite Hk, inject_Z_mult. change (inject_Z 50) with 50. field.
Qed.

Lemma halfInteger_inject (z : Z) : halfInteger (inject_Z z).
Proof.
  exists (2 * z)%Z. rewrite inject_Z_mult. change (inject_Z 2) with 2. field.
Qed.

Lemma halfInteger_plus (a b : number) :
  halfInteger a -> halfInteger b -> halfInteger (a + b).
Proof.
  intros [x Hx] [y Hy]. exists (x + y)%Z.
  rewrite Hx, Hy, inject_Z_plus. field.
Qed.

Lemma halfInteger_Qeq (a b : number) : a == b -> halfInteger a -> halfInteger b.
Proof. intros E [k Hk]. exists k. rewrite <- E. exact Hk. Qed.

Lemma halfInteger_clamp (s : number) : halfInteger s -> halfInteger (clamp s).
Proof.
  intro H. destruct (clamp_cases s) as [E | [E | E]]; rewrite E.
  - exact H.
  - apply (halfInteger_inject 0).
  - apply (halfInteger_inject 100).
Qed.

End NumberFacts.

(** ** Adherence *)

Lemma no_recent_reminders (now : Date) (reminders : list ReminderRecord) :
  (forall x, In x reminders -> (scheduledAt x < daysAgo now 30)%Z) ->
  filter (fun r => notBefore (scheduledAt r) (daysAgo now 30)) reminders = [].
Proof.
  induction reminders as [|r l IH]; intro H; simpl.
  - reflexivity.
  - assert (Hr : (scheduledAt r < daysAgo now 30)%Z) by (apply H; left; reflexivity).
    unfold notBefore at 1.
    destruct (Z.leb_spec (daysAgo now 30) (scheduledAt r)) as [Hle | _]; [lia|].
    apply IH. intros x Hx. apply H. right. exact Hx.
Qed.

Lemma classifyAdherence_good (cfg : RiskCalculationConfig number) (rate : number) :
  Adherence.goodThreshold (adherence cfg) <= rate ->
  classifyAdherence cfg rate = good.
Proof.
  intro H. unfold classifyAdherence.
  rewrite (proj2 (geq_true _ _) H). reflexivity.
Qed.

Lemma classifyAdherence_medium (cfg : RiskCalculationConfig number) (rate : number) :
  rate < Adherence.goodThreshold (adherence cfg) ->
  Adherence.mediumThreshold (adherence cfg) <= rate ->
  classifyAdherence cfg rate = medium.
Proof.
  intros Hlt Hge. unfold classifyAdherence.
  destruct (geq rate (Adherence.goodThreshold (adherence cfg))) eqn:E.
  - apply geq_true in E. lra.
  - rewrite (proj2 (geq_true _ _) Hge). reflexivity.
Qed.

(** C7. [analyzeAdherence] is a total function.  With the thresholds in order
    and the good threshold at most 100 (as in the default configuration), a
    reminder list with no event inside the thirty-day window, the empty list
    included, gives rate 100 and status good; a rate equal to the good
    threshold gives good, and a rate equal to the medium threshold gives
    medium: the thresholds are inclusive. *)
Theorem analyzeAdherence_total_and_inclusive :
  forall (cfg : RiskCalculationConfig number) (now : Date)
         (reminders : list ReminderRecord),
    Adherence.mediumThreshold (adherence cfg)
      < Adherence.goodThreshold (adherence cfg) ->
    Adherence.goodThreshold (adherence cfg) <= 100 ->
    let r := analyzeAdherence cfg now reminders in
    ((forall x, In x reminders -> (scheduledAt x < daysAgo now 30)%Z) ->
       adherenceRate r = 100 /\ adherenceStatus r = good)
    /\ (adherenceRate r == Adherence.goodThreshold (adherence cfg) ->
          adherenceStatus r = good)
    /\ (adherenceRate r == Adherence.mediumThreshold (adherence cfg) ->
          adherenceStatus r = medium).
Proof.
  intros cfg now reminders Hord Hmax r. subst r. split; [|split].
  - intro Hout. unfold analyzeAdherence.
    rewrite (no_recent_reminders _ _ Hout). simpl. split; [reflexivity|].
    apply classifyAdherence_good. exact Hmax.
  - intro E. unfold analyzeAdherence in *. simpl in *.
    apply classifyAdherence_good. rewrite E. apply Qle_refl.
  - intro E. unfold analyzeAdherence in *. simpl in *.
    apply classifyAdherence_medium; rewrite E; [exact Hord | apply Qle_refl].
Qed.

(** The default engine on no reminders, on 90 doses taken out of 100 and on
    75 taken out of 100. *)
Lemma analyzeAdherence_total_and_inclusive_witness :
  (adherenceRate (analyzeAdherence DEFAULT_RISK_CONFIG sampleNow []) = 100
   /\ adherenceStatus (analyzeAdherence DEFAULT_RISK_CONFIG sampleNow []) = good)
  /\ adherenceStatus
       (analyzeAdherence DEFAULT_RISK_CONFIG sampleNow (remindersWith 90 10)) = good
  /\ adherenceStatus
       (analyzeAdherence DEFAULT_RISK_CONFIG sampleNow (remindersWith 75 25)) = medium.
Proof.
  assert (Hord : Adherence.mediumThreshold (adherence DEFAULT_RISK_CONFIG)
                 < Adherence.goodThreshold (adherence DEFAULT_RISK_CONFIG))
    by (unfold Qlt; simpl; lia).
  assert (Hmax : Adherence.goodThreshold (adherence DEFAULT_RISK_CONFIG) <= 100)
    by (unfold Qle; simpl; lia).
  split; [|split].
  - apply (proj1 (analyzeAdherence_total_and_inclusive
                    DEFAULT_RISK_CONFIG sampleNow [] Hord Hmax)).
    intros x Hx. destruct Hx.
  - apply (proj1 (proj2 (analyzeAdherence_total_and_inclusive
                    DEFAULT_RISK_CONFIG sampleNow (remindersWith 90 10) Hord Hmax))).
    vm_compute. reflexivity.
  - apply (proj2 (proj2 (analyzeAdherence_total_and_inclusive
                    DEFAULT_RISK_CONFIG sampleNow (remindersWith 75 25) Hord Hmax))).
    vm_compute. reflexivity.
Defined.

(** The examples of the specification: 95, 80 and 60 doses taken out of 100. *)
Example adherence_95_good :
  adherenceStatus
    (analyzeAdherence DEFAULT_RISK_CONFIG sampleNow (remindersWith 95 5)) = good.
Proof. vm_compute. reflexivity. Qed.

Example adherence_80_medium :
  adherenceStatus
    (analyzeAdherence DEFAULT_RISK_CONFIG sampleNow (remindersWith 80 20)) = medium.
Proof. vm_compute. reflexivity. Qed.

Example adherence_60_bad :
  adherenceStatus
    (analyzeAdherence DEFAULT_RISK_CONFIG sampleNow (remindersWith 60 40)) = bad.
Proof. vm_compute. reflexivity. Qed.

(** ** Risk score *)

Section ScoreFacts.

Variable cfg : RiskCalculationConfig number.

Lemma scoreFlag_reasons (st : ScoreState) (d : FlagDetail) :
  snd (scoreFlag cfg st d) = snd st ++ [ReasonFlag (flag d) (value d)].
Proof. unfold scoreFlag. destruct (flag d); reflexivity. Qed.

Lemma scoreFlag_points (st : ScoreState) (d : FlagDetail) :
  fst (scoreFlag cfg st d) == fst st + pointsByDesign cfg d.
Proof.
  unfold scoreFlag, pointsByDesign.
  destruct (flag d); simpl; reflexivity.
Qed.

Lemma scoreVitals_reasons (ds : list FlagDetail) (st : ScoreState) :
  snd (fold_left (scoreFlag cfg) ds st)
  = snd st ++ map (fun d => ReasonFlag (flag d) (value d)) ds.
Proof.
  revert st. induction ds as [|d ds IH]; intro st; simpl.
  - now rewrite app_nil_r.
  - rewrite IH, scoreFlag_reasons, <- app_assoc. reflexivity.
Qed.

Lemma scoreVitals_points (ds : list FlagDetail) (st : ScoreState) :
  fst (fold_left (scoreFlag cfg) ds st)
  == fst st + sumPoints (pointsByDesign cfg) ds.
Proof.
  revert st. induction ds as [|d ds IH]; intro st; simpl.
  - ring.
  - rewrite IH, scoreFlag_points. ring.
Qed.

Lemma scoreVitals_nil (ds : list FlagDetail) (st : ScoreState) :
  snd (fold_left (scoreFlag cfg) ds st) = [] -> ds = [].
Proof.
  rewrite scoreVitals_reasons. intro H.
  apply app_eq_nil in H. destruct H as [_ H].
  destruct ds; [reflexivity | discriminate H].
Qed.

Lemma contribute_reasons (w : number) (r : Reason) (st : ScoreState) :
  snd (contribute w r st) <> [].
Proof. simpl. intro H. apply app_eq_nil in H. destruct H; discriminate. Qed.

(** A state without reasons has received no contribution. *)
Lemma accumulate_silent (a : AdherenceAnalysis) (v : VitalsAnalysis)
    (e : ExamsAnalysis) :
  snd (accumulate cfg a v e) = [] -> fst (accumulate cfg a v e) = 0.
Proof.
  unfold accumulate, scoreExams, scoreVitals, scoreAdherence.
  destruct (3 <? pendingExams e)%nat;
    [intro H; exfalso; exact (contribute_reasons _ _ _ H)|].
  destruct (0 <? overdueExams e)%nat;
    [intro H; exfalso; exact (contribute_reasons _ _ _ H)|].
  intro H. pose proof (scoreVitals_nil _ _ H) as Hds. rewrite Hds in *.
  simpl in *.
  destruct (adherenceStatus a); simpl in *;
    [reflexivity | discriminate H | discriminate H].
Qed.

Lemma levelOf_Qeq (x y : number) : x == y -> levelOf cfg x = levelOf cfg y.
Proof.
  intro E. unfold levelOf.
  rewrite (leq_Qeq _ _ (RiskLevels.lowMax (riskLevels cfg)) E).
  rewrite (leq_Qeq _ _ (RiskLevels.moderateMax (riskLevels cfg)) E).
  reflexivity.
Qed.

End ScoreFacts.

(** A decision procedure for [halfInteger]. *)
Lemma halfInteger_decide (q : number) :
  ((Qnum q * 2) mod Zpos (Qden q) =? 0)%Z = true -> halfInteger q.
Proof.
  intro H. apply Z.eqb_eq in H.
  exists ((Qnum q * 2) / Zpos (Qden q))%Z.
  destruct q as [n d]. simpl in *.
  unfold Qeq, Qdiv, Qmult, Qinv, inject_Z. simpl.
  pose proof (Z.div_mod (n * 2) (Zpos d)) as Hdm.
  rewrite H in Hdm.
  assert (Hd : Zpos d <> 0%Z) by lia.
  specialize (Hdm Hd). nia.
Qed.

Lemma default_points_halfInteger (d : FlagDetail) :
  halfInteger (pointsByDesign DEFAULT_RISK_CONFIG d).
Proof.
  destruct d as [f x t s].
  destruct f, s; apply halfInteger_decide; reflexivity.
Qed.

Lemma default_sumPoints_halfInteger (ds : list FlagDetail) :
  halfInteger (sumPoints (pointsByDesign DEFAULT_RISK_CONFIG) ds).
Proof.
  induction ds as [|d ds IH]; simpl.
  - apply (halfInteger_inject 0).
  - apply halfInteger_plus; [apply default_points_halfInteger | exact IH].
Qed.

Lemma default_accumulate_halfInteger (a : AdherenceAnalysis) (v : VitalsAnalysis)
    (e : ExamsAnalysis) :
  halfInteger (fst (accumulate DEFAULT_RISK_CONFIG a v e)).
Proof.
  unfold accumulate.
  assert (Hv : halfInteger (fst (scoreVitals DEFAULT_RISK_CONFIG v
                 (scoreAdherence DEFAULT_RISK_CONFIG a (0, []))))).
  { unfold scoreVitals.
    apply (halfInteger_Qeq _ _ (Qeq_sym _ _ (scoreVitals_points _ _ _))).
    apply halfInteger_plus; [|apply default_sumPoints_halfInteger].
    unfold scoreAdherence. destruct (adherenceStatus a); simpl;
      apply halfInteger_decide; reflexivity. }
  set (st := scoreVitals DEFAULT_RISK_CONFIG v _) in *.
  unfold scoreExams.
  assert (Ho : forall n : nat,
             halfInteger (Exams.overdueWeight (exams DEFAULT_RISK_CONFIG)
                          * inject_Z (Z.of_nat n))).
  { intro n. apply (halfInteger_Qeq (inject_Z (15 * Z.of_nat n))).
    - rewrite inject_Z_mult. reflexivity.
    - apply halfInteger_inject. }
  destruct (3 <? pendingExams e)%nat, (0 <? overdueExams e)%nat; simpl;
    repeat apply halfInteger_plus; auto;
    apply halfInteger_decide; reflexivity.
Qed.

(** C1, as amended.  The loop over the flag details adds, for each detail,
    the weight of its channel: times the severity factor (1.5 when the
    severity is high, 1 otherwise) for PRESSURE_HIGH, GLUCOSE_HIGH and
    OXYGEN_LOW, times 1.5 whatever the severity for GLUCOSE_LOW, and the bare
    weight for PRESSURE_LOW and for the heart-rate and temperature flags.
    That is the wording of the specification on every flag but PRESSURE_LOW. *)
Theorem vital_flag_points :
  forall (cfg : RiskCalculationConfig number) (ds : list FlagDetail)
         (st : ScoreState),
    fst (fold_left (scoreFlag cfg) ds st)
      == fst st + sumPoints (pointsByDesign cfg) ds
    /\ (forall d, flag d <> PRESSURE_LOW ->
          pointsByDesign cfg d = pointsAsSpecified cfg d)
    /\ (forall d, flag d = PRESSURE_LOW ->
          pointsByDesign cfg d = Pressure.weight (Vitals.pressure (vitals cfg))).
Proof.
  intros cfg ds st. split; [apply scoreVitals_points|]. split.
  - intros d Hd. unfold pointsByDesign, pointsAsSpecified.
    destruct (flag d); try reflexivity. now elim Hd.
  - intros d Hd. unfold pointsByDesign. rewrite Hd. reflexivity.
Qed.

(** On the default engine a PRESSURE_HIGH detail of high severity is worth
    what the specification says, 22.5, and a PRESSURE_LOW detail the pressure
    weight. *)
Lemma vital_flag_points_witness :
  pointsByDesign DEFAULT_RISK_CONFIG (mkDetail PRESSURE_HIGH 165 140 sev_high)
  = pointsAsSpecified DEFAULT_RISK_CONFIG (mkDetail PRESSURE_HIGH 165 140 sev_high)
  /\ pointsByDesign DEFAULT_RISK_CONFIG lowPressureHigh
     = Pressure.weight (Vitals.pressure (vitals DEFAULT_RISK_CONFIG)).
Proof.
  destruct (vital_flag_points DEFAULT_RISK_CONFIG [] (0, [])) as [_ [Hs Hl]].
  split.
  - apply Hs. simpl. discriminate.
  - apply Hl. reflexivity.
Defined.

(** C1 fails as stated: a PRESSURE_LOW detail of high severity adds the
    pressure weight 15, not 15 * 1.5, to the score of the default engine. *)
Lemma low_pressure_high_severity_adds_base_weight :
  In lowPressureHigh (flagDetails onlyLowPressureHigh)
  /\ flag lowPressureHigh = PRESSURE_LOW
  /\ severity lowPressureHigh = sev_high
  /\ fst (scoreVitals DEFAULT_RISK_CONFIG onlyLowPressureHigh (0, [])) == 15
  /\ ~ (fst (scoreVitals DEFAULT_RISK_CONFIG onlyLowPressureHigh (0, []))
        == Pressure.weight (Vitals.pressure (vitals DEFAULT_RISK_CONFIG)) * (3 # 2))
  /\ ~ (fst (scoreFlag DEFAULT_RISK_CONFIG (0, []) lowPressureHigh)
        == 0 + pointsAsSpecified DEFAULT_RISK_CONFIG lowPressureHigh)
  /\ risk_value
       (calculateRiskScore DEFAULT_RISK_CONFIG goodAdherence onlyLowPressureHigh noExams)
     == 15.
Proof.
  repeat split; try (vm_compute; congruence); try reflexivity.
  left. reflexivity.
Qed.

(** C8, as amended.  For every configuration and every triple of analyses
    the value lies in [0, 100]; the value is the clamped score rounded to two
    decimals while the level is read off the clamped score before that
    rounding; a positive value comes with at least one reason.  Whenever the
    rounding leaves the score unchanged the level is the stated function of
    the value, and under the default configuration that is always so. *)
Theorem calculateRiskScore_invariants :
  forall (cfg : RiskCalculationConfig number) (a : AdherenceAnalysis)
         (v : VitalsAnalysis) (e : ExamsAnalysis),
    let r := calculateRiskScore cfg a v e in
    let score := clamp (fst (accumulate cfg a v e)) in
    (0 <= risk_value r /\ risk_value r <= 100)
    /\ risk_value r = round2 score
    /\ level r = levelOf cfg score
    /\ (0 < risk_value r -> (1 <= length (reasons r))%nat)
    /\ (round2 score == score -> level r = levelOf cfg (risk_value r))
    /\ level (calculateRiskScore DEFAULT_RISK_CONFIG a v e)
       = levelOf DEFAULT_RISK_CONFIG
           (risk_value (calculateRiskScore DEFAULT_RISK_CONFIG a v e)).
Proof.
  intros cfg a v e r score. subst r score.
  split; [|split; [reflexivity|split; [reflexivity|split; [|split]]]].
  - destruct (clamp_range (fst (accumulate cfg a v e))) as [L U].
    apply round2_range; assumption.
  - unfold calculateRiskScore. simpl. intro Hpos.
    destruct (snd (accumulate cfg a v e)) as [|x l] eqn:E; [|simpl; lia].
    exfalso. rewrite (accumulate_silent _ _ _ _ E) in Hpos.
    revert Hpos. vm_compute. discriminate.
  - intro E. unfold calculateRiskScore. simpl.
    apply levelOf_Qeq. symmetry. exact E.
  - unfold calculateRiskScore. simpl.
    apply levelOf_Qeq. symmetry. apply round2_halfInteger.
    apply halfInteger_clamp. apply default_accumulate_halfInteger.
Qed.

(** The default engine on bad adherence alone: value 25, one reason. *)
Lemma calculateRiskScore_invariants_witness :
  (1 <= length (reasons
          (calculateRiskScore DEFAULT_RISK_CONFIG badAdherence noFlags noExams)))%nat
  /\ level (calculateRiskScore DEFAULT_RISK_CONFIG badAdherence noFlags noExams)
     = levelOf DEFAULT_RISK_CONFIG
         (risk_value
            (calculateRiskScore DEFAULT_RISK_CONFIG badAdherence noFlags noExams)).
Proof.
  pose proof (calculateRiskScore_invariants
                DEFAULT_RISK_CONFIG badAdherence noFlags noExams) as H.
  cbv zeta in H.
  destruct H as [_ [_ [_ [Hreasons [Hlevel _]]]]].
  split.
  - apply Hreasons. vm_compute. reflexivity.
  - apply Hlevel. vm_compute. reflexivity.
Defined.

(** C8 fails as stated: with a bad-adherence weight of 29.004 (every other
    setting at its default) bad adherence alone scores 29.004, above lowMax, so
    that the level is moderate, yet the reported value is 29.00, for which the
    stated mapping gives low. *)
Lemma level_read_before_rounding :
  invalidConfig fineConfig = false
  /\ risk_value (calculateRiskScore fineConfig badAdherence noFlags noExams) == 29
  /\ level (calculateRiskScore fineConfig badAdherence noFlags noExams)
     = level_moderate
  /\ levelOf fineConfig
       (risk_value (calculateRiskScore fineConfig badAdherence noFlags noExams))
     = level_low.
Proof. repeat split. Qed.

(** ** Grouping and sorting *)

Section SortFacts.

Variable p : VitalRecord -> bool.

Lemma count_insertByRecency (v : VitalRecord) (l : list VitalRecord) :
  count p (insertByRecency v l) = count p (v :: l).
Proof.
  unfold count. induction l as [|w l IH]; simpl.
  - reflexivity.
  - destruct (recordedAt v <? recordedAt w)%Z; [|reflexivity].
    simpl in *. destruct (p w), (p v); simpl in *; lia.
Qed.

Lemma count_sortByRecency (l : list VitalRecord) :
  count p (sortByRecency l) = count p l.
Proof.
  induction l as [|v l IH]; simpl.
  - reflexivity.
  - rewrite count_insertByRecency. unfold count in *. simpl.
    destruct (p v); simpl; lia.
Qed.

End SortFacts.

Lemma In_insertByRecency (x v : VitalRecord) (l : list VitalRecord) :
  In x (insertByRecency v l) <-> x = v \/ In x l.
Proof.
  induction l as [|w l IH]; simpl.
  - intuition congruence.
  - destruct (recordedAt v <? recordedAt w)%Z; simpl; intuition congruence.
Qed.

Lemma In_sortByRecency (x : VitalRecord) (l : list VitalRecord) :
  In x (sortByRecency l) <-> In x l.
Proof.
  induction l as [|v l IH]; simpl.
  - reflexivity.
  - rewrite In_insertByRecency, IH. intuition congruence.
Qed.

(** The head of the sorted group is a most recent record of the group. *)
Lemma sortByRecency_head (l : list VitalRecord) (v : VitalRecord)
    (rest : list VitalRecord) :
  sortByRecency l = v :: rest ->
  In v l /\ forall w, In w l -> (recordedAt w <= recordedAt v)%Z.
Proof.
  intro H. split.
  - apply In_sortByRecency. rewrite H. left. reflexivity.
  - revert v rest H. induction l as [|x l IH]; intros v rest H w Hw.
    + destruct Hw.
    + simpl in H. destruct (sortByRecency l) as [|y ys] eqn:E.
      * assert (l = []).
        { destruct l as [|z l']; [reflexivity|].
          assert (Hz : In z (sortByRecency (z :: l')))
            by (apply In_sortByRecency; left; reflexivity).
          rewrite E in Hz. destruct Hz. }
        subst l. simpl in H. injection H as <- _.
        destruct Hw as [<- | []]. lia.
      * simpl in H. specialize (IH y ys eq_refl).
        destruct (Z.ltb_spec (recordedAt x) (recordedAt y)) as [Hlt | Hge];
          injection H as <- _.
        -- destruct Hw as [<- | Hw]; [lia | now apply IH].
        -- destruct Hw as [<- | Hw]; [lia|].
           specialize (IH w Hw). lia.
Qed.

Lemma sortByRecency_nil (l : list VitalRecord) : sortByRecency l = [] -> l = [].
Proof.
  intro H. destruct l as [|z l']; [reflexivity|].
  assert (Hz : In z (sortByRecency (z :: l')))
    by (apply In_sortByRecency; left; reflexivity).
  rewrite H in Hz. destruct Hz.
Qed.

Lemma groupVitalsByType_spec (vs : list VitalRecord) (ty : VitalType) :
  groupVitalsByType vs ty
  = match sortByRecency (ofType ty vs) with
    | [] => None
    | g => Some g
    end.
Proof.
  unfold groupVitalsByType.
  destruct (ofType ty vs) as [|x l] eqn:E; [reflexivity|].
  destruct (sortByRecency (x :: l)) eqn:F; [|reflexivity].
  apply sortByRecency_nil in F. discriminate.
Qed.

(** [latest] exists exactly when the channel has a reading in the window, and
    is then a reading of the channel in the window that no other is more
    recent than. *)
Lemma latestReading_most_recent (now : Date) (ty : VitalType)
    (vs : list VitalRecord) (latest : VitalRecord) :
  latestReading now ty vs = Some latest ->
  In latest (inWindow now ty vs)
  /\ forall w, In w (inWindow now ty vs) -> (recordedAt w <= recordedAt latest)%Z.
Proof.
  unfold latestReading, inWindow. rewrite groupVitalsByType_spec.
  destruct (sortByRecency (ofType ty (recentVitals now vs))) as [|y ys] eqn:E;
    [discriminate|].
  intro H. injection H as <-. exact (sortByRecency_head _ _ _ E).
Qed.

Lemma latestReading_none (now : Date) (ty : VitalType) (vs : list VitalRecord) :
  latestReading now ty vs = None <-> inWindow now ty vs = [].
Proof.
  unfold latestReading, inWindow. rewrite groupVitalsByType_spec.
  destruct (sortByRecency (ofType ty (recentVitals now vs))) as [|y ys] eqn:E.
  - apply sortByRecency_nil in E. rewrite E. tauto.
  - split; [discriminate|]. intro H. rewrite H in E. discriminate.
Qed.

(** ** The blocks of [analyzeVitals] *)

Lemma pushFlagIf_details (c : bool) (d : FlagDetail) (a : VitalsAnalysis) :
  flagDetails (pushFlagIf c d a) = flagDetails a ++ (if c then [d] else []).
Proof. destruct c; simpl; [reflexivity | now rewrite app_nil_r]. Qed.

Lemma pushFlagIf_flags (c : bool) (d : FlagDetail) (a : VitalsAnalysis) :
  flags (pushFlagIf c d a) = flags a ++ map flag (if c then [d] else []).
Proof. destruct c; simpl; [reflexivity | now rewrite app_nil_r]. Qed.

Lemma setLast_details (f : LastMeasurements -> LastMeasurements)
    (a : VitalsAnalysis) :
  flagDetails (setLast f a) = flagDetails a.
Proof. reflexivity. Qed.

Lemma setLast_flags (f : LastMeasurements -> LastMeasurements)
    (a : VitalsAnalysis) :
  flags (setLast f a) = flags a.
Proof. reflexivity. Qed.

Create Rewrite HintDb pushes.
#[local] Hint Rewrite pushFlagIf_details pushFlagIf_flags setLast_details
  setLast_flags app_nil_r map_app : pushes.
#[local] Hint Rewrite <- app_assoc : pushes.

Ltac block_by_cases g :=
  unfold pushedBy;
  destruct g as [[|? ?]|]; simpl; autorewrite with pushes; try reflexivity;
  repeat match goal with
         | |- context [match ?o with Some _ => _ | None => _ end] =>
             destruct o; simpl; autorewrite with pushes; try reflexivity
         end.

Section Blocks.

Variable cfg : RiskCalculationConfig number.
Variable g : option (list VitalRecord).
Variable a : VitalsAnalysis.

Lemma analyzePressure_details :
  flagDetails (analyzePressure cfg g a)
  = flagDetails a ++ pushedBy (analyzePressure cfg g).
Proof. unfold analyzePressure. block_by_cases g. Qed.

Lemma analyzePressure_flags :
  flags (analyzePressure cfg g a)
  = flags a ++ map flag (pushedBy (analyzePressure cfg g)).
Proof. unfold analyzePressure. block_by_cases g. Qed.

Lemma analyzeGlucose_details :
  flagDetails (analyzeGlucose cfg g a)
  = flagDetails a ++ pushedBy (analyzeGlucose cfg g).
Proof. unfold analyzeGlucose. block_by_cases g. Qed.

Lemma analyzeGlucose_flags :
  flags (analyzeGlucose cfg g a)
  = flags a ++ map flag (pushedBy (analyzeGlucose cfg g)).
Proof. unfold analyzeGlucose. block_by_cases g. Qed.

Lemma analyzeHeartRate_details :
  flagDetails (analyzeHeartRate cfg g a)
  = flagDetails a ++ pushedBy (analyzeHeartRate cfg g).
Proof. unfold analyzeHeartRate. block_by_cases g. Qed.

Lemma analyzeHeartRate_flags :
  flags (analyzeHeartRate cfg g a)
  = flags a ++ map flag (pushedBy (analyzeHeartRate cfg g)).
Proof. unfold analyzeHeartRate. block_by_cases g. Qed.

Lemma analyzeTemperature_details :
  flagDetails (analyzeTemperature cfg g a)
  = flagDetails a ++ pushedBy (analyzeTemperature cfg g).
Proof. unfold analyzeTemperature. block_by_cases g. Qed.

Lemma analyzeTemperature_flags :
  flags (analyzeTemperature cfg g a)
  = flags a ++ map flag (pushedBy (analyzeTemperature cfg g)).
Proof. unfold analyzeTemperature. block_by_cases g. Qed.

Lemma analyzeOxygen_details :
  flagDetails (analyzeOxygen cfg g a)
  = flagDetails a ++ pushedBy (analyzeOxygen cfg g).
Proof. unfold analyzeOxygen. block_by_cases g. Qed.

Lemma analyzeOxygen_flags :
  flags (analyzeOxygen cfg g a)
  = flags a ++ map flag (pushedBy (analyzeOxygen cfg g)).
Proof. unfold analyzeOxygen. block_by_cases g. Qed.

End Blocks.

(** What each block pushes, from the sorted readings of its channel. *)
Section Pushed.

Variable cfg : RiskCalculationConfig number.

Ltac pushed_by_cases l :=
  unfold pushedBy, groupOf;
  destruct l as [|latest rest]; [reflexivity|];
  cbn [analyzePressure analyzeGlucose analyzeHeartRate analyzeTemperature
       analyzeOxygen];
  repeat match goal with
         | |- context [match ?o with Some _ => _ | None => _ end] =>
             destruct o; try reflexivity
         end;
  autorewrite with pushes; reflexivity.

Lemma pressure_pushed (l : list VitalRecord) :
  pushedBy (analyzePressure cfg (groupOf l))
  = match l with
    | latest :: _ =>
        match systolic latest, diastolic latest with
        | Some s, Some _ =>
            (if (2 <=? count (isHighPressure cfg) l)%nat
             then [mkDetail PRESSURE_HIGH s
                     (Pressure.systolicHigh (Vitals.pressure (vitals cfg)))
                     (severityOf PRESSURE_HIGH s)]
             else [])
            ++ (if (2 <=? count (isLowPressure cfg) l)%nat
                then [mkDetail PRESSURE_LOW s
                        (Pressure.systolicLow (Vitals.pressure (vitals cfg)))
                        (severityOf PRESSURE_LOW s)]
                else [])
        | _, _ => []
        end
    | [] => []
    end.
Proof. pushed_by_cases l. Qed.

Lemma glucose_pushed (l : list VitalRecord) :
  pushedBy (analyzeGlucose cfg (groupOf l))
  = match l with
    | latest :: _ =>
        match numericValue latest with
        | Some x =>
            (if (2 <=? count (isHighGlucose cfg) l)%nat
             then [mkDetail GLUCOSE_HIGH x
                     (Glucose.high (Vitals.glucose (vitals cfg)))
                     (severityOf GLUCOSE_HIGH x)]
             else [])
            ++ (if (1 <=? count (isLowGlucose cfg) l)%nat
                then [mkDetail GLUCOSE_LOW x
                        (Glucose.low (Vitals.glucose (vitals cfg)))
                        (severityOf GLUCOSE_LOW x)]
                else [])
        | None => []
        end
    | [] => []
    end.
Proof. pushed_by_cases l. Qed.

Lemma heartRate_pushed (l : list VitalRecord) :
  pushedBy (analyzeHeartRate cfg (groupOf l))
  = match l with
    | latest :: _ =>
        match numericValue latest with
        | Some x =>
            (if meetsThreshold cfg HEART_RATE_HIGH latest
             then [mkDetail HEART_RATE_HIGH x
                     (HeartRate.high (Vitals.heartRate (vitals cfg)))
                     (severityOf HEART_RATE_HIGH x)]
             else [])
            ++ (if meetsThreshold cfg HEART_RATE_LOW latest
                then [mkDetail HEART_RATE_LOW x
                        (HeartRate.low (Vitals.heartRate (vitals cfg)))
                        (severityOf HEART_RATE_LOW x)]
                else [])
        | None => []
        end
    | [] => []
    end.
Proof.
  unfold pushedBy, groupOf. destruct l as [|latest rest]; [reflexivity|].
  cbn [analyzeHeartRate meetsThreshold].
  destruct (numericValue latest); [|reflexivity].
  autorewrite with pushes. reflexivity.
Qed.

Lemma temperature_pushed (l : list VitalRecord) :
  pushedBy (analyzeTemperature cfg (groupOf l))
  = match l with
    | latest :: _ =>
        match numericValue latest with
        | Some x =>
            (if meetsThreshold cfg TEMPERATURE_HIGH latest
             then [mkDetail TEMPERATURE_HIGH x
                     (Temperature.high (Vitals.temperature (vitals cfg)))
                     (severityOf TEMPERATURE_HIGH x)]
             else [])
            ++ (if meetsThreshold cfg TEMPERATURE_LOW latest
                then [mkDetail TEMPERATURE_LOW x
                        (Temperature.low (Vitals.temperature (vitals cfg)))
                        (severityOf TEMPERATURE_LOW x)]
                else [])
        | None => []
        end
    | [] => []
    end.
Proof.
  unfold pushedBy, groupOf. destruct l as [|latest rest]; [reflexivity|].
  cbn [analyzeTemperature meetsThreshold].
  destruct (numericValue latest); [|reflexivity].
  autorewrite with pushes. reflexivity.
Qed.

Lemma oxygen_pushed (l : list VitalRecord) :
  pushedBy (analyzeOxygen cfg (groupOf l))
  = match l with
    | latest :: _ =>
        match numericValue latest with
        | Some x =>
            if meetsThreshold cfg OXYGEN_LOW latest
            then [mkDetail OXYGEN_LOW x
                    (Oxygen.low (Vitals.oxygen (vitals cfg)))
                    (severityOf OXYGEN_LOW x)]
            else []
        | None => []
        end
    | [] => []
    end.
Proof.
  unfold pushedBy, groupOf. destruct l as [|latest rest]; [reflexivity|].
  cbn [analyzeOxygen meetsThreshold].
  destruct (numericValue latest); [|reflexivity].
  autorewrite with pushes. reflexivity.
Qed.

End Pushed.

(** ** [analyzeVitals] as a whole *)

Lemma groupVitalsByType_groupOf (now : Date) (vs : list VitalRecord)
    (ty : VitalType) :
  groupVitalsByType (recentVitals now vs) ty = groupOf (sortedGroup now ty vs).
Proof.
  rewrite groupVitalsByType_spec. unfold groupOf, sortedGroup, inWindow.
  destruct (sortByRecency (ofType ty (recentVitals now vs))); reflexivity.
Qed.

Lemma latestReading_head (now : Date) (ty : VitalType) (vs : list VitalRecord) :
  latestReading now ty vs = hd_error (sortedGroup now ty vs).
Proof.
  unfold latestReading. rewrite groupVitalsByType_groupOf.
  destruct (sortedGroup now ty vs); reflexivity.
Qed.

Lemma count_sortedGroup (p : VitalRecord -> bool) (now : Date) (ty : VitalType)
    (vs : list VitalRecord) :
  count p (sortedGroup now ty vs) = count p (inWindow now ty vs).
Proof. apply count_sortByRecency. Qed.

Lemma analyzeVitals_details (cfg : RiskCalculationConfig number) (now : Date)
    (vs : list VitalRecord) :
  flagDetails (analyzeVitals cfg now vs)
  = pushedBy (analyzePressure cfg (groupOf (sortedGroup now blood_pressure vs)))
    ++ pushedBy (analyzeGlucose cfg (groupOf (sortedGroup now glucose vs)))
    ++ pushedBy (analyzeHeartRate cfg (groupOf (sortedGroup now heart_rate vs)))
    ++ pushedBy (analyzeTemperature cfg (groupOf (sortedGroup now temperature vs)))
    ++ pushedBy (analyzeOxygen cfg (groupOf (sortedGroup now oxygen_saturation vs))).
Proof.
  unfold analyzeVitals. cbv zeta.
  rewrite analyzeOxygen_details, analyzeTemperature_details,
    analyzeHeartRate_details, analyzeGlucose_details, analyzePressure_details.
  rewrite !groupVitalsByType_groupOf. simpl.
  rewrite <- !app_assoc. reflexivity.
Qed.

(** The two arrays are pushed together. *)
Lemma analyzeVitals_flags (cfg : RiskCalculationConfig number) (now : Date)
    (vs : list VitalRecord) :
  flags (analyzeVitals cfg now vs) = map flag (flagDetails (analyzeVitals cfg now vs)).
Proof.
  rewrite analyzeVitals_details. unfold analyzeVitals. cbv zeta.
  rewrite analyzeOxygen_flags, analyzeTemperature_flags,
    analyzeHeartRate_flags, analyzeGlucose_flags, analyzePressure_flags.
  rewrite !groupVitalsByType_groupOf. simpl.
  rewrite !map_app, <- !app_assoc. reflexivity.
Qed.

Section Triggers.

Variable cfg : RiskCalculationConfig number.

Ltac flag_cases l f :=
  destruct l as [|latest rest]; [simpl; intuition discriminate|];
  unfold triggered, guardOf, wellFormedPressure;
  repeat match goal with
         | |- context [match ?o with Some _ => _ | None => _ end] =>
             destruct o; simpl
         end;
  repeat match goal with
         | |- context [if ?c then _ else _] =>
             match c with
             | singleReadingFlag _ => fail 1
             | _ => destruct c eqn:?
             end
         end;
  destruct f; simpl;
  intuition (try discriminate; try congruence).

Lemma pressure_flag_in (l : list VitalRecord) (f : VitalFlag) :
  In f (map flag (pushedBy (analyzePressure cfg (groupOf l))))
  <-> channelOf f = blood_pressure /\ triggered cfg f l = true.
Proof. rewrite pressure_pushed. flag_cases l f. Qed.

Lemma glucose_flag_in (l : list VitalRecord) (f : VitalFlag) :
  In f (map flag (pushedBy (analyzeGlucose cfg (groupOf l))))
  <-> channelOf f = glucose /\ triggered cfg f l = true.
Proof. rewrite glucose_pushed. flag_cases l f. Qed.

Lemma heartRate_flag_in (l : list VitalRecord) (f : VitalFlag) :
  In f (map flag (pushedBy (analyzeHeartRate cfg (groupOf l))))
  <-> channelOf f = heart_rate /\ triggered cfg f l = true.
Proof. rewrite heartRate_pushed. flag_cases l f. Qed.

Lemma temperature_flag_in (l : list VitalRecord) (f : VitalFlag) :
  In f (map flag (pushedBy (analyzeTemperature cfg (groupOf l))))
  <-> channelOf f = temperature /\ triggered cfg f l = true.
Proof. rewrite temperature_pushed. flag_cases l f. Qed.

Lemma oxygen_flag_in (l : list VitalRecord) (f : VitalFlag) :
  In f (map flag (pushedBy (analyzeOxygen cfg (groupOf l))))
  <-> channelOf f = oxygen_saturation /\ triggered cfg f l = true.
Proof. rewrite oxygen_pushed. flag_cases l f. Qed.

(** A flag is emitted exactly when its condition holds on the sorted
    in-window readings of its channel. *)
Lemma flag_emitted_iff (now : Date) (vs : list VitalRecord) (f : VitalFlag) :
  In f (flags (analyzeVitals cfg now vs))
  <-> triggered cfg f (sortedGroup now (channelOf f) vs) = true.
Proof.
  rewrite analyzeVitals_flags, analyzeVitals_details, !map_app, !in_app_iff.
  rewrite pressure_flag_in, glucose_flag_in, heartRate_flag_in,
    temperature_flag_in, oxygen_flag_in.
  destruct f; simpl; intuition discriminate.
Qed.

End Triggers.

Section TriggerReadings.

Variable cfg : RiskCalculationConfig number.
Variable now : Date.
Variable vs : list VitalRecord.

(** Pressure and glucose: the guard on [latest], then a count over every
    in-window reading of the channel. *)
Lemma triggered_by_count (f : VitalFlag) :
  singleReadingFlag f = false ->
  (triggered cfg f (sortedGroup now (channelOf f) vs) = true
   <-> (exists latest, latestReading now (channelOf f) vs = Some latest
                       /\ guardOf f latest = true)
       /\ (confirmations f
           <= count (meetsThreshold cfg f) (inWindow now (channelOf f) vs))%nat).
Proof.
  intro Hf. rewrite latestReading_head, <- count_sortedGroup.
  unfold triggered. rewrite Hf.
  destruct (sortedGroup now (channelOf f) vs) as [|latest rest]; simpl hd_error.
  - split; [discriminate | intros [[x [Hx _]] _]; discriminate].
  - rewrite andb_true_iff, Nat.leb_le. split.
    + intros [Hg Hc]. split; [exists latest; auto | exact Hc].
    + intros [[x [Hx Hg]] Hc]. injection Hx as <-. auto.
Qed.

(** Heart rate, temperature and oxygen: [latest] alone. *)
Lemma triggered_by_latest (f : VitalFlag) :
  singleReadingFlag f = true ->
  (triggered cfg f (sortedGroup now (channelOf f) vs) = true
   <-> exists latest, latestReading now (channelOf f) vs = Some latest
                      /\ meetsThreshold cfg f latest = true).
Proof.
  intro Hf. rewrite latestReading_head.
  unfold triggered. rewrite Hf.
  destruct (sortedGroup now (channelOf f) vs) as [|latest rest]; simpl hd_error.
  - split; [discriminate | intros [x [Hx _]]; discriminate].
  - rewrite andb_true_iff. split.
    + intros [_ Hm]. exists latest. auto.
    + intros [x [Hx Hm]]. injection Hx as <-. split; [|exact Hm].
      destruct f; try discriminate Hf; unfold guardOf; simpl in *;
        destruct (numericValue latest); try reflexivity; discriminate Hm.
Qed.

End TriggerReadings.

(** ** Confirmation rules *)

(** C2, as amended.  PRESSURE_HIGH is emitted if and only if the most recent
    in-window blood-pressure record carries both systolic and diastolic and at
    least two in-window blood-pressure readings meet the high threshold;
    GLUCOSE_HIGH if and only if the most recent in-window glucose record has a
    value and at least two in-window readings meet the high threshold;
    GLUCOSE_LOW if and only if the most recent in-window glucose record has a
    value and at least one in-window reading meets the low threshold. *)
Theorem confirmation_rules :
  forall (cfg : RiskCalculationConfig number) (now : Date)
         (vs : list VitalRecord),
    (In PRESSURE_HIGH (flags (analyzeVitals cfg now vs))
     <-> (exists latest, latestReading now blood_pressure vs = Some latest
                         /\ wellFormedPressure latest = true)
         /\ (2 <= count (isHighPressure cfg) (inWindow now blood_pressure vs))%nat)
    /\ (In GLUCOSE_HIGH (flags (analyzeVitals cfg now vs))
        <-> (exists latest, latestReading now glucose vs = Some latest
                            /\ isSome (numericValue latest) = true)
            /\ (2 <= count (isHighGlucose cfg) (inWindow now glucose vs))%nat)
    /\ (In GLUCOSE_LOW (flags (analyzeVitals cfg now vs))
        <-> (exists latest, latestReading now glucose vs = Some latest
                            /\ isSome (numericValue latest) = true)
            /\ (1 <= count (isLowGlucose cfg) (inWindow now glucose vs))%nat).
Proof.
  intros cfg now vs. split; [|split]; rewrite flag_emitted_iff.
  - apply (triggered_by_count cfg now vs PRESSURE_HIGH eq_refl).
  - apply (triggered_by_count cfg now vs GLUCOSE_HIGH eq_refl).
  - apply (triggered_by_count cfg now vs GLUCOSE_LOW eq_refl).
Qed.

(** C2 fails as stated where the most recent record of the channel lacks a
    field: two well-formed in-window readings, 145/92 and 142/90, meet the
    high threshold and no PRESSURE_HIGH is emitted; an in-window glucose
    reading of 65 is present and no GLUCOSE_LOW is emitted. *)
Lemma confirmed_readings_behind_blank_latest :
  (2 <= count (isHighPressure DEFAULT_RISK_CONFIG)
          (filter wellFormedPressure
             (inWindow sampleNow blood_pressure vitalsMalformedLatest)))%nat
  /\ ~ In PRESSURE_HIGH
         (flags (analyzeVitals DEFAULT_RISK_CONFIG sampleNow vitalsMalformedLatest))
  /\ (1 <= count (isLowGlucose DEFAULT_RISK_CONFIG)
            (inWindow sampleNow glucose vitalsGlucoseBlankLatest))%nat
  /\ ~ In GLUCOSE_LOW
         (flags (analyzeVitals DEFAULT_RISK_CONFIG sampleNow vitalsGlucoseBlankLatest)).
Proof.
  repeat split; try (vm_compute; lia); vm_compute; intros [].
Qed.

(** The examples of the specification, on well-formed records. *)
Example two_high_pressure_readings :
  flags (analyzeVitals DEFAULT_RISK_CONFIG sampleNow
           [bp (Some 145) (Some 92) 1; bp (Some 142) (Some 90) 1])
  = [PRESSURE_HIGH].
Proof. reflexivity. Qed.

Example one_high_pressure_reading :
  flags (analyzeVitals DEFAULT_RISK_CONFIG sampleNow [bp (Some 145) (Some 92) 1])
  = [].
Proof. reflexivity. Qed.

Example one_low_glucose_reading :
  flags (analyzeVitals DEFAULT_RISK_CONFIG sampleNow [reading glucose 65 1])
  = [GLUCOSE_LOW].
Proof. reflexivity. Qed.

Example one_high_glucose_reading :
  flags (analyzeVitals DEFAULT_RISK_CONFIG sampleNow [reading glucose 190 1])
  = [].
Proof. reflexivity. Qed.

(** C3, as amended.  For heart rate, temperature and oxygen saturation the
    flag is emitted if and only if the most recent in-window reading of the
    channel meets the threshold; no second reading is asked for, and an
    earlier reading does not count. *)
Theorem single_reading_flags :
  forall (cfg : RiskCalculationConfig number) (now : Date)
         (vs : list VitalRecord) (f : VitalFlag),
    singleReadingFlag f = true ->
    (In f (flags (analyzeVitals cfg now vs))
     <-> exists latest, latestReading now (channelOf f) vs = Some latest
                        /\ meetsThreshold cfg f latest = true).
Proof.
  intros cfg now vs f Hf. rewrite flag_emitted_iff.
  apply triggered_by_latest. exact Hf.
Qed.

(** One oxygen reading of 88 raises OXYGEN_LOW. *)
Lemma single_reading_flags_witness :
  In OXYGEN_LOW
    (flags (analyzeVitals DEFAULT_RISK_CONFIG sampleNow
              [reading oxygen_saturation 88 1])).
Proof.
  apply (proj2 (single_reading_flags DEFAULT_RISK_CONFIG sampleNow
                  [reading oxygen_saturation 88 1] OXYGEN_LOW eq_refl)).
  exists (reading oxygen_saturation 88 1). split; reflexivity.
Defined.

(** C3 fails as stated: a heart rate of 110 two days ago meets the threshold
    inside the window, the latest reading is 80, and no HEART_RATE_HIGH is
    emitted. *)
Lemma earlier_reading_does_not_trigger :
  (exists v, In v (inWindow sampleNow heart_rate vitalsHeartRateSettled)
             /\ meetsThreshold DEFAULT_RISK_CONFIG HEART_RATE_HIGH v = true)
  /\ ~ In HEART_RATE_HIGH
         (flags (analyzeVitals DEFAULT_RISK_CONFIG sampleNow vitalsHeartRateSettled)).
Proof.
  split.
  - exists (reading heart_rate 110 2). split; [left|]; reflexivity.
  - vm_compute. intros [].
Qed.

(** ** Malformed blood-pressure records *)

Lemma filter_keep {A : Type} (p : A -> bool) (l : list A) :
  (forall x, In x l -> p x = true) -> filter p l = l.
Proof.
  induction l as [|x l IH]; intro H; simpl; [reflexivity|].
  rewrite (H x (or_introl eq_refl)). f_equal. apply IH.
  intros y Hy. apply H. right. exact Hy.
Qed.

Lemma filter_drop {A : Type} (p : A -> bool) (l : list A) :
  (forall x, In x l -> p x = false) -> filter p l = [].
Proof.
  induction l as [|x l IH]; intro H; simpl; [reflexivity|].
  rewrite (H x (or_introl eq_refl)). apply IH.
  intros y Hy. apply H. right. exact Hy.
Qed.

Lemma filter_swap {A : Type} (p q : A -> bool) (l : list A) :
  filter p (filter q l) = filter q (filter p l).
Proof.
  induction l as [|x l IH]; simpl; [reflexivity|].
  destruct (p x) eqn:P, (q x) eqn:Q; simpl; rewrite ?P, ?Q, IH; reflexivity.
Qed.

Lemma count_filter_implied (p q : VitalRecord -> bool) (l : list VitalRecord) :
  (forall v, p v = true -> q v = true) -> count p l = count p (filter q l).
Proof.
  intro H. unfold count. induction l as [|x l IH]; simpl; [reflexivity|].
  destruct (p x) eqn:P.
  - rewrite (H x P). simpl. rewrite P. simpl. now rewrite IH.
  - destruct (q x); simpl; rewrite ?P; exact IH.
Qed.

Lemma highPressure_has_field (cfg : RiskCalculationConfig number) (v : VitalRecord) :
  isHighPressure cfg v = true -> hasPressureField v = true.
Proof.
  unfold isHighPressure, hasPressureField.
  destruct (systolic v), (diastolic v); simpl; auto.
Qed.

Lemma lowPressure_has_field (cfg : RiskCalculationConfig number) (v : VitalRecord) :
  isLowPressure cfg v = true -> hasPressureField v = true.
Proof.
  unfold isLowPressure, hasPressureField.
  destruct (systolic v), (diastolic v); simpl; auto.
Qed.

Lemma inWindow_filter (now : Date) (ty : VitalType) (q : VitalRecord -> bool)
    (vs : list VitalRecord) :
  inWindow now ty (filter q vs) = filter q (inWindow now ty vs).
Proof.
  unfold inWindow, ofType, recentVitals.
  rewrite (filter_swap _ q vs), (filter_swap _ q). reflexivity.
Qed.

Lemma inWindow_type (now : Date) (ty : VitalType) (vs : list VitalRecord)
    (v : VitalRecord) :
  In v (inWindow now ty vs) -> type v = ty.
Proof.
  unfold inWindow, ofType. rewrite filter_In. intros [_ H].
  destruct (type v), ty; try discriminate H; reflexivity.
Qed.

Lemma sortedGroup_withoutPressure (now : Date) (ty : VitalType)
    (vs : list VitalRecord) :
  sortedGroup now ty (withoutPressure vs)
  = match ty with
    | blood_pressure => []
    | _ => sortedGroup now ty vs
    end.
Proof.
  unfold sortedGroup, withoutPressure. rewrite inWindow_filter.
  destruct ty;
    try (rewrite filter_keep; [reflexivity|];
         intros v Hv; apply inWindow_type in Hv; rewrite Hv; reflexivity).
  rewrite filter_drop; [reflexivity|].
  intros v Hv. apply inWindow_type in Hv. rewrite Hv. reflexivity.
Qed.

Section PressureOnly.

Variable cfg : RiskCalculationConfig number.

Lemma pressure_block_only (l : list VitalRecord) :
  filter isPressureFlag (map flag (pushedBy (analyzePressure cfg (groupOf l))))
  = map flag (pushedBy (analyzePressure cfg (groupOf l))).
Proof.
  apply filter_keep. intros f Hf. apply pressure_flag_in in Hf.
  destruct Hf as [Hc _]. destruct f; try discriminate Hc; reflexivity.
Qed.

Lemma glucose_block_other (l : list VitalRecord) (f : VitalFlag) :
  In f (map flag (pushedBy (analyzeGlucose cfg (groupOf l)))) ->
  isPressureFlag f = false.
Proof.
  intro Hf. apply glucose_flag_in in Hf. destruct Hf as [Hc _].
  destruct f; try discriminate Hc; reflexivity.
Qed.

Lemma heartRate_block_other (l : list VitalRecord) (f : VitalFlag) :
  In f (map flag (pushedBy (analyzeHeartRate cfg (groupOf l)))) ->
  isPressureFlag f = false.
Proof.
  intro Hf. apply heartRate_flag_in in Hf. destruct Hf as [Hc _].
  destruct f; try discriminate Hc; reflexivity.
Qed.

Lemma temperature_block_other (l : list VitalRecord) (f : VitalFlag) :
  In f (map flag (pushedBy (analyzeTemperature cfg (groupOf l)))) ->
  isPressureFlag f = false.
Proof.
  intro Hf. apply temperature_flag_in in Hf. destruct Hf as [Hc _].
  destruct f; try discriminate Hc; reflexivity.
Qed.

Lemma oxygen_block_other (l : list VitalRecord) (f : VitalFlag) :
  In f (map flag (pushedBy (analyzeOxygen cfg (groupOf l)))) ->
  isPressureFlag f = false.
Proof.
  intro Hf. apply oxygen_flag_in in Hf. destruct Hf as [Hc _].
  destruct f; try discriminate Hc; reflexivity.
Qed.

Lemma pressureFlags_block (now : Date) (vs : list VitalRecord) :
  pressureFlags (analyzeVitals cfg now vs)
  = map flag (pushedBy (analyzePressure cfg
                          (groupOf (sortedGroup now blood_pressure vs)))).
Proof.
  unfold pressureFlags.
  rewrite analyzeVitals_flags, analyzeVitals_details, !map_app, !filter_app.
  rewrite pressure_block_only.
  rewrite (filter_drop _ _ (glucose_block_other _)),
    (filter_drop _ _ (heartRate_block_other _)),
    (filter_drop _ _ (temperature_block_other _)),
    (filter_drop _ _ (oxygen_block_other _)).
  now rewrite !app_nil_r.
Qed.

Lemma otherFlags_blocks (now : Date) (vs : list VitalRecord) :
  otherFlags (analyzeVitals cfg now vs)
  = map flag (pushedBy (analyzeGlucose cfg (groupOf (sortedGroup now glucose vs))))
    ++ map flag (pushedBy (analyzeHeartRate cfg
                             (groupOf (sortedGroup now heart_rate vs))))
    ++ map flag (pushedBy (analyzeTemperature cfg
                             (groupOf (sortedGroup now temperature vs))))
    ++ map flag (pushedBy (analyzeOxygen cfg
                             (groupOf (sortedGroup now oxygen_saturation vs)))).
Proof.
  unfold otherFlags.
  rewrite analyzeVitals_flags, analyzeVitals_details, !map_app, !filter_app.
  rewrite (filter_drop _ (map flag (pushedBy (analyzePressure _ _)))).
  - simpl. rewrite !filter_keep; try reflexivity; intros f Hf.
    + now rewrite (oxygen_block_other _ _ Hf).
    + now rewrite (temperature_block_other _ _ Hf).
    + now rewrite (heartRate_block_other _ _ Hf).
    + now rewrite (glucose_block_other _ _ Hf).
  - intros f Hf. rewrite <- (pressure_block_only _) in Hf.
    apply filter_In in Hf. destruct Hf as [_ Hf]. now rewrite Hf.
Qed.

End PressureOnly.

(** C4, as amended.  The analysis is total, and the flags of the other
    channels are those of the input without its blood-pressure records.  When
    the most recent in-window blood-pressure record lacks systolic or
    diastolic, or there is none, no pressure flag is emitted.  Otherwise
    PRESSURE_HIGH and PRESSURE_LOW are decided by the counts over all
    in-window blood-pressure records, in which an absent field meets no
    threshold: a record with neither field counts for nothing. *)
Theorem pressure_flags_with_missing_fields :
  forall (cfg : RiskCalculationConfig number) (now : Date)
         (vs : list VitalRecord),
    pressureFlags (analyzeVitals cfg now vs)
    = match latestReading now blood_pressure vs with
      | Some latest =>
          if wellFormedPressure latest
          then (if (2 <=? count (isHighPressure cfg)
                            (inWindow now blood_pressure vs))%nat
                then [PRESSURE_HIGH] else [])
               ++ (if (2 <=? count (isLowPressure cfg)
                               (inWindow now blood_pressure vs))%nat
                   then [PRESSURE_LOW] else [])
          else []
      | None => []
      end
    /\ count (isHighPressure cfg) (inWindow now blood_pressure vs)
       = count (isHighPressure cfg)
           (filter hasPressureField (inWindow now blood_pressure vs))
    /\ count (isLowPressure cfg) (inWindow now blood_pressure vs)
       = count (isLowPressure cfg)
           (filter hasPressureField (inWindow now blood_pressure vs))
    /\ otherFlags (analyzeVitals cfg now vs)
       = flags (analyzeVitals cfg now (withoutPressure vs)).
Proof.
  intros cfg now vs. split; [|split; [|split]].
  - rewrite pressureFlags_block, pressure_pushed, latestReading_head.
    rewrite <- !count_sortedGroup.
    destruct (sortedGroup now blood_pressure vs) as [|latest rest];
      [reflexivity|].
    unfold wellFormedPressure. simpl hd_error. cbv iota.
    destruct (systolic latest), (diastolic latest); try reflexivity.
    simpl isSome. simpl andb. cbv iota.
    rewrite map_app.
    destruct (2 <=? count (isHighPressure cfg) (latest :: rest))%nat,
             (2 <=? count (isLowPressure cfg) (latest :: rest))%nat;
      reflexivity.
  - apply count_filter_implied. apply highPressure_has_field.
  - apply count_filter_implied. apply lowPressure_has_field.
  - rewrite otherFlags_blocks.
    rewrite (analyzeVitals_flags cfg now (withoutPressure vs)),
      analyzeVitals_details, !map_app.
    rewrite !sortedGroup_withoutPressure. reflexivity.
Qed.

(** C4 fails as stated.  With the most recent blood-pressure record lacking
    its systolic field, the two earlier well-formed readings 145/92 and 142/90
    raise no flag, while the well-formed records alone raise PRESSURE_HIGH.
    With a record that has only its diastolic field, 95, behind a well-formed
    145/92, PRESSURE_HIGH is raised, while the well-formed record alone raises
    nothing. *)
Lemma malformed_pressure_records_change_flags :
  pressureFlags (analyzeVitals DEFAULT_RISK_CONFIG sampleNow vitalsMalformedLatest)
  = []
  /\ pressureFlags
       (analyzeVitals DEFAULT_RISK_CONFIG sampleNow
          (dropMalformedPressure vitalsMalformedLatest))
     = [PRESSURE_HIGH]
  /\ pressureFlags (analyzeVitals DEFAULT_RISK_CONFIG sampleNow vitalsHalfRecord)
     = [PRESSURE_HIGH]
  /\ pressureFlags
       (analyzeVitals DEFAULT_RISK_CONFIG sampleNow
          (dropMalformedPressure vitalsHalfRecord))
     = [].
Proof. repeat split. Qed.

(** ** Reported value and severity *)

Section Reported.

Variable cfg : RiskCalculationConfig number.

Ltac detail_cases l :=
  destruct l as [|latest rest]; [intros d []|];
  intros d Hd; exists latest; split; [reflexivity|];
  repeat match type of Hd with
         | context [match ?o with Some _ => _ | None => _ end] =>
             destruct o eqn:?
         end;
  try (destruct Hd; fail);
  repeat match type of Hd with
         | context [if ?c then _ else _] => destruct c
         end;
  simpl in Hd;
  repeat match type of Hd with
         | _ \/ _ => destruct Hd as [Hd | Hd]
         end;
  try (destruct Hd; fail);
  subst d; simpl; auto.

Lemma pressure_detail (l : list VitalRecord) :
  forall d, In d (pushedBy (analyzePressure cfg (groupOf l))) ->
  exists latest, hd_error l = Some latest
    /\ channelOf (flag d) = blood_pressure
    /\ reportedField (flag d) latest = Some (value d)
    /\ severity d = severityOf (flag d) (value d).
Proof. rewrite pressure_pushed. detail_cases l. Qed.

Lemma glucose_detail (l : list VitalRecord) :
  forall d, In d (pushedBy (analyzeGlucose cfg (groupOf l))) ->
  exists latest, hd_error l = Some latest
    /\ channelOf (flag d) = glucose
    /\ reportedField (flag d) latest = Some (value d)
    /\ severity d = severityOf (flag d) (value d).
Proof. rewrite glucose_pushed. detail_cases l. Qed.

Lemma heartRate_detail (l : list VitalRecord) :
  forall d, In d (pushedBy (analyzeHeartRate cfg (groupOf l))) ->
  exists latest, hd_error l = Some latest
    /\ channelOf (flag d) = heart_rate
    /\ reportedField (flag d) latest = Some (value d)
    /\ severity d = severityOf (flag d) (value d).
Proof. rewrite heartRate_pushed. detail_cases l. Qed.

Lemma temperature_detail (l : list VitalRecord) :
  forall d, In d (pushedBy (analyzeTemperature cfg (groupOf l))) ->
  exists latest, hd_error l = Some latest
    /\ channelOf (flag d) = temperature
    /\ reportedField (flag d) latest = Some (value d)
    /\ severity d = severityOf (flag d) (value d).
Proof. rewrite temperature_pushed. detail_cases l. Qed.

Lemma oxygen_detail (l : list VitalRecord) :
  forall d, In d (pushedBy (analyzeOxygen cfg (groupOf l))) ->
  exists latest, hd_error l = Some latest
    /\ channelOf (flag d) = oxygen_saturation
    /\ reportedField (flag d) latest = Some (value d)
    /\ severity d = severityOf (flag d) (value d).
Proof. rewrite oxygen_pushed. detail_cases l. Qed.

End Reported.

(** C10.  Every emitted flag detail reports the value of the most recent
    in-window reading of its channel (the systolic value for the pressure
    flags), and its severity is the tier of that value, whichever readings met
    the trigger threshold. *)
Theorem flag_detail_from_latest :
  forall (cfg : RiskCalculationConfig number) (now : Date)
         (vs : list VitalRecord) (d : FlagDetail),
    In d (flagDetails (analyzeVitals cfg now vs)) ->
    exists latest,
      latestReading now (channelOf (flag d)) vs = Some latest
      /\ In latest (inWindow now (channelOf (flag d)) vs)
      /\ (forall w, In w (inWindow now (channelOf (flag d)) vs) ->
                    (recordedAt w <= recordedAt latest)%Z)
      /\ reportedField (flag d) latest = Some (value d)
      /\ severity d = severityOf (flag d) (value d).
Proof.
  intros cfg now vs d Hd.
  assert (H : exists latest,
             latestReading now (channelOf (flag d)) vs = Some latest
             /\ reportedField (flag d) latest = Some (value d)
             /\ severity d = severityOf (flag d) (value d)).
  { rewrite analyzeVitals_details, !in_app_iff in Hd.
    destruct Hd as [Hd | [Hd | [Hd | [Hd | Hd]]]];
      [ apply pressure_detail in Hd | apply glucose_detail in Hd
      | apply heartRate_detail in Hd | apply temperature_detail in Hd
      | apply oxygen_detail in Hd ];
      destruct Hd as [latest [Hl [Hc [Hv Hs]]]];
      exists latest; rewrite Hc, latestReading_head; auto. }
  destruct H as [latest [Hl [Hv Hs]]]. exists latest.
  destruct (latestReading_most_recent _ _ _ _ Hl) as [Hin Hmax].
  auto.
Qed.

(** Glucose 55 two days ago and 120 yesterday: the GLUCOSE_LOW detail reports
    120 with severity low, and the reading it is taken from is the one of
    yesterday. *)
Lemma flag_detail_from_latest_witness :
  flagDetails (analyzeVitals DEFAULT_RISK_CONFIG sampleNow vitalsGlucoseRecovered)
  = [mkDetail GLUCOSE_LOW 120 70 sev_low]
  /\ exists latest,
       latestReading sampleNow glucose vitalsGlucoseRecovered = Some latest
       /\ In latest (inWindow sampleNow glucose vitalsGlucoseRecovered)
       /\ (forall w, In w (inWindow sampleNow glucose vitalsGlucoseRecovered) ->
                     (recordedAt w <= recordedAt latest)%Z)
       /\ numericValue latest = Some 120
       /\ sev_low = severityOf GLUCOSE_LOW 120.
Proof.
  split; [reflexivity|].
  apply (flag_detail_from_latest DEFAULT_RISK_CONFIG sampleNow
           vitalsGlucoseRecovered (mkDetail GLUCOSE_LOW 120 70 sev_low)).
  left. reflexivity.
Defined.

(** ** Construction *)

(** C5, as amended.  The constructor performs no validation: for every
    argument, valid or not, it returns an engine, whose configuration is the
    default one with the supplied groups put in place of the default groups. *)
Theorem constructor_never_throws :
  forall supplied : option (PartialConfig number),
    (forall message, AIService_new supplied <> Thrown message)
    /\ exists service,
         AIService_new supplied = Returned service
         /\ config service = spread DEFAULT_RISK_CONFIG supplied.
Proof.
  intro supplied. split.
  - intros message H. discriminate H.
  - eexists. split; reflexivity.
Qed.

(** C5 fails as stated: with the good threshold at 50 below the medium
    threshold at 75 the configuration is invalid, and the constructor returns
    an engine that holds it. *)
Lemma constructor_accepts_inverted_thresholds :
  invalidConfig invertedConfig = true
  /\ AIService_new (Some invertedThresholds) = Returned (mkService invertedConfig)
  /\ ~ (exists message, AIService_new (Some invertedThresholds) = Thrown message).
Proof.
  split; [reflexivity|]. split; [reflexivity|].
  intros [message H]. discriminate H.
Qed.

(** C6, as amended.  The configuration is overridable as a whole or group by
    group: each of the four top-level groups of the engine is the supplied
    group when one is supplied, taken as it is, and the default group
    otherwise.  The leaves of a supplied group all come from that group: a
    leaf absent from it is absent from the engine, whatever its default. *)
Theorem constructor_overrides_by_group :
  forall (N : Type) (lit : number -> N) (supplied : PartialConfig N),
    exists service,
      AIService_new_with lit (Some supplied) = Returned service
      /\ adherence (config service)
         = orElse (adherence_opt supplied) (adherence (default_config_with lit))
      /\ vitals (config service)
         = orElse (vitals_opt supplied) (vitals (default_config_with lit))
      /\ exams (config service)
         = orElse (exams_opt supplied) (exams (default_config_with lit))
      /\ riskLevels (config service)
         = orElse (riskLevels_opt supplied) (riskLevels (default_config_with lit))
      /\ (forall g, adherence_opt supplied = Some g ->
            adherence (config service) = g).
Proof.
  intros N lit supplied. eexists. split; [reflexivity|].
  repeat split. intros g Hg. simpl. rewrite Hg. reflexivity.
Qed.

(** A whole adherence group with the good threshold at 95: that group is
    installed and the other three keep their defaults. *)
Lemma constructor_overrides_by_group_witness :
  exists service,
    AIService_new (Some adherenceGroup95) = Returned service
    /\ adherence (config service) = Adherence.mk 95 75 25 10
    /\ vitals (config service) = vitals DEFAULT_RISK_CONFIG
    /\ exams (config service) = exams DEFAULT_RISK_CONFIG
    /\ riskLevels (config service) = riskLevels DEFAULT_RISK_CONFIG.
Proof.
  destruct (constructor_overrides_by_group Q (fun q => q) adherenceGroup95)
    as [service [Hnew [Ha [Hv [He [Hr Hg]]]]]].
  exists service. split; [exact Hnew|].
  split; [exact (Hg (Adherence.mk 95 75 25 10) eq_refl)|].
  split; [exact Hv|]. split; [exact He | exact Hr].
Defined.

(** C6 fails as stated: built from [{ adherence: { goodThreshold: 95 } }], the
    engine has [adherence.goodThreshold] 95 and no [adherence.badWeight] at
    all, where the default with that one leaf replaced has 25. *)
Lemma single_leaf_override_drops_siblings :
  AIService_new_js (Some onlyGoodThreshold)
  = Returned (mkService
      (mkConfig (Adherence.mk (Some 95) None None None)
                (vitals (default_config_with Some))
                (exams (default_config_with Some))
                (riskLevels (default_config_with Some))))
  /\ overrideAdherenceLeaves (adherence (default_config_with Some))
       (Adherence.mk (Some 95) None None None)
     = Adherence.mk (Some 95) (Some 75) (Some 25) (Some 10)
  /\ ~ (exists service,
          AIService_new_js (Some onlyGoodThreshold) = Returned service
          /\ adherence (config service)
             = overrideAdherenceLeaves (adherence (default_config_with Some))
                 (Adherence.mk (Some 95) None None None)).
Proof.
  split; [reflexivity|]. split; [reflexivity|].
  intros [service [Hs Ha]]. injection Hs as <-. discriminate Ha.
Qed.

(** ** Recommendations *)

Section Recommendations.

Variable a : AdherenceAnalysis.
Variable v : VitalsAnalysis.
Variable e : ExamsAnalysis.
Variable riskScore : RiskScore.

(** No rule pushes the closing default message. *)
Lemma rules_never_stable :
  ~ In recStable (ruleRecommendations a v e riskScore).
Proof.
  unfold ruleRecommendations, pushesIf. rewrite !in_app_iff.
  destruct (adherenceStatus a), (level riskScore);
    destruct (includes PRESSURE_HIGH (flags v)),
             (includes PRESSURE_LOW (flags v)),
             (includes GLUCOSE_HIGH (flags v)),
             (includes GLUCOSE_LOW (flags v)),
             (includes OXYGEN_LOW (flags v)),
             (0 <? overdueExams e)%nat,
             (3 <? pendingExams e)%nat;
    try destruct (foundHigh PRESSURE_HIGH (flagDetails v));
    try destruct (foundHigh GLUCOSE_LOW (flagDetails v));
    simpl; intuition discriminate.
Qed.

(** The rules push nothing exactly when no rule has its condition met. *)
Lemma rules_silent_iff :
  ruleRecommendations a v e riskScore = [] <-> anyRuleFires a v e riskScore = false.
Proof.
  unfold ruleRecommendations, anyRuleFires, pushesIf.
  destruct (adherenceStatus a), (level riskScore);
    destruct (includes PRESSURE_HIGH (flags v)),
             (includes PRESSURE_LOW (flags v)),
             (includes GLUCOSE_HIGH (flags v)),
             (includes GLUCOSE_LOW (flags v)),
             (includes OXYGEN_LOW (flags v)),
             (0 <? overdueExams e)%nat,
             (3 <? pendingExams e)%nat;
    simpl; split; intro H; try reflexivity; discriminate H.
Qed.

End Recommendations.

(** C9.  [generateRecommendations] never returns the empty list.  The default
    message is in the output if and only if the rules pushed nothing, which is
    exactly when no rule had its condition met; the output is then that one
    message, and otherwise it is what the rules pushed. *)
Theorem recommendations_never_empty :
  forall (a : AdherenceAnalysis) (v : VitalsAnalysis) (e : ExamsAnalysis)
         (riskScore : RiskScore),
    generateRecommendations a v e riskScore <> []
    /\ (In recStable (generateRecommendations a v e riskScore)
        <-> ruleRecommendations a v e riskScore = [])
    /\ (ruleRecommendations a v e riskScore = []
        <-> anyRuleFires a v e riskScore = false)
    /\ (ruleRecommendations a v e riskScore = [] ->
        generateRecommendations a v e riskScore = [recStable])
    /\ (ruleRecommendations a v e riskScore <> [] ->
        generateRecommendations a v e riskScore = ruleRecommendations a v e riskScore).
Proof.
  intros a v e riskScore.
  pose proof (rules_never_stable a v e riskScore) as Hnever.
  pose proof (rules_silent_iff a v e riskScore) as Hsilent.
  unfold generateRecommendations. cbv zeta.
  destruct (ruleRecommendations a v e riskScore) as [|r rs] eqn:E; simpl.
  - split; [discriminate|].
    split; [split; [reflexivity | intro; left; reflexivity]|].
    split; [exact Hsilent|].
    split; [reflexivity | intro H; now elim H].
  - split; [discriminate|].
    split; [split; [intro H; elim Hnever; exact H | discriminate]|].
    split; [exact Hsilent|].
    split; [discriminate | reflexivity].
Qed.

(** Good adherence, no flag, no exam and low risk give the default message
    alone; bad adherence gives the two adherence messages and no default. *)
Lemma recommendations_never_empty_witness :
  generateRecommendations goodAdherence noFlags noExams
    (calculateRiskScore DEFAULT_RISK_CONFIG goodAdherence noFlags noExams)
  = [recStable]
  /\ generateRecommendations badAdherence noFlags noExams
       (calculateRiskScore DEFAULT_RISK_CONFIG badAdherence noFlags noExams)
     = ruleRecommendations badAdherence noFlags noExams
         (calculateRiskScore DEFAULT_RISK_CONFIG badAdherence noFlags noExams).
Proof.
  split.
  - apply (proj1 (proj2 (proj2 (proj2
      (recommendations_never_empty goodAdherence noFlags noExams
         (calculateRiskScore DEFAULT_RISK_CONFIG goodAdherence noFlags noExams)))))).
    reflexivity.
  - apply (proj2 (proj2 (proj2 (proj2
      (recommendations_never_empty badAdherence noFlags noExams
         (calculateRiskScore DEFAULT_RISK_CONFIG badAdherence noFlags noExams)))))).
    discriminate.
Defined.

(** * Further properties *)

(** ** Exams *)

Section ExamCounters.

Variable cfg : RiskCalculationConfig number.
Variable now : Date.

(** The counting loop adds to each counter the number of exams of its kind. *)
Lemma countExam_fold (l : list ExamRecord) (c : ExamsAnalysis) :
  fold_left (countExam cfg now) l c
  = mkExams (pendingExams c + countExams (fun x => awaited (Exam.status x)) l)
            (overdueExams c + countExams (overdueExam cfg now) l)
            (completedExams c + countExams (fun x => isCompleted (Exam.status x)) l).
Proof.
  revert c. unfold countExams, overdueExam.
  induction l as [|x l IH]; intro c; simpl.
  - destruct c. simpl. now rewrite !Nat.add_0_r.
  - rewrite IH. unfold countExam.
    destruct (Exam.status x); simpl; try destruct (pastDue cfg now x); simpl;
      f_equal; lia.
Qed.

Lemma filter_length_mono {A : Type} (p q : A -> bool) (l : list A) :
  (forall x, p x = true -> q x = true) ->
  (length (filter p l) <= length (filter q l))%nat.
Proof.
  intro H. induction l as [|x l IH]; simpl; [lia|].
  destruct (p x) eqn:P.
  - rewrite (H x P). simpl. lia.
  - destruct (q x); simpl; lia.
Qed.

Lemma status_partition (l : list ExamRecord) :
  (countExams (fun x => awaited (Exam.status x)) l
   + countExams (fun x => isCompleted (Exam.status x)) l
   + countExams (fun x => isCancelled (Exam.status x)) l
   = length l)%nat.
Proof.
  unfold countExams. induction l as [|x l IH]; simpl; [reflexivity|].
  destruct (Exam.status x); simpl; lia.
Qed.

End ExamCounters.

(** X1.  The counters of [analyzeExams]: pending counts the scheduled and
    pending-results exams, completed the completed ones, overdue those of the
    pending that are past due; cancelled exams enter no counter.  Hence
    overdue never exceeds pending, and pending, completed and cancelled add up
    to the number of exams. *)
Theorem exam_counters :
  forall (cfg : RiskCalculationConfig number) (now : Date)
         (exams : list ExamRecord),
    let c := counters (analyzeExams cfg now exams) in
    pendingExams c = countExams (fun x => awaited (Exam.status x)) exams
    /\ completedExams c = countExams (fun x => isCompleted (Exam.status x)) exams
    /\ overdueExams c = countExams (overdueExam cfg now) exams
    /\ (overdueExams c <= pendingExams c)%nat
    /\ (pendingExams c + completedExams c
        + countExams (fun x => isCancelled (Exam.status x)) exams
        = length exams)%nat.
Proof.
  intros cfg now exams c. subst c. unfold analyzeExams. cbv zeta. simpl counters.
  rewrite countExam_fold. simpl.
  repeat split.
  - apply filter_length_mono. intros x Hx. unfold overdueExam in Hx.
    apply andb_true_iff in Hx. tauto.
  - apply status_partition.
Qed.

Lemma Permutation_filter_length {A : Type} (p : A -> bool) (l l' : list A) :
  Permutation l l' -> length (filter p l) = length (filter p l').
Proof.
  induction 1 as [|x l l' _ IH|x y l|l l' l'' _ IH1 _ IH2]; simpl.
  - reflexivity.
  - destruct (p x); simpl; lia.
  - destruct (p x), (p y); reflexivity.
  - lia.
Qed.

(** X2.  The counters do not depend on the order of the exams. *)
Theorem exam_counters_order_independent :
  forall (cfg : RiskCalculationConfig number) (now : Date)
         (exams exams' : list ExamRecord),
    Permutation exams exams' ->
    counters (analyzeExams cfg now exams) = counters (analyzeExams cfg now exams').
Proof.
  intros cfg now exams exams' H. unfold analyzeExams. cbv zeta. simpl counters.
  rewrite !countExam_fold. unfold countExams.
  rewrite !(Permutation_filter_length _ _ _ H). reflexivity.
Qed.

(** An awaited exam forty days late and a completed one, in either order. *)
Lemma exam_counters_order_independent_witness :
  counters (analyzeExams DEFAULT_RISK_CONFIG sampleNow
              [examFortyDaysLate; Exam.mk "ECG" Exam.completed None None None None 0%Z])
  = counters (analyzeExams DEFAULT_RISK_CONFIG sampleNow
                [Exam.mk "ECG" Exam.completed None None None None 0%Z; examFortyDaysLate]).
Proof.
  apply exam_counters_order_independent. apply perm_swap.
Defined.

Section ExamSort.

Lemma In_insertByDate (z x : ExamRecord) (l : list ExamRecord) :
  In z (insertByDate x l) <-> z = x \/ In z l.
Proof.
  induction l as [|y l IH]; simpl.
  - intuition congruence.
  - destruct (examDate x <? examDate y)%Z; simpl; intuition congruence.
Qed.

Lemma insertByDate_perm (x : ExamRecord) (l : list ExamRecord) :
  Permutation (insertByDate x l) (x :: l).
Proof.
  induction l as [|y l IH]; simpl.
  - apply Permutation_refl.
  - destruct (examDate x <? examDate y)%Z.
    + apply perm_trans with (y :: x :: l).
      * apply perm_skip. exact IH.
      * apply perm_swap.
    + apply Permutation_refl.
Qed.

Lemma sortByDate_perm (l : list ExamRecord) : Permutation (sortByDate l) l.
Proof.
  induction l as [|x l IH]; simpl.
  - apply perm_nil.
  - apply perm_trans with (x :: sortByDate l).
    + apply insertByDate_perm.
    + apply perm_skip. exact IH.
Qed.

Lemma insertByDate_sorted (x : ExamRecord) (l : list ExamRecord) :
  StronglySorted newerOrSame l -> StronglySorted newerOrSame (insertByDate x l).
Proof.
  induction l as [|y l IH]; intro H; simpl.
  - constructor; constructor.
  - apply StronglySorted_inv in H. destruct H as [Hl Hy].
    destruct (Z.ltb_spec (examDate x) (examDate y)) as [Hlt | Hge].
    + constructor; [apply IH; exact Hl|].
      apply Forall_forall. intros z Hz. apply In_insertByDate in Hz.
      destruct Hz as [-> | Hz].
      * unfold newerOrSame. lia.
      * rewrite Forall_forall in Hy. apply Hy. exact Hz.
    + constructor; [constructor; assumption|].
      constructor; [unfold newerOrSame; lia|].
      rewrite Forall_forall in *. intros z Hz. specialize (Hy z Hz).
      unfold newerOrSame in *. lia.
Qed.

Lemma sortByDate_sorted (l : list ExamRecord) :
  StronglySorted newerOrSame (sortByDate l).
Proof.
  induction l as [|x l IH]; simpl.
  - constructor.
  - apply insertByDate_sorted. exact IH.
Qed.

Lemma StronglySorted_split {A : Type} (R : A -> A -> Prop) (l1 l2 : list A) :
  StronglySorted R (l1 ++ l2) ->
  StronglySorted R l1 /\ forall a b, In a l1 -> In b l2 -> R a b.
Proof.
  induction l1 as [|x l1 IH]; simpl; intro H.
  - split; [constructor | intros a b []].
  - apply StronglySorted_inv in H. destruct H as [Hs Hx].
    destruct (IH Hs) as [H1 H2]. rewrite Forall_forall in Hx. split.
    + constructor; [exact H1|]. apply Forall_forall.
      intros z Hz. apply Hx. apply in_or_app. left. exact Hz.
    + intros a b [<- | Ha] Hb.
      * apply Hx. apply in_or_app. right. exact Hb.
      * apply H2; assumption.
Qed.

End ExamSort.

(** X3.  [recentExams] summarises the five most recent exams (all of them
    when there are fewer), most recent first by
    [completedAt || scheduledAt || createdAt]: no exam left out is more recent
    than one that is kept. *)
Theorem recent_exams_digest :
  forall (cfg : RiskCalculationConfig number) (now : Date)
         (exams : list ExamRecord),
    exists kept rest,
      recentExams (analyzeExams cfg now exams) = map (summarizeExam now) kept
      /\ Permutation (kept ++ rest) exams
      /\ length kept = Nat.min 5 (length exams)
      /\ StronglySorted newerOrSame kept
      /\ (forall a b, In a kept -> In b rest -> newerOrSame a b).
Proof.
  intros cfg now exams.
  set (k := Nat.min 5 (length (sortByDate exams))).
  exists (firstn k (sortByDate exams)), (skipn k (sortByDate exams)).
  assert (Hlen : length (sortByDate exams) = length exams)
    by (apply Permutation_length, sortByDate_perm).
  split; [reflexivity|]. split; [|split].
  - rewrite firstn_skipn. apply sortByDate_perm.
  - rewrite length_firstn. subst k. rewrite Hlen. lia.
  - apply StronglySorted_split. rewrite firstn_skipn. apply sortByDate_sorted.
Qed.

Lemma gt_true (a b : number) : gt a b = true <-> b < a.
Proof.
  unfold gt. rewrite negb_true_iff. apply (leq_false a b).
Qed.

Lemma daysSince_above (now s k : Z) :
  (k < daysSince now s)%Z <-> ((k + 1) * msPerDay <= now - s)%Z.
Proof.
  unfold daysSince, msPerDay. split; intro H.
  - pose proof (Z.mul_div_le (now - s) 86400000 eq_refl). nia.
  - assert (Hle : (k + 1 <= (now - s) / 86400000)%Z)
      by (apply Z.div_le_lower_bound; [reflexivity | lia]).
    lia.
Qed.

(** X4.  With an overdue window of [k] whole days, an exam is past due exactly
    when it has a scheduled date at least [k + 1] full days before now: the
    comparison is strict on whole days, so thirty days and twenty-three hours
    of delay are not overdue under the default window of thirty days. *)
Theorem past_due_boundary :
  forall (cfg : RiskCalculationConfig number) (now : Date) (exam : ExamRecord)
         (k : Z),
    Exams.overdueDays (exams cfg) == inject_Z k ->
    (pastDue cfg now exam = true
     <-> exists s, Exam.scheduledAt exam = Some s
                   /\ ((k + 1) * msPerDay <= now - s)%Z).
Proof.
  intros cfg now exam k Hk. unfold pastDue.
  destruct (Exam.scheduledAt exam) as [s|].
  - rewrite gt_true, Hk, <- Zlt_Qlt, daysSince_above. split.
    + intro H. exists s. auto.
    + intros [s' [E H]]. injection E as <-. exact H.
  - split; [discriminate | intros [s [E _]]; discriminate].
Qed.

(** Default window: an exam scheduled forty days ago is past due; one
    scheduled thirty days and twenty-three hours ago is not. *)
Lemma past_due_boundary_witness :
  pastDue DEFAULT_RISK_CONFIG sampleNow examFortyDaysLate = true
  /\ pastDue DEFAULT_RISK_CONFIG sampleNow
       (Exam.mk "ECG" Exam.scheduled
          (Some (sampleNow - 30 * msPerDay - 23 * 3600000)%Z) None None None 0%Z)
     = false.
Proof.
  assert (Hk : Exams.overdueDays (exams DEFAULT_RISK_CONFIG) == inject_Z 30)
    by reflexivity.
  split.
  - apply (proj2 (past_due_boundary DEFAULT_RISK_CONFIG sampleNow
                    examFortyDaysLate 30 Hk)).
    exists (daysAgo sampleNow 40). split; [reflexivity|]. vm_compute. discriminate.
  - destruct (pastDue DEFAULT_RISK_CONFIG sampleNow
                (Exam.mk "ECG" Exam.scheduled
                   (Some (sampleNow - 30 * msPerDay - 23 * 3600000)%Z)
                   None None None 0%Z)) eqn:E; [|reflexivity].
    apply (proj1 (past_due_boundary DEFAULT_RISK_CONFIG sampleNow _ 30 Hk)) in E.
    destruct E as [s [Hs Hle]]. injection Hs as <-.
    exfalso. revert Hle. vm_compute. intro H. apply H. reflexivity.
Defined.



Lemma substring_length (n : nat) (s : string) :
  String.length (substring 0 n s) = Nat.min n (String.length s).
Proof.
  revert s. induction n as [|n IH]; intro s.
  - destruct s; reflexivity.
  - destruct s as [|c s]; simpl; [reflexivity|]. now rewrite IH.
Qed.

Lemma substring_prefix (n : nat) (s : string) :
  prefix (substring 0 n s) s = true.
Proof.
  revert s. induction n as [|n IH]; intro s.
  - destruct s; reflexivity.
  - destruct s as [|c s]; simpl; [reflexivity|].
    destruct (Ascii.ascii_dec c c) as [_ | N]; [apply IH | now elim N].
Qed.

Lemma substring_short (n : nat) (s : string) :
  (String.length s <= n)%nat -> substring 0 n s = s.
Proof.
  revert s. induction n as [|n IH]; intros s H.
  - destruct s; [reflexivity | simpl in H; lia].
  - destruct s as [|c s]; simpl; [reflexivity|].
    f_equal. apply IH. simpl in H. lia.
Qed.

(** X6.  The [summary] of a digest entry is present exactly when the exam has
    a non-empty result; it is then a prefix of the result of at most a hundred
    units, the whole result when that is not longer. *)
Theorem exam_summary_truncated :
  forall (now : Date) (exam : ExamRecord),
    match ExamSummary.summary (summarizeExam now exam) with
    | Some t =>
        exists r, Exam.result exam = Some r
                  /\ r <> EmptyString
                  /\ prefix t r = true
                  /\ String.length t = Nat.min 100 (String.length r)
                  /\ ((String.length r <= 100)%nat -> t = r)
    | None => Exam.result exam = None \/ Exam.result exam = Some EmptyString
    end.
Proof.
  intros now exam. unfold summarizeExam. simpl.
  destruct (Exam.result exam) as [r|]; [|left; reflexivity].
  destruct r as [|c r]; simpl nonEmpty; cbv iota; [right; reflexivity|].
  exists (String c r). split; [reflexivity|]. split; [discriminate|].
  split; [apply substring_prefix|]. split; [apply substring_length|].
  apply substring_short.
Qed.

(** ** Adherence, further *)

Section AdherenceCounts.

Lemma statuses_disjoint (l : list ReminderRecord) :
  (countStatus rs_taken l + countStatus rs_late l + countStatus rs_missed l
   <= length l)%nat.
Proof.
  unfold countStatus. induction l as [|r l IH]; simpl; [lia|].
  destruct (status r); simpl; lia.
Qed.

Lemma ratePercent_range (n d : nat) :
  (0 < d)%nat -> (n <= d)%nat -> 0 <= ratePercent n d /\ ratePercent n d <= 100.
Proof.
  intros Hd Hn. unfold ratePercent.
  set (x := inject_Z (Z.of_nat n) / inject_Z (Z.of_nat d) * 10000).
  assert (Hd' : 0 < inject_Z (Z.of_nat d)).
  { change 0 with (inject_Z 0). rewrite <- Zlt_Qlt. lia. }
  assert (Hn0 : 0 <= inject_Z (Z.of_nat n)).
  { change 0 with (inject_Z 0). rewrite <- Zle_Qle. lia. }
  assert (Hnd : inject_Z (Z.of_nat n) <= inject_Z (Z.of_nat d)).
  { rewrite <- Zle_Qle. lia. }
  assert (Hq0 : 0 <= inject_Z (Z.of_nat n) / inject_Z (Z.of_nat d)).
  { apply Qle_shift_div_l; [exact Hd'|]. lra. }
  assert (Hq1 : inject_Z (Z.of_nat n) / inject_Z (Z.of_nat d) <= 1).
  { apply Qle_shift_div_r; [exact Hd'|]. lra. }
  assert (L : (0 <= Math_round x)%Z).
  { rewrite <- (Math_round_inject 0). apply Math_round_mono.
    change (inject_Z 0) with 0. subst x. lra. }
  assert (U : (Math_round x <= 10000)%Z).
  { rewrite <- (Math_round_inject 10000). apply Math_round_mono.
    change (inject_Z 10000) with 10000. subst x. lra. }
  assert (L' : inject_Z 0 <= inject_Z (Math_round x)) by (rewrite <- Zle_Qle; exact L).
  assert (U' : inject_Z (Math_round x) <= inject_Z 10000)
    by (rewrite <- Zle_Qle; exact U).
  change (inject_Z 0) with 0 in L'. change (inject_Z 10000) with 10000 in U'.
  split.
  - apply Qle_shift_div_l; lra.
  - apply Qle_shift_div_r; lra.
Qed.

Lemma ratePercent_all (n : nat) : (0 < n)%nat -> ratePercent n n == 100.
Proof.
  intro Hn. unfold ratePercent.
  assert (Hn' : ~ inject_Z (Z.of_nat n) == 0).
  { intro E. unfold Qeq in E. simpl in E. lia. }
  assert (E : inject_Z (Z.of_nat n) / inject_Z (Z.of_nat n) * 10000
              == inject_Z 10000).
  { change (inject_Z 10000) with 10000. field. exact Hn'. }
  rewrite (Math_round_Qeq _ _ E), Math_round_inject. reflexivity.
Qed.

Lemma ratePercent_none (d : nat) : ratePercent 0 d == 0.
Proof.
  unfold ratePercent.
  assert (E : inject_Z (Z.of_nat 0) / inject_Z (Z.of_nat d) * 10000 == inject_Z 0).
  { simpl. unfold Qdiv. rewrite Qmult_0_l. reflexivity. }
  rewrite (Math_round_Qeq _ _ E), Math_round_inject. reflexivity.
Qed.

Lemma countStatus_all (s1 s2 : ReminderStatus) (l : list ReminderRecord) :
  s1 <> s2 ->
  (forall r, In r l -> status r = s1 \/ status r = s2) ->
  (countStatus s1 l + countStatus s2 l = length l)%nat.
Proof.
  intros Hne H. unfold countStatus. induction l as [|r l IH]; simpl; [reflexivity|].
  assert (IH' := IH (fun x Hx => H x (or_intror Hx))).
  destruct (H r (or_introl eq_refl)) as [E | E]; rewrite E;
    destruct s1, s2; simpl; try lia; now elim Hne.
Qed.

Lemma countStatus_none (s : ReminderStatus) (l : list ReminderRecord) :
  (forall r, In r l -> status r <> s) -> countStatus s l = 0%nat.
Proof.
  intro H. unfold countStatus. rewrite filter_drop; [reflexivity|].
  intros r Hr. specialize (H r Hr).
  destruct (status r), s; try reflexivity; now elim H.
Qed.

End AdherenceCounts.

(** X7.  For every reminder list the counts satisfy
    [taken + late + missed <= totalReminders <= reminders.length], the rate
    lies between 0 and 100, and the window reported is 30 days. *)
Theorem adherence_counts_and_rate :
  forall (cfg : RiskCalculationConfig number) (now : Date)
         (reminders : list ReminderRecord),
    let r := analyzeAdherence cfg now reminders in
    (taken r + late r + missed r <= totalReminders r)%nat
    /\ (totalReminders r <= length reminders)%nat
    /\ 0 <= adherenceRate r /\ adherenceRate r <= 100
    /\ days r = 30%nat.
Proof.
  intros cfg now reminders r. subst r. unfold analyzeAdherence. cbv zeta. simpl.
  set (recent := filter _ reminders).
  split; [apply statuses_disjoint|].
  split; [subst recent; apply List.filter_length_le|].
  assert (H : 0 <= (if (0 <? length recent)%nat
                    then ratePercent (countStatus rs_taken recent
                                      + countStatus rs_late recent) (length recent)
                    else 100)
              /\ (if (0 <? length recent)%nat
                  then ratePercent (countStatus rs_taken recent
                                    + countStatus rs_late recent) (length recent)
                  else 100) <= 100).
  { destruct (Nat.ltb_spec 0 (length recent)) as [Hpos | _].
    - apply ratePercent_range; [exact Hpos|].
      pose proof (statuses_disjoint recent). lia.
    - split; lra. }
  tauto.
Qed.

(** X8.  Late doses count as taken.  When some reminder lies in the window
    and every in-window reminder is taken or late, the rate is 100; when none
    of them is taken or late, the rate is 0. *)
Theorem adherence_extremes :
  forall (cfg : RiskCalculationConfig number) (now : Date)
         (reminders : list ReminderRecord),
    (0 < totalReminders (analyzeAdherence cfg now reminders))%nat ->
    ((forall x, In x reminders -> notBefore (scheduledAt x) (daysAgo now 30) = true ->
                status x = rs_taken \/ status x = rs_late) ->
     adherenceRate (analyzeAdherence cfg now reminders) == 100)
    /\ ((forall x, In x reminders -> notBefore (scheduledAt x) (daysAgo now 30) = true ->
                   status x <> rs_taken /\ status x <> rs_late) ->
        adherenceRate (analyzeAdherence cfg now reminders) == 0).
Proof.
  intros cfg now reminders Hpos. unfold analyzeAdherence in *. cbv zeta in *.
  simpl in *. set (recent := filter _ reminders) in *.
  apply Nat.ltb_lt in Hpos. rewrite Hpos. split; intro H.
  - rewrite (countStatus_all rs_taken rs_late recent).
    + apply ratePercent_all. apply Nat.ltb_lt. exact Hpos.
    + discriminate.
    + intros x Hx. apply filter_In in Hx. destruct Hx. auto.
  - rewrite (countStatus_none rs_taken recent), (countStatus_none rs_late recent).
    + apply ratePercent_none.
    + intros x Hx. apply filter_In in Hx. destruct Hx as [Hx Hw].
      apply (H x Hx Hw).
    + intros x Hx. apply filter_In in Hx. destruct Hx as [Hx Hw].
      apply (H x Hx Hw).
Qed.

(** Two doses taken and one late give 100; two doses missed give 0. *)
Lemma adherence_extremes_witness :
  adherenceRate
    (analyzeAdherence DEFAULT_RISK_CONFIG sampleNow
       [mkReminder (daysAgo sampleNow 1) rs_taken;
        mkReminder (daysAgo sampleNow 2) rs_late;
        mkReminder (daysAgo sampleNow 3) rs_taken]) == 100
  /\ adherenceRate
       (analyzeAdherence DEFAULT_RISK_CONFIG sampleNow (remindersWith 0 2)) == 0.
Proof.
  split.
  - assert (Hpos : (0 < totalReminders
                         (analyzeAdherence DEFAULT_RISK_CONFIG sampleNow
                            [mkReminder (daysAgo sampleNow 1) rs_taken;
                             mkReminder (daysAgo sampleNow 2) rs_late;
                             mkReminder (daysAgo sampleNow 3) rs_taken]))%nat)
      by (simpl; lia).
    apply (proj1 (adherence_extremes DEFAULT_RISK_CONFIG sampleNow _ Hpos)).
    intros x [<- | [<- | [<- | []]]] _; auto.
  - assert (Hpos : (0 < totalReminders
                         (analyzeAdherence DEFAULT_RISK_CONFIG sampleNow
                            (remindersWith 0 2)))%nat)
      by (simpl; lia).
    apply (proj2 (adherence_extremes DEFAULT_RISK_CONFIG sampleNow _ Hpos)).
    intros x [<- | [<- | []]] _; split; discriminate.
Defined.

(** ** Vitals, further *)

Section VitalSort.

Lemma insertByRecency_perm (v : VitalRecord) (l : list VitalRecord) :
  Permutation (insertByRecency v l) (v :: l).
Proof.
  induction l as [|w l IH]; simpl.
  - apply Permutation_refl.
  - destruct (recordedAt v <? recordedAt w)%Z.
    + apply perm_trans with (w :: v :: l).
      * apply perm_skip. exact IH.
      * apply perm_swap.
    + apply Permutation_refl.
Qed.

Lemma sortByRecency_perm (l : list VitalRecord) : Permutation (sortByRecency l) l.
Proof.
  induction l as [|v l IH]; simpl.
  - apply perm_nil.
  - apply perm_trans with (v :: sortByRecency l).
    + apply insertByRecency_perm.
    + apply perm_skip. exact IH.
Qed.

Lemma insertByRecency_sorted (v : VitalRecord) (l : list VitalRecord) :
  StronglySorted recentFirst l -> StronglySorted recentFirst (insertByRecency v l).
Proof.
  induction l as [|w l IH]; intro H; simpl.
  - constructor; constructor.
  - apply StronglySorted_inv in H. destruct H as [Hl Hw].
    destruct (Z.ltb_spec (recordedAt v) (recordedAt w)) as [Hlt | Hge].
    + constructor; [apply IH; exact Hl|].
      apply Forall_forall. intros z Hz. apply In_insertByRecency in Hz.
      destruct Hz as [-> | Hz].
      * unfold recentFirst. lia.
      * rewrite Forall_forall in Hw. apply Hw. exact Hz.
    + constructor; [constructor; assumption|].
      constructor; [unfold recentFirst; lia|].
      rewrite Forall_forall in *. intros z Hz. specialize (Hw z Hz).
      unfold recentFirst in *. lia.
Qed.

Lemma sortByRecency_sorted (l : list VitalRecord) :
  StronglySorted recentFirst (sortByRecency l).
Proof.
  induction l as [|v l IH]; simpl.
  - constructor.
  - apply insertByRecency_sorted. exact IH.
Qed.

End VitalSort.

(** X9.  [groupVitalsByType] has a key exactly for the types that occur; the
    group of a type holds the records of that type, each once, most recent
    first. *)
Theorem groups_sorted_by_recency :
  forall (vs : list VitalRecord) (ty : VitalType),
    match groupVitalsByType vs ty with
    | Some g =>
        g <> []
        /\ Permutation g (ofType ty vs)
        /\ StronglySorted recentFirst g
        /\ (forall v, In v g <-> In v vs /\ type v = ty)
    | None => forall v, In v vs -> type v <> ty
    end.
Proof.
  intros vs ty. rewrite groupVitalsByType_spec.
  pose proof (sortByRecency_perm (ofType ty vs)) as Hperm.
  pose proof (sortByRecency_sorted (ofType ty vs)) as Hsorted.
  assert (Hin : forall v, In v (ofType ty vs) <-> In v vs /\ type v = ty).
  { intro v. unfold ofType. rewrite filter_In. split; intros [H1 H2]; split; auto.
    - destruct (type v), ty; try discriminate H2; reflexivity.
    - rewrite H2. destruct ty; reflexivity. }
  destruct (sortByRecency (ofType ty vs)) as [|x g] eqn:E.
  - apply sortByRecency_nil in E. intros v Hv Hty.
    assert (H : In v (ofType ty vs)) by (apply Hin; auto).
    rewrite E in H. destruct H.
  - split; [discriminate|]. split; [exact Hperm|]. split; [exact Hsorted|].
    intro v. rewrite <- Hin. split; intro H.
    + apply (Permutation_in _ Hperm H).
    + apply (Permutation_in _ (Permutation_sym Hperm) H).
Qed.

Lemma StronglySorted_app {A : Type} (R : A -> A -> Prop) (l1 l2 : list A) :
  StronglySorted R l1 -> StronglySorted R l2 ->
  (forall a b, In a l1 -> In b l2 -> R a b) ->
  StronglySorted R (l1 ++ l2).
Proof.
  intros H1 H2 H. induction l1 as [|x l1 IH]; simpl; [exact H2|].
  apply StronglySorted_inv in H1. destruct H1 as [Hs Hx].
  constructor.
  - apply IH; [exact Hs|]. intros a b Ha Hb. apply H; [right|]; assumption.
  - apply Forall_forall. intros z Hz. apply in_app_or in Hz.
    destruct Hz as [Hz | Hz].
    + rewrite Forall_forall in Hx. apply Hx. exact Hz.
    + apply H; [left; reflexivity | exact Hz].
Qed.

Lemma StronglySorted_NoDup {A : Type} (R : A -> A -> Prop) (l : list A) :
  (forall a, ~ R a a) -> StronglySorted R l -> NoDup l.
Proof.
  intros Hirr H. induction H as [|x l Hs IH Hx]; constructor; [|exact IH].
  intro Hin. rewrite Forall_forall in Hx. apply (Hirr x). apply Hx. exact Hin.
Qed.

Section FlagOrder.

Variable cfg : RiskCalculationConfig number.

Ltac block_sorted l :=
  destruct l as [|latest rest]; [constructor|];
  repeat match goal with
         | |- context [match ?o with Some _ => _ | None => _ end] =>
             destruct o; try constructor
         end;
  repeat match goal with
         | |- context [if ?c then _ else _] => destruct c
         end;
  simpl; repeat constructor; unfold flagBefore; simpl; lia.

Lemma pressure_block_sorted (l : list VitalRecord) :
  StronglySorted flagBefore
    (map flag (pushedBy (analyzePressure cfg (groupOf l)))).
Proof. rewrite pressure_pushed. block_sorted l. Qed.

Lemma glucose_block_sorted (l : list VitalRecord) :
  StronglySorted flagBefore
    (map flag (pushedBy (analyzeGlucose cfg (groupOf l)))).
Proof. rewrite glucose_pushed. block_sorted l. Qed.

Lemma heartRate_block_sorted (l : list VitalRecord) :
  StronglySorted flagBefore
    (map flag (pushedBy (analyzeHeartRate cfg (groupOf l)))).
Proof. rewrite heartRate_pushed. block_sorted l. Qed.

Lemma temperature_block_sorted (l : list VitalRecord) :
  StronglySorted flagBefore
    (map flag (pushedBy (analyzeTemperature cfg (groupOf l)))).
Proof. rewrite temperature_pushed. block_sorted l. Qed.

Lemma oxygen_block_sorted (l : list VitalRecord) :
  StronglySorted flagBefore
    (map flag (pushedBy (analyzeOxygen cfg (groupOf l)))).
Proof. rewrite oxygen_pushed. block_sorted l. Qed.

End FlagOrder.

(** X10.  The flags of an analysis form an ordered set: they come in the
    order PRESSURE_HIGH, PRESSURE_LOW, GLUCOSE_HIGH, GLUCOSE_LOW,
    HEART_RATE_HIGH, HEART_RATE_LOW, TEMPERATURE_HIGH, TEMPERATURE_LOW,
    OXYGEN_LOW, each at most once, and [flagDetails] holds one detail per
    flag, in the same order. *)
Theorem flags_ordered_set :
  forall (cfg : RiskCalculationConfig number) (now : Date)
         (vs : list VitalRecord),
    StronglySorted flagBefore (flags (analyzeVitals cfg now vs))
    /\ NoDup (flags (analyzeVitals cfg now vs))
    /\ flags (analyzeVitals cfg now vs)
       = map flag (flagDetails (analyzeVitals cfg now vs)).
Proof.
  intros cfg now vs.
  assert (Hs : StronglySorted flagBefore (flags (analyzeVitals cfg now vs))).
  { rewrite analyzeVitals_flags, analyzeVitals_details, !map_app.
    repeat apply StronglySorted_app;
      try apply pressure_block_sorted; try apply glucose_block_sorted;
      try apply heartRate_block_sorted; try apply temperature_block_sorted;
      try apply oxygen_block_sorted;
      intros a b Ha Hb; rewrite ?in_app_iff in Hb;
      rewrite ?pressure_flag_in, ?glucose_flag_in, ?heartRate_flag_in,
        ?temperature_flag_in, ?oxygen_flag_in in *;
      destruct Ha as [Ca _];
      repeat match type of Hb with
             | _ \/ _ => destruct Hb as [Hb | Hb]
             end;
      destruct Hb as [Cb _];
      destruct a; try discriminate Ca; destruct b; try discriminate Cb;
      unfold flagBefore; simpl; lia. }
  split; [exact Hs|]. split; [|apply analyzeVitals_flags].
  apply (StronglySorted_NoDup flagBefore); [|exact Hs].
  intros a. unfold flagBefore. lia.
Qed.

Lemma pushFlagIf_last (c : bool) (d : FlagDetail) (a : VitalsAnalysis) :
  lastMeasurements (pushFlagIf c d a) = lastMeasurements a.
Proof. destruct c; reflexivity. Qed.

Section LastBlocks.

Variable cfg : RiskCalculationConfig number.
Variable a : VitalsAnalysis.

Ltac last_by_cases l :=
  destruct l as [|latest rest]; simpl; [reflexivity|];
  repeat match goal with
         | |- context [match ?o with Some _ => _ | None => _ end] =>
             destruct o; simpl; try reflexivity
         end;
  rewrite ?pushFlagIf_last; reflexivity.

Lemma analyzePressure_last (l : list VitalRecord) :
  lastMeasurements (analyzePressure cfg (groupOf l) a)
  = let m := lastMeasurements a in
    match l with
    | latest :: _ =>
        match systolic latest, diastolic latest with
        | Some s, Some d =>
            mkLast (Some s) (Some d) (last_heartRate m) (last_bloodGlucose m)
                   (last_temperature m) (last_oxygenSaturation m)
        | _, _ => m
        end
    | [] => m
    end.
Proof. unfold analyzePressure. last_by_cases l. Qed.

Lemma analyzeGlucose_last (l : list VitalRecord) :
  lastMeasurements (analyzeGlucose cfg (groupOf l) a)
  = let m := lastMeasurements a in
    match l with
    | latest :: _ =>
        match numericValue latest with
        | Some x =>
            mkLast (last_systolic m) (last_diastolic m) (last_heartRate m)
                   (Some x) (last_temperature m) (last_oxygenSaturation m)
        | None => m
        end
    | [] => m
    end.
Proof. unfold analyzeGlucose. last_by_cases l. Qed.

Lemma analyzeHeartRate_last (l : list VitalRecord) :
  lastMeasurements (analyzeHeartRate cfg (groupOf l) a)
  = let m := lastMeasurements a in
    match l with
    | latest :: _ =>
        match numericValue latest with
        | Some x =>
            mkLast (last_systolic m) (last_diastolic m) (Some x)
                   (last_bloodGlucose m) (last_temperature m)
                   (last_oxygenSaturation m)
        | None => m
        end
    | [] => m
    end.
Proof. unfold analyzeHeartRate. last_by_cases l. Qed.

Lemma analyzeTemperature_last (l : list VitalRecord) :
  lastMeasurements (analyzeTemperature cfg (groupOf l) a)
  = let m := lastMeasurements a in
    match l with
    | latest :: _ =>
        match numericValue latest with
        | Some x =>
            mkLast (last_systolic m) (last_diastolic m) (last_heartRate m)
                   (last_bloodGlucose m) (Some x) (last_oxygenSaturation m)
        | None => m
        end
    | [] => m
    end.
Proof. unfold analyzeTemperature. last_by_cases l. Qed.

Lemma analyzeOxygen_last (l : list VitalRecord) :
  lastMeasurements (analyzeOxygen cfg (groupOf l) a)
  = let m := lastMeasurements a in
    match l with
    | latest :: _ =>
        match numericValue latest with
        | Some x =>
            mkLast (last_systolic m) (last_diastolic m) (last_heartRate m)
                   (last_bloodGlucose m) (last_temperature m) (Some x)
        | None => m
        end
    | [] => m
    end.
Proof. unfold analyzeOxygen. last_by_cases l. Qed.

End LastBlocks.

(** X11.  [lastMeasurements] reports, for glucose, heart rate, temperature
    and oxygen, the value of the most recent in-window reading of the channel
    (nothing when that reading has no value, even if an earlier one has); for
    blood pressure it reports systolic and diastolic of the most recent
    reading when that reading has both, and neither of them otherwise. *)
Theorem last_measurements_from_latest :
  forall (cfg : RiskCalculationConfig number) (now : Date)
         (vs : list VitalRecord),
    let m := lastMeasurements (analyzeVitals cfg now vs) in
    last_bloodGlucose m = latestValue now glucose vs
    /\ last_heartRate m = latestValue now heart_rate vs
    /\ last_temperature m = latestValue now temperature vs
    /\ last_oxygenSaturation m = latestValue now oxygen_saturation vs
    /\ (last_systolic m, last_diastolic m)
       = match latestReading now blood_pressure vs with
         | Some latest =>
             if wellFormedPressure latest
             then (systolic latest, diastolic latest)
             else (None, None)
         | None => (None, None)
         end.
Proof.
  intros cfg now vs m. subst m. unfold latestValue, wellFormedPressure.
  rewrite !latestReading_head. unfold analyzeVitals. cbv zeta.
  rewrite !groupVitalsByType_groupOf.
  rewrite analyzeOxygen_last, analyzeTemperature_last, analyzeHeartRate_last,
    analyzeGlucose_last, analyzePressure_last.
  cbv zeta.
  destruct (sortedGroup now blood_pressure vs) as [|bp1 bps];
    destruct (sortedGroup now glucose vs) as [|gl1 gls];
    destruct (sortedGroup now heart_rate vs) as [|hr1 hrs];
    destruct (sortedGroup now temperature vs) as [|tp1 tps];
    destruct (sortedGroup now oxygen_saturation vs) as [|ox1 oxs];
    cbn [hd_error];
    try destruct (systolic bp1); try destruct (diastolic bp1);
    try destruct (numericValue gl1); try destruct (numericValue hr1);
    try destruct (numericValue tp1); try destruct (numericValue ox1);
    simpl; repeat split; reflexivity.
Qed.

Lemma inWindow_recent (now : Date) (ty : VitalType) (vs : list VitalRecord)
    (v : VitalRecord) :
  In v (inWindow now ty vs) -> notBefore (recordedAt v) (daysAgo now 7) = true.
Proof.
  unfold inWindow, ofType, recentVitals. rewrite !filter_In. tauto.
Qed.

Lemma sortedGroup_analysed (now : Date) (ty : VitalType) (vs : list VitalRecord) :
  ty <> weight ->
  sortedGroup now ty (filter (analysed now) vs) = sortedGroup now ty vs.
Proof.
  intro Hty. unfold sortedGroup. rewrite inWindow_filter.
  rewrite filter_keep; [reflexivity|].
  intros v Hv. unfold analysed.
  rewrite (inWindow_recent _ _ _ _ Hv), (inWindow_type _ _ _ _ Hv).
  destruct ty; try reflexivity. now elim Hty.
Qed.

(** X12.  The analysis looks only at the records of the last seven days of
    the five analysed channels: weight records and older records, wherever
    they stand in the input, change nothing in the result. *)
Theorem analysis_ignores_weight_and_old_records :
  forall (cfg : RiskCalculationConfig number) (now : Date)
         (vs : list VitalRecord),
    analyzeVitals cfg now (filter (analysed now) vs) = analyzeVitals cfg now vs.
Proof.
  intros cfg now vs. unfold analyzeVitals. cbv zeta.
  rewrite !groupVitalsByType_groupOf.
  rewrite !sortedGroup_analysed by discriminate. reflexivity.
Qed.

(** X13.  When the low threshold of a channel lies below its high threshold,
    the heart-rate flags exclude each other, and so do the temperature flags:
    an analysis that raises the high flag does not raise the low one. *)
Theorem single_reading_flags_exclusive :
  forall (cfg : RiskCalculationConfig number) (now : Date)
         (vs : list VitalRecord),
    HeartRate.low (Vitals.heartRate (vitals cfg))
      < HeartRate.high (Vitals.heartRate (vitals cfg)) ->
    Temperature.low (Vitals.temperature (vitals cfg))
      < Temperature.high (Vitals.temperature (vitals cfg)) ->
    (In HEART_RATE_HIGH (flags (analyzeVitals cfg now vs)) ->
     ~ In HEART_RATE_LOW (flags (analyzeVitals cfg now vs)))
    /\ (In TEMPERATURE_HIGH (flags (analyzeVitals cfg now vs)) ->
        ~ In TEMPERATURE_LOW (flags (analyzeVitals cfg now vs))).
Proof.
  intros cfg now vs Hhr Htp. split; intros Hhigh Hlow;
    rewrite flag_emitted_iff in Hhigh, Hlow;
    rewrite triggered_by_latest in Hhigh, Hlow by reflexivity;
    destruct Hhigh as [x [Hx Hxm]]; destruct Hlow as [y [Hy Hym]];
    simpl channelOf in *; rewrite Hx in Hy; injection Hy as <-;
    simpl in Hxm, Hym; destruct (numericValue x) as [q|]; try discriminate;
    simpl in Hxm, Hym; apply geq_true in Hxm; apply leq_true in Hym; lra.
Qed.

(** A heart rate of 110 on the default engine: high, and not low. *)
Lemma single_reading_flags_exclusive_witness :
  ~ In HEART_RATE_LOW
      (flags (analyzeVitals DEFAULT_RISK_CONFIG sampleNow [reading heart_rate 110 1])).
Proof.
  apply (proj1 (single_reading_flags_exclusive DEFAULT_RISK_CONFIG sampleNow
                  [reading heart_rate 110 1]
                  ltac:(unfold Qlt; simpl; lia) ltac:(unfold Qlt; simpl; lia))).
  left. reflexivity.
Defined.

(** X14.  Every flag detail carries the configured threshold of its flag.
    For the heart-rate, temperature and oxygen flags the reported value lies
    on the abnormal side of that threshold. *)
Theorem flag_detail_threshold :
  forall (cfg : RiskCalculationConfig number) (now : Date)
         (vs : list VitalRecord) (d : FlagDetail),
    In d (flagDetails (analyzeVitals cfg now vs)) ->
    threshold d = thresholdOf cfg (flag d)
    /\ (singleReadingFlag (flag d) = true ->
        if isHighFlag (flag d) then threshold d <= value d
        else value d <= threshold d).
Proof.
  intros cfg now vs d Hd.
  rewrite analyzeVitals_details, !in_app_iff in Hd.
  rewrite pressure_pushed, glucose_pushed, heartRate_pushed, temperature_pushed,
    oxygen_pushed in Hd.
  repeat match type of Hd with
         | _ \/ _ => destruct Hd as [Hd | Hd]
         end;
    match type of Hd with
    | context [match ?l with [] => _ | _ :: _ => _ end] =>
        destruct l as [|latest rest]; [destruct Hd|]
    end;
    repeat match type of Hd with
           | context [match ?o with Some _ => _ | None => _ end] =>
               destruct o eqn:?; try (destruct Hd; fail)
           end;
    repeat match type of Hd with
           | context [if ?c then _ else _] => destruct c eqn:?
           end;
    simpl in Hd;
    repeat match type of Hd with
           | _ \/ _ => destruct Hd as [Hd | Hd]
           end;
    try (destruct Hd; fail); subst d; simpl;
    (split; [reflexivity|]); intro Hs; try discriminate Hs;
    match goal with
    | H : meetsThreshold _ _ _ = true |- _ =>
        simpl in H;
        match goal with
        | E : numericValue _ = Some _ |- _ => rewrite E in H
        end;
        simpl in H; first [apply geq_true in H | apply leq_true in H]; exact H
    end.
Qed.

(** An oxygen reading of 88: threshold 92, value below it. *)
Lemma flag_detail_threshold_witness :
  threshold (mkDetail OXYGEN_LOW 88 92 sev_high)
  = thresholdOf DEFAULT_RISK_CONFIG OXYGEN_LOW
  /\ 88 <= 92.
Proof.
  destruct (flag_detail_threshold DEFAULT_RISK_CONFIG sampleNow
              [reading oxygen_saturation 88 1] (mkDetail OXYGEN_LOW 88 92 sev_high)
              (or_introl eq_refl)) as [Ht Hv].
  split; [exact Ht | exact (Hv eq_refl)].
Defined.

(** ** Risk score, further *)

Section ScoreParts.

Variable cfg : RiskCalculationConfig number.

Lemma scoreAdherence_parts (a : AdherenceAnalysis) (st : ScoreState) :
  fst (scoreAdherence cfg a st) == fst st + adherencePoints cfg a
  /\ snd (scoreAdherence cfg a st) = snd st ++ adherenceReasons a.
Proof.
  unfold scoreAdherence, adherencePoints, adherenceReasons.
  destruct (adherenceStatus a); simpl; split;
    try reflexivity; try ring; now rewrite app_nil_r.
Qed.

Lemma scoreExams_parts (e : ExamsAnalysis) (st : ScoreState) :
  fst (scoreExams cfg e st) == fst st + examPoints cfg e
  /\ snd (scoreExams cfg e st) = snd st ++ examReasons cfg e.
Proof.
  unfold scoreExams, examPoints, examReasons.
  destruct (Nat.ltb_spec 0 (overdueExams e)) as [Ho | Ho];
    destruct (3 <? pendingExams e)%nat; simpl; split;
    rewrite ?app_nil_r, <- ?app_assoc; try reflexivity; try ring.
  - assert (E : overdueExams e = 0%nat) by lia. rewrite E. simpl. ring.
  - assert (E : overdueExams e = 0%nat) by lia. rewrite E. simpl. ring.
Qed.

Lemma accumulate_score (a : AdherenceAnalysis) (v : VitalsAnalysis)
    (e : ExamsAnalysis) :
  fst (accumulate cfg a v e)
  == adherencePoints cfg a + sumPoints (pointsByDesign cfg) (flagDetails v)
     + examPoints cfg e.
Proof.
  unfold accumulate, scoreVitals.
  rewrite (proj1 (scoreExams_parts _ _)), scoreVitals_points,
    (proj1 (scoreAdherence_parts _ _)). simpl. ring.
Qed.

Lemma accumulate_reasons (a : AdherenceAnalysis) (v : VitalsAnalysis)
    (e : ExamsAnalysis) :
  snd (accumulate cfg a v e)
  = adherenceReasons a
    ++ map (fun d => ReasonFlag (flag d) (value d)) (flagDetails v)
    ++ examReasons cfg e.
Proof.
  unfold accumulate, scoreVitals.
  rewrite (proj2 (scoreExams_parts _ _)), scoreVitals_reasons,
    (proj2 (scoreAdherence_parts _ _)). simpl. now rewrite <- app_assoc.
Qed.

End ScoreParts.

Lemma clamp_Qeq (x y : number) : x == y -> clamp x == clamp y.
Proof.
  intro E. unfold clamp, Math_min, Math_max.
  rewrite <- (Qleb_comp 0 0 (Qeq_refl 0) x y E).
  destruct (Qle_bool 0 x); [|reflexivity].
  rewrite <- (Qleb_comp 100 100 (Qeq_refl 100) x y E).
  destruct (Qle_bool 100 x); [reflexivity | exact E].
Qed.

Lemma round2_Qeq (x y : number) : x == y -> round2 x == round2 y.
Proof.
  intro E. unfold round2.
  rewrite (Math_round_Qeq (x * 100) (y * 100)); [reflexivity|].
  rewrite E. reflexivity.
Qed.

Lemma clamp_high (s : number) : 100 <= s -> clamp s == 100.
Proof.
  intro H. unfold clamp, Math_min, Math_max.
  destruct (Qle_bool 0 s) eqn:E0.
  - rewrite (proj2 (Qle_bool_iff 100 s) H). reflexivity.
  - apply Qle_bool_false in E0. lra.
Qed.

Lemma clamp_low (s : number) : s <= 0 -> clamp s == 0.
Proof.
  intro H. unfold clamp, Math_min, Math_max.
  destruct (Qle_bool 0 s) eqn:E0.
  - apply Qle_bool_iff in E0.
    destruct (Qle_bool 100 s) eqn:E1; [apply Qle_bool_iff in E1; lra | lra].
  - reflexivity.
Qed.

Lemma clamp_above (s b : number) : b <= 100 -> b <= s -> b <= clamp s.
Proof.
  intros Hb H. unfold clamp, Math_min, Math_max.
  destruct (Qle_bool 0 s) eqn:E0.
  - destruct (Qle_bool 100 s); [exact Hb | exact H].
  - apply Qle_bool_false in E0.
    destruct (Qle_bool 100 0) eqn:E1; [apply Qle_bool_iff in E1; lra | lra].
Qed.

(** X15.  The reasons come in contribution order, one per contribution: the
    adherence reason if adherence is bad or medium, then one reason per flag
    detail in the order of [flagDetails], then the overdue-exams reason, then
    the pending-exams reason. *)
Theorem reasons_in_contribution_order :
  forall (cfg : RiskCalculationConfig number) (a : AdherenceAnalysis)
         (v : VitalsAnalysis) (e : ExamsAnalysis),
    reasons (calculateRiskScore cfg a v e)
    = adherenceReasons a
      ++ map (fun d => ReasonFlag (flag d) (value d)) (flagDetails v)
      ++ examReasons cfg e
    /\ length (reasons (calculateRiskScore cfg a v e))
       = (length (adherenceReasons a) + length (flagDetails v)
          + length (examReasons cfg e))%nat.
Proof.
  intros cfg a v e. unfold calculateRiskScore. cbv zeta. simpl reasons.
  rewrite accumulate_reasons. split; [reflexivity|].
  rewrite !length_app, length_map. lia.
Qed.

(** X16.  The value is the sum of the adherence weight, the points of the
    flag details, the overdue weight once per overdue exam and the pending
    weight once when more than three exams are pending, clamped to [0, 100]
    and rounded to two decimals; the level is read off the clamped sum. *)
Theorem risk_value_formula :
  forall (cfg : RiskCalculationConfig number) (a : AdherenceAnalysis)
         (v : VitalsAnalysis) (e : ExamsAnalysis),
    let total := adherencePoints cfg a
                 + sumPoints (pointsByDesign cfg) (flagDetails v)
                 + examPoints cfg e in
    risk_value (calculateRiskScore cfg a v e) == round2 (clamp total)
    /\ level (calculateRiskScore cfg a v e) = levelOf cfg (clamp total).
Proof.
  intros cfg a v e total. subst total. unfold calculateRiskScore. cbv zeta. simpl.
  pose proof (clamp_Qeq _ _ (accumulate_score cfg a v e)) as E. split.
  - apply round2_Qeq. exact E.
  - apply levelOf_Qeq. exact E.
Qed.

(** X17.  The score saturates: when the contributions add up to 100 or more
    the value is 100 and the level is that of 100; when they add up to 0 or
    less the value is 0. *)
Theorem risk_value_saturates :
  forall (cfg : RiskCalculationConfig number) (a : AdherenceAnalysis)
         (v : VitalsAnalysis) (e : ExamsAnalysis),
    (100 <= fst (accumulate cfg a v e) ->
     risk_value (calculateRiskScore cfg a v e) == 100
     /\ level (calculateRiskScore cfg a v e) = levelOf cfg 100)
    /\ (fst (accumulate cfg a v e) <= 0 ->
        risk_value (calculateRiskScore cfg a v e) == 0).
Proof.
  intros cfg a v e. unfold calculateRiskScore. cbv zeta. simpl. split; intro H.
  - pose proof (clamp_high _ H) as E. split.
    + rewrite (round2_Qeq _ _ E). reflexivity.
    + apply levelOf_Qeq. exact E.
  - rewrite (round2_Qeq _ _ (clamp_low _ H)). reflexivity.
Qed.

(** Seven overdue exams alone add up to 105: value 100, level high.  Nothing
    at all adds up to 0: value 0. *)
Lemma risk_value_saturates_witness :
  (risk_value (calculateRiskScore DEFAULT_RISK_CONFIG goodAdherence noFlags sevenOverdue)
   == 100
   /\ level (calculateRiskScore DEFAULT_RISK_CONFIG goodAdherence noFlags sevenOverdue)
      = level_high)
  /\ risk_value (calculateRiskScore DEFAULT_RISK_CONFIG goodAdherence noFlags noExams)
     == 0.
Proof.
  split.
  - apply (proj1 (risk_value_saturates DEFAULT_RISK_CONFIG goodAdherence noFlags
                    sevenOverdue)).
    vm_compute. discriminate.
  - apply (proj2 (risk_value_saturates DEFAULT_RISK_CONFIG goodAdherence noFlags
                    noExams)).
    vm_compute. discriminate.
Defined.

Section DefaultScore.

Lemma default_points_at_least_10 (d : FlagDetail) :
  10 <= pointsByDesign DEFAULT_RISK_CONFIG d.
Proof.
  destruct d as [f x t s]. destruct f, s; vm_compute; discriminate.
Qed.

Lemma default_sumPoints_bounds (ds : list FlagDetail) :
  0 <= sumPoints (pointsByDesign DEFAULT_RISK_CONFIG) ds
  /\ (ds <> [] -> 10 <= sumPoints (pointsByDesign DEFAULT_RISK_CONFIG) ds).
Proof.
  induction ds as [|d ds [IH0 _]]; simpl.
  - split; [lra | intro H; now elim H].
  - pose proof (default_points_at_least_10 d). split; [lra | intros _; lra].
Qed.

Lemma default_adherencePoints_bounds (a : AdherenceAnalysis) :
  0 <= adherencePoints DEFAULT_RISK_CONFIG a
  /\ (adherenceReasons a <> [] -> 10 <= adherencePoints DEFAULT_RISK_CONFIG a).
Proof.
  unfold adherencePoints, adherenceReasons.
  destruct (adherenceStatus a); simpl; split;
    try (intro H; now elim H); try (intros _); unfold Qle; simpl; lia.
Qed.

Lemma default_examPoints_bounds (e : ExamsAnalysis) :
  0 <= examPoints DEFAULT_RISK_CONFIG e
  /\ (examReasons DEFAULT_RISK_CONFIG e <> [] -> 5 <= examPoints DEFAULT_RISK_CONFIG e).
Proof.
  unfold examPoints, examReasons. simpl.
  assert (Hn : 0 <= inject_Z (Z.of_nat (overdueExams e))).
  { change 0 with (inject_Z 0). rewrite <- Zle_Qle. lia. }
  destruct (Nat.ltb_spec 0 (overdueExams e)) as [Ho | Ho];
    destruct (3 <? pendingExams e)%nat; simpl.
  - assert (H1 : inject_Z 1 <= inject_Z (Z.of_nat (overdueExams e)))
      by (rewrite <- Zle_Qle; lia).
    change (inject_Z 1) with 1 in H1. split; [lra | intros _; lra].
  - assert (H1 : inject_Z 1 <= inject_Z (Z.of_nat (overdueExams e)))
      by (rewrite <- Zle_Qle; lia).
    change (inject_Z 1) with 1 in H1. split; [lra | intros _; lra].
  - split; [lra | intros _; lra].
  - split; [lra | intro H; now elim H].
Qed.

End DefaultScore.

(** X18.  Under the default configuration the value is 0 exactly when there
    is no reason, that is when nothing contributed; any contribution brings
    the value to 5 at least. *)
Theorem default_zero_iff_no_reason :
  forall (a : AdherenceAnalysis) (v : VitalsAnalysis) (e : ExamsAnalysis),
    (risk_value (calculateRiskScore DEFAULT_RISK_CONFIG a v e) == 0
     <-> reasons (calculateRiskScore DEFAULT_RISK_CONFIG a v e) = [])
    /\ (reasons (calculateRiskScore DEFAULT_RISK_CONFIG a v e) <> [] ->
        5 <= risk_value (calculateRiskScore DEFAULT_RISK_CONFIG a v e)).
Proof.
  intros a v e.
  assert (Hfive : reasons (calculateRiskScore DEFAULT_RISK_CONFIG a v e) <> [] ->
                  5 <= risk_value (calculateRiskScore DEFAULT_RISK_CONFIG a v e)).
  { unfold calculateRiskScore. cbv zeta. simpl. intro Hne.
    rewrite (round2_halfInteger _
               (halfInteger_clamp _ (default_accumulate_halfInteger a v e))).
    apply clamp_above; [lra|].
    rewrite accumulate_score. rewrite accumulate_reasons in Hne.
    destruct (default_adherencePoints_bounds a) as [A0 A1].
    destruct (default_sumPoints_bounds (flagDetails v)) as [S0 S1].
    destruct (default_examPoints_bounds e) as [E0 E1].
    destruct (adherenceReasons a) as [|r rs] eqn:Ea.
    - destruct (flagDetails v) as [|d ds] eqn:Ed.
      + simpl in Hne. specialize (E1 Hne). cbn [sumPoints fold_right] in *. lra.
      + assert (H : 10 <= sumPoints (pointsByDesign DEFAULT_RISK_CONFIG) (d :: ds))
          by (apply S1; discriminate).
        lra.
    - assert (H : 10 <= adherencePoints DEFAULT_RISK_CONFIG a)
        by (apply A1; discriminate).
      lra. }
  split; [|exact Hfive]. split.
  - intro Hz.
    destruct (reasons (calculateRiskScore DEFAULT_RISK_CONFIG a v e)) eqn:E;
      [reflexivity|].
    assert (H : 5 <= risk_value (calculateRiskScore DEFAULT_RISK_CONFIG a v e))
      by (apply Hfive; discriminate).
    rewrite Hz in H. exfalso. revert H. vm_compute. intro H. apply H. reflexivity.
  - unfold calculateRiskScore. cbv zeta. simpl. intro Hnil.
    rewrite (accumulate_silent _ _ _ _ Hnil). reflexivity.
Qed.

(** Medium adherence alone: one reason, value 10. *)
Lemma default_zero_iff_no_reason_witness :
  5 <= risk_value
         (calculateRiskScore DEFAULT_RISK_CONFIG
            (mkAdherence 30 100 80 0 20 80 medium) noFlags noExams).
Proof.
  apply (proj2 (default_zero_iff_no_reason
                  (mkAdherence 30 100 80 0 20 80 medium) noFlags noExams)).
  discriminate.
Defined.

(** ** Recommendations, further *)

Lemma includes_filter (p : VitalFlag -> bool) (f : VitalFlag) (l : list VitalFlag) :
  p f = true -> includes f (filter p l) = includes f l.
Proof.
  intro Hp. unfold includes. induction l as [|g l IH]; simpl; [reflexivity|].
  destruct (p g) eqn:Pg; simpl.
  - now rewrite IH.
  - rewrite IH. destruct (VitalFlag_eqb f g) eqn:E; [|reflexivity].
    assert (f = g) by (destruct f, g; try discriminate E; reflexivity).
    subst g. congruence.
Qed.

Lemma foundHigh_filter (q : FlagDetail -> bool) (f : VitalFlag)
    (ds : list FlagDetail) :
  (forall d, flag d = f -> q d = true) ->
  foundHigh f (filter q ds) = foundHigh f ds.
Proof.
  intro Hq. unfold foundHigh. induction ds as [|d ds IH]; simpl; [reflexivity|].
  destruct (q d) eqn:Qd; simpl.
  - destruct (VitalFlag_eqb (flag d) f); [reflexivity | exact IH].
  - destruct (VitalFlag_eqb (flag d) f) eqn:E; [|exact IH].
    assert (flag d = f) by (destruct (flag d), f; try discriminate E; reflexivity).
    rewrite (Hq d H) in Qd. discriminate Qd.
Qed.

Lemma includes_false (f : VitalFlag) (l : list VitalFlag) :
  (forall g, In g l -> g <> f) -> includes f l = false.
Proof.
  intro H. unfold includes. induction l as [|g l IH]; simpl; [reflexivity|].
  rewrite IH by (intros x Hx; apply H; right; exact Hx).
  destruct (VitalFlag_eqb f g) eqn:E; [|reflexivity].
  assert (g = f) by (destruct f, g; try discriminate E; reflexivity).
  elim (H g (or_introl eq_refl)). assumption.
Qed.

(** X19.  No rule looks at the heart-rate and temperature flags: removing
    them from an analysis leaves the recommendations unchanged. *)
Theorem recommendations_ignore_heart_rate_and_temperature :
  forall (a : AdherenceAnalysis) (v : VitalsAnalysis) (e : ExamsAnalysis)
         (riskScore : RiskScore),
    generateRecommendations a (withoutUnadvised v) e riskScore
    = generateRecommendations a v e riskScore.
Proof.
  intros a v e riskScore.
  unfold generateRecommendations, ruleRecommendations, withoutUnadvised.
  cbv zeta. simpl flags. simpl flagDetails.
  rewrite !includes_filter by reflexivity.
  rewrite !foundHigh_filter by (intros d Hd; rewrite Hd; reflexivity).
  reflexivity.
Qed.

(** X20.  A patient with good adherence, low risk, no overdue exam, at most
    three pending exams and no flag other than heart-rate and temperature
    flags receives the default message alone, which reads that the vital
    signs are within parameters. *)
Theorem fever_and_pulse_alone_read_stable :
  forall (a : AdherenceAnalysis) (v : VitalsAnalysis) (e : ExamsAnalysis)
         (riskScore : RiskScore),
    adherenceStatus a = good ->
    (forall f, In f (flags v) -> unadvised f = true) ->
    overdueExams e = 0%nat ->
    (pendingExams e <= 3)%nat ->
    level riskScore = level_low ->
    generateRecommendations a v e riskScore = [recStable].
Proof.
  intros a v e riskScore Ha Hf Ho Hp Hl.
  assert (Hsilent : ruleRecommendations a v e riskScore = []).
  { apply rules_silent_iff. unfold anyRuleFires.
    rewrite Ha, Hl, Ho.
    rewrite !includes_false
      by (intros g Hg E; subst g; specialize (Hf _ Hg); discriminate Hf).
    destruct (Nat.ltb_spec 3 (pendingExams e)); [lia | reflexivity]. }
  unfold generateRecommendations. cbv zeta. rewrite Hsilent. reflexivity.
Qed.

(** Good adherence, a pulse of 110 and a fever of 39 flagged, no exam: the
    default engine scores 20, level low, and the advice is the default
    message. *)
Lemma fever_and_pulse_alone_read_stable_witness :
  generateRecommendations goodAdherence feverAndPulse noExams
    (calculateRiskScore DEFAULT_RISK_CONFIG goodAdherence feverAndPulse noExams)
  = [recStable].
Proof.
  apply fever_and_pulse_alone_read_stable.
  - reflexivity.
  - intros f [<- | [<- | []]]; reflexivity.
  - reflexivity.
  - simpl. lia.
  - reflexivity.
Defined.

(** X21.  A list of recommendations holds between one and twelve messages. *)
Theorem recommendations_length_bounds :
  forall (a : AdherenceAnalysis) (v : VitalsAnalysis) (e : ExamsAnalysis)
         (riskScore : RiskScore),
    (1 <= length (generateRecommendations a v e riskScore) <= 12)%nat.
Proof.
  intros a v e riskScore.
  unfold generateRecommendations, ruleRecommendations, pushesIf. cbv zeta.
  destruct (adherenceStatus a), (level riskScore);
    destruct (includes PRESSURE_HIGH (flags v)),
             (includes PRESSURE_LOW (flags v)),
             (includes GLUCOSE_HIGH (flags v)),
             (includes GLUCOSE_LOW (flags v)),
             (includes OXYGEN_LOW (flags v)),
             (0 <? overdueExams e)%nat,
             (3 <? pendingExams e)%nat;
    cbn [app length Nat.eqb]; lia.
Qed.

Section Escalation.

Variable a : AdherenceAnalysis.
Variable v : VitalsAnalysis.
Variable e : ExamsAnalysis.
Variable riskScore : RiskScore.

Ltac split_rules H :=
  unfold generateRecommendations in H; cbv zeta in H;
  destruct (ruleRecommendations a v e riskScore) as [|r0 rs0] eqn:Erules;
  [ simpl in H; destruct H as [H | []]; discriminate H |];
  simpl Nat.eqb in H; cbv iota in H; rewrite <- Erules in H; clear Erules;
  unfold ruleRecommendations, pushesIf in H; cbv zeta in H;
  rewrite !in_app_iff in H.

Ltac settle H :=
  repeat match type of H with
         | context [match ?x with _ => _ end] => destruct x eqn:?
         end;
  simpl in H;
  repeat match type of H with
         | _ \/ _ => destruct H as [H | H]
         end;
  try discriminate H; try (destruct H; fail).

Ltac rule_fires :=
  unfold generateRecommendations; cbv zeta;
  destruct (ruleRecommendations a v e riskScore) as [|r0 rs0] eqn:Erules;
  [ exfalso; revert Erules; unfold ruleRecommendations, pushesIf; cbv zeta
  | simpl Nat.eqb; cbv iota; rewrite <- Erules; clear Erules;
    unfold ruleRecommendations, pushesIf; cbv zeta; rewrite !in_app_iff ].

Lemma urgent_pressure_iff :
  In recPressureUrgent (generateRecommendations a v e riskScore)
  <-> includes PRESSURE_HIGH (flags v) = true
      /\ foundHigh PRESSURE_HIGH (flagDetails v) = true.
Proof.
  split.
  - intro H. split_rules H.
    destruct H as [H | [H | [H | [H | [H | [H | [H | [H | H]]]]]]]];
      settle H; auto.
  - intros [Hi Hf]. rule_fires.
    + rewrite Hi, Hf. intro H. apply app_eq_nil in H. destruct H as [_ H].
      discriminate H.
    + right. left. rewrite Hi, Hf. left. reflexivity.
Qed.

Lemma urgent_glucose_iff :
  In recGlucoseLowUrgent (generateRecommendations a v e riskScore)
  <-> includes GLUCOSE_LOW (flags v) = true
      /\ foundHigh GLUCOSE_LOW (flagDetails v) = true.
Proof.
  split.
  - intro H. split_rules H.
    destruct H as [H | [H | [H | [H | [H | [H | [H | [H | H]]]]]]]];
      settle H; auto.
  - intros [Hi Hf]. rule_fires.
    + rewrite Hi, Hf. intro H.
      do 4 (apply app_eq_nil in H; destruct H as [_ H]).
      discriminate H.
    + do 4 right. left. rewrite Hi, Hf. left. reflexivity.
Qed.

Lemma high_risk_iff :
  In recRiskHigh1 (generateRecommendations a v e riskScore)
  <-> level riskScore = level_high.
Proof.
  split.
  - intro H. split_rules H.
    destruct H as [H | [H | [H | [H | [H | [H | [H | [H | H]]]]]]]];
      settle H; auto.
  - intro Hl. rule_fires.
    + rewrite Hl. intro H.
      do 8 (apply app_eq_nil in H; destruct H as [_ H]).
      discriminate H.
    + do 8 right. rewrite Hl. left. reflexivity.
Qed.

End Escalation.

(** X22.  The escalated messages mirror what the analysers computed: the
    urgent pressure message is present exactly when PRESSURE_HIGH is among the
    flags and its detail has high severity, the urgent hypoglycemia message
    exactly when GLUCOSE_LOW is among the flags and its detail has high
    severity, and the high-risk message exactly when the level is high. *)
Theorem escalation_messages :
  forall (a : AdherenceAnalysis) (v : VitalsAnalysis) (e : ExamsAnalysis)
         (riskScore : RiskScore),
    (In recPressureUrgent (generateRecommendations a v e riskScore)
     <-> includes PRESSURE_HIGH (flags v) = true
         /\ foundHigh PRESSURE_HIGH (flagDetails v) = true)
    /\ (In recGlucoseLowUrgent (generateRecommendations a v e riskScore)
        <-> includes GLUCOSE_LOW (flags v) = true
            /\ foundHigh GLUCOSE_LOW (flagDetails v) = true)
    /\ (In recRiskHigh1 (generateRecommendations a v e riskScore)
        <-> level riskScore = level_high).
Proof.
  intros a v e riskScore. split; [|split].
  - apply urgent_pressure_iff.
  - apply urgent_glucose_iff.
  - apply high_risk_iff.
Qed.

Lemma includes_In (f : VitalFlag) (l : list VitalFlag) :
  includes f l = true <-> In f l.
Proof.
  unfold includes. rewrite existsb_exists. split.
  - intros [g [Hg E]].
    assert (f = g) by (destruct f, g; try discriminate E; reflexivity).
    now subst g.
  - intro H. exists f. split; [exact H | destruct f; reflexivity].
Qed.

Lemma tier_high (c m : bool) : Severity_eqb (tier c m) sev_high = c.
Proof. destruct c, m; reflexivity. Qed.

Lemma foundHigh_pressure (cfg : RiskCalculationConfig number) (now : Date)
    (vs : list VitalRecord) :
  In PRESSURE_HIGH (flags (analyzeVitals cfg now vs)) ->
  (foundHigh PRESSURE_HIGH (flagDetails (analyzeVitals cfg now vs)) = true
   <-> exists latest s, latestReading now blood_pressure vs = Some latest
                        /\ systolic latest = Some s /\ 160 <= s).
Proof.
  rewrite flag_emitted_iff, latestReading_head, analyzeVitals_details,
    pressure_pushed.
  unfold triggered, guardOf, wellFormedPressure. cbn [channelOf singleReadingFlag].
  destruct (sortedGroup now blood_pressure vs) as [|latest rest]; [discriminate|].
  cbn [hd_error confirmations meetsThreshold].
  destruct (systolic latest) as [s|] eqn:Es; [|discriminate].
  destruct (diastolic latest) as [d|]; [|simpl; discriminate].
  cbn [isSome andb]. intro Hc. rewrite Hc.
  unfold foundHigh. cbn [app find flag VitalFlag_eqb severity severityOf].
  rewrite tier_high, geq_true. split.
  - intro H. exists latest, s. auto.
  - intros [l [s' [Hl [Hs H]]]]. injection Hl as <-.
    rewrite Es in Hs. injection Hs as <-. exact H.
Qed.

(** X23.  In a patient summary the urgent pressure message is present exactly
    when PRESSURE_HIGH is confirmed and the systolic value of the most recent
    in-window blood-pressure reading is 160 or more. *)
Theorem urgent_pressure_in_summary :
  forall (cfg : RiskCalculationConfig number) (now : Date) (patientId : string)
         (reminders : list ReminderRecord) (vs : list VitalRecord)
         (exams : list ExamRecord),
    In recPressureUrgent
       (Summary.recommendations
          (generatePatientSummary cfg now patientId reminders vs exams))
    <-> In PRESSURE_HIGH (flags (analyzeVitals cfg now vs))
        /\ exists latest s, latestReading now blood_pressure vs = Some latest
                            /\ systolic latest = Some s /\ 160 <= s.
Proof.
  intros cfg now patientId reminders vs exams.
  unfold generatePatientSummary. cbv zeta. simpl Summary.recommendations.
  rewrite urgent_pressure_iff, includes_In. split.
  - intros [Hi Hf]. split; [exact Hi|]. apply (foundHigh_pressure _ _ _ Hi). exact Hf.
  - intros [Hi Hl]. split; [exact Hi|]. apply (foundHigh_pressure _ _ _ Hi). exact Hl.
Qed.

(** ** The patient summary *)

Lemma no_recent_vitals (now : Date) (vs : list VitalRecord) :
  (forall v, In v vs -> (recordedAt v < daysAgo now 7)%Z) ->
  recentVitals now vs = [].
Proof.
  intro H. unfold recentVitals. apply filter_drop.
  intros v Hv. specialize (H v Hv). unfold notBefore.
  destruct (Z.leb_spec (daysAgo now 7) (recordedAt v)); [lia | reflexivity].
Qed.

(** X24.  With a good threshold of at most 100 and a non-negative [lowMax], a
    patient with no reminder in the last thirty days, no vital in the last
    seven days and no awaited exam gets the neutral summary: rate 100, status
    good, no flag, no pending or overdue exam, value 0, level low, no reason,
    and the default message as the only recommendation.  Empty lists are the
    first instance. *)
Theorem neutral_summary :
  forall (cfg : RiskCalculationConfig number) (now : Date) (patientId : string)
         (reminders : list ReminderRecord) (vs : list VitalRecord)
         (exams : list ExamRecord),
    Adherence.goodThreshold (adherence cfg) <= 100 ->
    0 <= RiskLevels.lowMax (riskLevels cfg) ->
    (forall x, In x reminders -> (scheduledAt x < daysAgo now 30)%Z) ->
    (forall v, In v vs -> (recordedAt v < daysAgo now 7)%Z) ->
    (forall x, In x exams -> awaited (Exam.status x) = false) ->
    let s := generatePatientSummary cfg now patientId reminders vs exams in
    adherenceRate (Summary.adherence s) = 100
    /\ adherenceStatus (Summary.adherence s) = good
    /\ Summary.vitals s = emptyAnalysis
    /\ pendingExams (counters (Summary.exams s)) = 0%nat
    /\ overdueExams (counters (Summary.exams s)) = 0%nat
    /\ risk_value (Summary.riskScore s) == 0
    /\ level (Summary.riskScore s) = level_low
    /\ reasons (Summary.riskScore s) = []
    /\ Summary.recommendations s = [recStable].
Proof.
  intros cfg now patientId reminders vs exams Hgood Hlow Hr Hv He s. subst s.
  unfold generatePatientSummary. cbv zeta.
  cbn [Summary.adherence Summary.vitals Summary.exams Summary.riskScore
       Summary.recommendations].
  assert (Ea : analyzeAdherence cfg now reminders
               = mkAdherence 30 0 0 0 0 100 good).
  { unfold analyzeAdherence. rewrite (no_recent_reminders _ _ Hr). simpl.
    f_equal. apply classifyAdherence_good. exact Hgood. }
  assert (Ev : analyzeVitals cfg now vs = emptyAnalysis).
  { unfold analyzeVitals. rewrite (no_recent_vitals _ _ Hv). reflexivity. }
  assert (Ee : exists c, counters (analyzeExams cfg now exams) = mkExams 0 0 c).
  { unfold analyzeExams. cbv zeta. simpl counters. rewrite countExam_fold.
    assert (Hp : countExams (fun x => awaited (Exam.status x)) exams = 0%nat).
    { unfold countExams. rewrite filter_drop; [reflexivity | exact He]. }
    assert (Ho : countExams (overdueExam cfg now) exams = 0%nat).
    { unfold countExams. rewrite filter_drop; [reflexivity|].
      intros x Hx. unfold overdueExam. now rewrite (He x Hx). }
    rewrite Hp, Ho. eexists. reflexivity. }
  destruct Ee as [c Ee]. rewrite Ea, Ev, Ee.
  assert (Hlevel : levelOf cfg (clamp 0) = level_low).
  { unfold levelOf. change (clamp 0) with 0.
    rewrite (proj2 (leq_true _ _) Hlow). reflexivity. }
  repeat split; try reflexivity.
  - apply Hlevel.
  - unfold generateRecommendations, ruleRecommendations, calculateRiskScore.
    cbv zeta. simpl. change (Math_min 100 (Math_max 0 0)) with (clamp 0).
    rewrite Hlevel. reflexivity.
Qed.

(** The default engine on three empty lists. *)
Lemma neutral_summary_witness :
  Summary.recommendations
    (generatePatientSummary DEFAULT_RISK_CONFIG sampleNow "patient-123" [] [] [])
  = [recStable]
  /\ level (Summary.riskScore
              (generatePatientSummary DEFAULT_RISK_CONFIG sampleNow "patient-123"
                 [] [] []))
     = level_low.
Proof.
  pose proof (neutral_summary DEFAULT_RISK_CONFIG sampleNow "patient-123" [] [] []
                ltac:(unfold Qle; simpl; lia) ltac:(unfold Qle; simpl; lia)
                (fun x (H : In x []) => match H with end)
                (fun v (H : In v []) => match H with end)
                (fun x (H : In x []) => match H with end)) as H.
  cbv zeta in H. split; apply H.
Defined.

(** ** The controller and its route *)

Open Scope string_scope.

Lemma generateRecommendations_nonempty (a : AdherenceAnalysis)
    (v : VitalsAnalysis) (e : ExamsAnalysis) (riskScore : RiskScore) :
  generateRecommendations a v e riskScore <> [].
Proof.
  unfold generateRecommendations. cbv zeta.
  destruct (ruleRecommendations a v e riskScore); simpl; discriminate.
Qed.

Lemma truthy_some (o : option string) (s : string) :
  truthy o = Some s -> o = Some s /\ s <> "".
Proof.
  unfold truthy. destruct o as [t|]; [|discriminate].
  destruct t; simpl; [discriminate|].
  intro H. injection H as <-. split; [reflexivity | discriminate].
Qed.

(** X25.  [checkPatientAccess] grants access exactly to the roles ADMIN,
    CAREGIVER and PROFESSIONAL, for any patient, and to the role PATIENT for
    the patient whose id is the user's own; any other role is refused. *)
Theorem access_rules :
  forall userId userRole patientId : string,
    checkPatientAccess userId userRole patientId = true
    <-> userRole = "ADMIN" \/ userRole = "CAREGIVER" \/ userRole = "PROFESSIONAL"
        \/ (userRole = "PATIENT" /\ userId = patientId).
Proof.
  intros u r p. unfold checkPatientAccess.
  destruct (String.eqb_spec r "ADMIN") as [-> | Ha]; [tauto|].
  destruct (String.eqb_spec r "PATIENT") as [-> | Hp].
  - rewrite String.eqb_eq. split.
    + intro H. right. right. right. auto.
    + intros [H | [H | [H | [_ H]]]]; try discriminate H. exact H.
  - destruct (String.eqb_spec r "CAREGIVER") as [-> | Hc]; [tauto|].
    destruct (String.eqb_spec r "PROFESSIONAL") as [-> | Hf]; [tauto|].
    split; [discriminate|]. intros [H | [H | [H | [H _]]]]; contradiction.
Qed.

(** X26.  [getPatientSummary] answers 200 exactly when it sends an analysis.
    It does so only for a request with a non-empty patient id and a user with
    non-empty id and role that passes [checkPatientAccess]; the analysis is
    then about the requested patient, is dated [now] and holds at least one
    recommendation. *)
Theorem summary_served_only_with_access :
  forall (now : Date) (req : Request),
    (statusCode (getPatientSummary now req) = 200%nat
     <-> exists data, body (getPatientSummary now req) = Analysis data)
    /\ (forall data, body (getPatientSummary now req) = Analysis data ->
        exists u userId userRole,
          user req = Some u
          /\ user_id u = Some userId /\ userId <> ""
          /\ user_role u = Some userRole /\ userRole <> ""
          /\ params_patientId req = Some (Summary.patientId data)
          /\ Summary.patientId data <> ""
          /\ checkPatientAccess userId userRole (Summary.patientId data) = true
          /\ Summary.generatedAt data = now
          /\ Summary.recommendations data <> []).
Proof.
  intros now req. unfold getPatientSummary.
  destruct (truthy (params_patientId req)) as [pid|] eqn:Ep.
  2:{ split; [split; [discriminate | intros [d Hd]; discriminate]|].
      intros d Hd. discriminate. }
  apply truthy_some in Ep. destruct Ep as [Ep Hpid].
  destruct (user req) as [u|].
  2:{ simpl. split; [split; [discriminate | intros [d Hd]; discriminate]|].
      intros d Hd. discriminate. }
  destruct (truthy (user_id u)) as [uid|] eqn:Eu.
  2:{ split; [split; [discriminate | intros [d Hd]; discriminate]|].
      intros d Hd. discriminate. }
  destruct (truthy (user_role u)) as [role|] eqn:Er.
  2:{ split; [split; [discriminate | intros [d Hd]; discriminate]|].
      intros d Hd. discriminate. }
  apply truthy_some in Eu. destruct Eu as [Eu Huid].
  apply truthy_some in Er. destruct Er as [Er Hrole].
  destruct (checkPatientAccess uid role pid) eqn:Ea.
  2:{ split; [split; [discriminate | intros [d Hd]; discriminate]|].
      intros d Hd. discriminate. }
  cbv zeta. cbn [statusCode body]. split.
  - split; [intros _; eexists; reflexivity | reflexivity].
  - intros d Hd. injection Hd as <-. exists u, uid, role.
    unfold generatePatientSummary. cbv zeta.
    cbn [Summary.patientId Summary.generatedAt Summary.recommendations].
    repeat split; auto. apply generateRecommendations_nonempty.
Qed.

(** An administrator asks for patient p-7. *)
Lemma summary_served_only_with_access_witness :
  exists u userId userRole,
    Some (mkUser (Some "u-1") (Some "ADMIN")) = Some u
    /\ user_id u = Some userId /\ userId <> ""
    /\ user_role u = Some userRole /\ userRole <> ""
    /\ Some "p-7" = Some "p-7"
    /\ "p-7" <> ""
    /\ checkPatientAccess userId userRole "p-7" = true
    /\ sampleNow = sampleNow
    /\ Summary.recommendations
         (generatePatientSummary DEFAULT_RISK_CONFIG sampleNow "p-7"
            (getPatientReminders sampleNow "p-7")
            (getPatientVitals sampleNow "p-7")
            (getPatientExams sampleNow "p-7")) <> [].
Proof.
  apply (proj2 (summary_served_only_with_access sampleNow
                  (mkRequest (Some "p-7")
                             (Some (mkUser (Some "u-1") (Some "ADMIN")))))
           (generatePatientSummary DEFAULT_RISK_CONFIG sampleNow "p-7"
              (getPatientReminders sampleNow "p-7")
              (getPatientVitals sampleNow "p-7")
              (getPatientExams sampleNow "p-7"))).
  reflexivity.
Defined.

(** X27.  A user with role PATIENT is never sent the analysis of another
    patient: whenever the handler sends one, it is that of the user's own
    id. *)
Theorem patient_sees_own_data_only :
  forall (now : Date) (req : Request) (u : User) (data : PatientAISummary),
    user req = Some u ->
    user_role u = Some "PATIENT" ->
    body (getPatientSummary now req) = Analysis data ->
    user_id u = Some (Summary.patientId data).
Proof.
  intros now req u data Hu Hr Hb. unfold getPatientSummary in Hb.
  rewrite Hu, Hr in Hb.
  destruct (truthy (params_patientId req)) as [pid|]; [|discriminate].
  destruct (truthy (user_id u)) as [uid|] eqn:Eu; [|discriminate].
  cbn [truthy nonEmpty] in Hb.
  destruct (checkPatientAccess uid "PATIENT" pid) eqn:Ea; [|discriminate].
  apply truthy_some in Eu. destruct Eu as [Eu _].
  unfold checkPatientAccess in Ea. simpl in Ea. apply String.eqb_eq in Ea.
  cbv zeta in Hb. cbn [body] in Hb. injection Hb as <-.
  unfold generatePatientSummary. cbv zeta. cbn [Summary.patientId].
  rewrite Eu, Ea. reflexivity.
Qed.

(** The patient user-123 asks for the own summary. *)
Lemma patient_sees_own_data_only_witness :
  Some "user-123"
  = Some (Summary.patientId
            (generatePatientSummary DEFAULT_RISK_CONFIG sampleNow "user-123"
               (getPatientReminders sampleNow "user-123")
               (getPatientVitals sampleNow "user-123")
               (getPatientExams sampleNow "user-123"))).
Proof.
  apply (patient_sees_own_data_only sampleNow
           (mkRequest (Some "user-123")
                      (Some (mkUser (Some "user-123") (Some "PATIENT"))))
           (mkUser (Some "user-123") (Some "PATIENT")) _
           eq_refl eq_refl eq_refl).
Defined.


Close Scope string_scope.
